(** * rbSFML, [bindings/ruby/sfml-window/window/Window.cpp]

    A shallow embedding of the Ruby binding of [sf::Window] and the
    properties its description states about it.

    The binding is C++ glue between three parties: the Ruby interpreter
    (values of type [VALUE], the object space, exceptions raised with
    [rb_raise]), the C++ run time ([new], [delete]) and the wrapped SFML
    library.  The embedding keeps the three apart:

    - a [VALUE] is the machine word the C code sees ([unsigned long]); the
      immediate values and the Fixnum tagging are the bit patterns of
      [ruby.h], heap objects are addresses into an object space;
    - every function of the binding is a computation over a [world] (object
      space, C++ memory, pending window events, the calls made so far) that
      returns, raises a Ruby exception, or is stuck on undefined behaviour;
    - calls into SFML and into the C++ allocator are recorded, in order, in
      the [trace] of the world: "the library is not called" reads "the
      trace did not grow".

    Platform: [int] and [long] are both 32 bits wide (the branch
    [SIZEOF_INT == SIZEOF_LONG] of [ruby.h]).  Memory exhaustion
    ([NoMemoryError], [std::bad_alloc]) is outside the model: allocation
    always succeeds. *)

From Stdlib Require Import ZArith Lia.
From Stdlib Require Import Floats.SpecFloat.
From stdpp Require Import base gmap strings list pretty.

Local Open Scope Z_scope.

(* ===================================================================== *)
(** * Machine words *)
(* ===================================================================== *)

Module Word.

(** [unsigned long] and [unsigned int]: 32 bits, arithmetic wraps. *)
Definition ULONG_MOD : Z := 2 ^ 32.
Definition LONG_MAX : Z := 2 ^ 31 - 1.
Definition LONG_MIN : Z := - 2 ^ 31.

Definition to_ulong (z : Z) : Z := z mod ULONG_MOD.
Definition to_uint (z : Z) : Z := z mod ULONG_MOD.

(** The value of a 32-bit pattern read as a (signed) [long]. *)
Definition to_long (z : Z) : Z :=
  let u := to_ulong z in
  if u <? 2 ^ 31 then u else u - ULONG_MOD.

(** [sf::Uint8]: the low eight bits. *)
Definition to_uint8 (z : Z) : Z := Z.land z 255.

(** [char], signed on this platform: the low eight bits read as a signed byte. *)
Definition to_char (z : Z) : Z :=
  let u := Z.land z 255 in
  if u <? 128 then u else u - 256.

End Word.

(* ===================================================================== *)
(** * Ruby values ([ruby.h]) *)
(* ===================================================================== *)

(** [typedef unsigned long VALUE;] *)
Abbreviation VALUE := Z (only parsing).

Definition NULL : Z := 0.

Definition Qfalse : VALUE := 0.
Definition Qtrue : VALUE := 2.
Definition Qnil : VALUE := 4.
Definition Qundef : VALUE := 6.

Definition FIXNUM_FLAG : Z := 1.
Definition FIXNUM_MAX : Z := 2 ^ 30 - 1.
Definition FIXNUM_MIN : Z := - 2 ^ 30.

(** [#define FIXNUM_P(f) (((long)(f))&FIXNUM_FLAG)] *)
Definition FIXNUM_P (f : VALUE) : bool := Z.land f FIXNUM_FLAG =? 1.

(** [#define SYMBOL_P(x) (((VALUE)(x)&0xff)==SYMBOL_FLAG)], [SYMBOL_FLAG] is [0x0e]. *)
Definition SYMBOL_P (x : VALUE) : bool := Z.land x 255 =? 14.

(** [#define INT2FIX(i) ((VALUE)(((long)(i))<<1 | FIXNUM_FLAG))] *)
Definition INT2FIX (i : Z) : VALUE :=
  Word.to_ulong (Z.lor (Z.shiftl i 1) FIXNUM_FLAG).

(** [#define FIX2LONG(x) RSHIFT((long)x,1)]: an arithmetic shift. *)
Definition FIX2LONG (x : VALUE) : Z := Z.shiftr (Word.to_long x) 1.

(** [#define FIX2ULONG(x) ((unsigned long)FIX2LONG(x))] *)
Definition FIX2ULONG (x : VALUE) : Z := Word.to_ulong (FIX2LONG x).

(** Modelled from the spec: [FIX2UINT] is a macro of [ruby.h], which is not
    part of the sources.  The description has it coerce a Fixnum without
    raising and hand on the integer reduced modulo [2^32]; that is the
    definition [#define FIX2UINT(x) ((unsigned int)FIX2ULONG(x))] of
    [ruby.h] where [int] and [long] have one size, taken here. *)
Definition FIX2UINT (x : VALUE) : Z := Word.to_uint (FIX2ULONG x).

(** [#define FIX2INT(x) ((int)FIX2LONG(x))] *)
Definition FIX2INT (x : VALUE) : Z := Word.to_long (FIX2LONG x).

(** A value that is no pointer into the object space. *)
Definition SPECIAL_CONST_P (x : VALUE) : bool :=
  FIXNUM_P x || (x =? Qfalse) || (x =? Qtrue) || (x =? Qnil) || (x =? Qundef)
  || SYMBOL_P x.


(** C's implicit conversions of an integer to [double] and to [float]:
    rounding to nearest-even into binary64 and binary32. *)
Definition double_of_integer (z : Z) : spec_float := binary_normalize 53 1024 z 0 false.
Definition float_of_integer (z : Z) : spec_float := binary_normalize 24 128 z 0 false.

(** The conversion of a [double] to [float]. *)
Definition float_of_double (d : spec_float) : spec_float :=
  match d with
  | S754_finite s m e => binary_normalize 24 128 (cond_Zopp s (Zpos m)) e s
  | _ => d
  end.

(** What C reads at a [char *]: the bytes before the first NUL. *)
Fixpoint c_str (s : string) : string :=
  match s with
  | EmptyString => EmptyString
  | String a r => if Ascii.eqb a Ascii.zero then EmptyString else String a (c_str r)
  end.

(* ===================================================================== *)
(** * The object space, C++ memory and the trace of calls *)
(* ===================================================================== *)

(** Functions handed to Ruby as pointers. *)
Inductive cfunc :=
| fn_Window_Free
| fn_Window_New
| fn_extern (name : string).

(** The type-specific part of a heap object ([struct RClass], [RString],
    [RFloat], [RArray], [RData], [RObject]).  A class keeps its own methods
    in [m_tbl]; [singleton_tbl] is the method table of its metaclass. *)
Inductive rbody :=
| T_CLASS (name : string) (super : VALUE)
          (m_tbl : gmap string (cfunc * Z)) (singleton_tbl : gmap string (cfunc * Z))
| T_STRING (ptr : string)
| T_FLOAT (value : spec_float)
| T_ARRAY (ptr : list VALUE)
| T_DATA (dmark dfree : option cfunc) (data : Z)
| T_OBJECT.

(** [struct RBasic] and what follows it. *)
Record robject := RObject { klass : VALUE; body : rbody }.

(** [sf::Event]: the event type and the bytes of the union after it. *)
Record sf_Event := Event { Type_ : Z; payload : list Z }.

(** Calls out of the binding: the methods of [sf::Window] (with [this] and
    the arguments received; [None] for a defaulted argument), and the C++
    allocator. *)
Inductive call :=
| new_Window (this mode : Z) (title : string) (style settings : option Z)
| delete_Window (this : Z)
| Create (this mode : Z) (title : string) (style settings : option Z)
| Display (this : Z)
| EnableKeyRepeat (this : Z) (flag : bool)
| GetEvent (this : Z) (reported : option sf_Event)
| GetInput (this : Z)
| GetSettings (this : Z)
| SetActive (this : Z) (flag : bool)
| SetCursorPosition (this x y : Z)
| SetFramerateLimit (this limit : Z)
| SetIcon (this width height pixels : Z) (bytes : list Z)
| SetJoystickTreshold (this : Z) (treshold : spec_float)
| SetPosition (this x y : Z)
| SetSize (this width height : Z)
| SetTitle (this : Z) (title : string)
| Show (this : Z) (flag : bool)
| new_array (p size : Z)
| delete_array (p : Z).

Record world := World {
  heap : gmap Z robject;        (* the Ruby object space *)
  brk : Z;                      (* where the next Ruby object is placed *)
  cxx_heap : gmap Z sf_Event;   (* sf::Event objects in C++ memory *)
  cxx_brk : Z;                  (* where operator new places the next object *)
  pending : list sf_Event;      (* events the window has queued, oldest first *)
  trace : list call;            (* calls made so far, oldest first *)
  globalWindowClass : VALUE     (* VALUE globalWindowClass; *)
}.

Definition set_heap (h : gmap Z robject) (b : Z) (w : world) : world :=
  World h b (cxx_heap w) (cxx_brk w) (pending w) (trace w) (globalWindowClass w).

Definition set_cxx (h : gmap Z sf_Event) (b : Z) (w : world) : world :=
  World (heap w) (brk w) h b (pending w) (trace w) (globalWindowClass w).

Definition set_pending (q : list sf_Event) (w : world) : world :=
  World (heap w) (brk w) (cxx_heap w) (cxx_brk w) q (trace w) (globalWindowClass w).

Definition log (c : call) (w : world) : world :=
  World (heap w) (brk w) (cxx_heap w) (cxx_brk w) (pending w) (trace w ++ [c])
        (globalWindowClass w).

Definition set_global (v : VALUE) (w : world) : world :=
  World (heap w) (brk w) (cxx_heap w) (cxx_brk w) (pending w) (trace w) v.

(** [sizeof(RVALUE)]: five words. *)
Definition sizeof_RVALUE : Z := 20.

(* ===================================================================== *)
(** * Computations: return, raise, or undefined behaviour *)
(* ===================================================================== *)

Inductive fault :=
| NullDereference      (* a null pointer is dereferenced *)
| OutOfBounds          (* args[i] is read with i >= argc *)
| WildPointer          (* a VALUE that is no object is used as one *)
| Unmodelled.          (* Ruby behaviour this model does not cover *)

Inductive outcome (A : Type) :=
| Return (a : A) (w : world)
| Raise (exc : VALUE) (msg : string) (w : world)
| Stuck (why : fault).

Arguments Return {A} a w.
Arguments Raise {A} exc msg w.
Arguments Stuck {A} why.

Definition M (A : Type) : Type := world -> outcome A.

Definition ret {A} (a : A) : M A := fun w => Return a w.

Definition bind {A B} (c : M A) (k : A -> M B) : M B := fun w =>
  match c w with
  | Return a w' => k a w'
  | Raise exc msg w' => Raise exc msg w'
  | Stuck why => Stuck why
  end.

Declare Scope rb_scope.
Delimit Scope rb_scope with rb.
Notation "x <- c ;; k" := (bind c (fun x => k))
  (at level 100, c at next level, right associativity) : rb_scope.
Notation "c ;; k" := (bind c (fun _ => k))
  (at level 100, right associativity) : rb_scope.
Local Open Scope rb_scope.

(** [rb_raise] does not return: control leaves the C function. *)
Definition rb_raise {A} (exc : VALUE) (msg : string) : M A := fun w => Raise exc msg w.

Definition stuck {A} (why : fault) : M A := fun _ => Stuck why.

(** The world an outcome leaves behind, if it leaves one. *)
Definition world_of {A} (o : outcome A) : option world :=
  match o with
  | Return _ w => Some w
  | Raise _ _ w => Some w
  | Stuck _ => None
  end.

(** The classes and exceptions the interpreter defines. *)
Class RubyCore := {
  rb_cObject : VALUE;
  rb_cClass : VALUE;
  rb_cFixnum : VALUE;
  rb_cNilClass : VALUE;
  rb_cFalseClass : VALUE;
  rb_cTrueClass : VALUE;
  rb_cSymbol : VALUE;
  rb_cString : VALUE;
  rb_cFloat : VALUE;
  rb_cArray : VALUE;
  rb_eTypeError : VALUE;
  rb_eArgError : VALUE;
  rb_eNoMethodError : VALUE
}.

(** What the file takes from the rest of the binding: the [extern VALUE]
    class globals and [GetNamespace()] of [main.hpp]. *)
Class Externs := {
  globalVideoModeClass : VALUE;
  globalContextSettingsClass : VALUE;
  globalEventClass : VALUE;
  globalInputClass : VALUE;
  GetNamespace : VALUE
}.

(** What the binding sees of SFML's memory layout: where a window keeps
    the [sf::Input] and the [sf::ContextSettings] it owns (what
    [&object->GetInput()] and [&object->GetSettings()] evaluate to), and the
    sizes of the objects allocated with [new]. *)
Class SFML := {
  myInput : Z -> Z;
  mySettings : Z -> Z;
  sizeof_Window : Z;
  sizeof_Event : Z
}.

Section Binding.

Context `{RubyCore} `{Externs} `{SFML}.

(* ===================================================================== *)
(** * The Ruby C API, as far as the binding uses it *)
(* ===================================================================== *)

(** [RBASIC(v)]: the object a pointer value points to. *)
Definition RBASIC (v : VALUE) : M robject := fun w =>
  match heap w !! v with
  | Some o => Return o w
  | None => Stuck WildPointer
  end.

(** [rb_newobj] and the initialisation that follows it. *)
Definition rb_newobj (o : robject) : M VALUE := fun w =>
  Return (brk w) (set_heap (<[brk w := o]> (heap w)) (brk w + sizeof_RVALUE) w).

(** [rb_class_of], behind the macro [CLASS_OF]. *)
Definition CLASS_OF (v : VALUE) : M VALUE :=
  if FIXNUM_P v then ret rb_cFixnum
  else if v =? Qnil then ret rb_cNilClass
  else if v =? Qfalse then ret rb_cFalseClass
  else if v =? Qtrue then ret rb_cTrueClass
  else if SYMBOL_P v then ret rb_cSymbol
  else o <- RBASIC v ;; ret (klass o).

(** [rb_class2name]. *)
Definition rb_class2name (c : VALUE) : M string :=
  o <- RBASIC c ;;
  match body o with
  | T_CLASS name _ _ _ => ret name
  | _ => stuck WildPointer
  end.

(** How error messages name the type of a value. *)
Definition etype (x : VALUE) : M string :=
  if x =? Qnil then ret "nil"
  else if FIXNUM_P x then ret "Fixnum"
  else if SYMBOL_P x then ret "Symbol"
  else if x =? Qtrue then ret "true"
  else if x =? Qfalse then ret "false"
  else c <- CLASS_OF x ;; rb_class2name c.

(** [Data_Get_Struct(obj, type, sval)]: [Check_Type(obj, T_DATA)], then
    [sval = (type* )DATA_PTR(obj)]. *)
Definition Data_Get_Struct (obj : VALUE) : M Z :=
  if obj =? Qundef then stuck Unmodelled
  else if SPECIAL_CONST_P obj then
    n <- etype obj ;;
    rb_raise rb_eTypeError ("wrong argument type " +:+ n +:+ " (expected Data)")
  else
    o <- RBASIC obj ;;
    match body o with
    | T_DATA _ _ data => ret data
    | _ =>
      n <- etype obj ;;
      rb_raise rb_eTypeError ("wrong argument type " +:+ n +:+ " (expected Data)")
    end.

(** [Data_Wrap_Struct(klass, mark, free, sval)]; a null function pointer is [None]. *)
Definition Data_Wrap_Struct (klass : VALUE) (mark free : option cfunc) (sval : Z) : M VALUE :=
  rb_newobj (RObject klass (T_DATA mark free sval)).

(** [rb_str_new2] *)
Definition rb_str_new2 (s : string) : M VALUE :=
  rb_newobj (RObject rb_cString (T_STRING s)).

(** [rb_float_new(double)] *)
Definition rb_float_new (d : spec_float) : M VALUE :=
  rb_newobj (RObject rb_cFloat (T_FLOAT d)).

(** [STR2CSTR(x)]: the characters of a String; anything else goes through
    [to_str], which none of the objects of this model defines. *)
Definition STR2CSTR (x : VALUE) : M string :=
  if SPECIAL_CONST_P x then
    n <- etype x ;; rb_raise rb_eTypeError ("can't convert " +:+ n +:+ " into String")
  else
    o <- RBASIC x ;;
    match body o with
    | T_STRING ptr => ret (c_str ptr)
    | _ => n <- etype x ;; rb_raise rb_eTypeError ("can't convert " +:+ n +:+ " into String")
    end.

(** [Module#to_s]: a new String with the name of the class. *)
Definition rb_mod_to_s (recv : VALUE) : M VALUE :=
  if SPECIAL_CONST_P recv then stuck Unmodelled
  else
    o <- RBASIC recv ;;
    match body o with
    | T_CLASS name _ _ _ => rb_str_new2 name
    | _ => stuck Unmodelled
    end.

(** What [Array#flatten] makes of a value: an array is replaced by its
    flattened elements, anything else stays.  Every array entered takes one
    unit of [fuel]; with as much fuel as there are objects, running out
    means that an array contains itself. *)
Fixpoint flatten (fuel : nat) (h : gmap Z robject) (v : VALUE) : option (list VALUE) :=
  if SPECIAL_CONST_P v then Some [v]
  else match h !! v with
       | Some (RObject _ (T_ARRAY inner)) =>
         match fuel with
         | O => None
         | S fuel' => mjoin <$> mapM (flatten fuel' h) inner
         end
       | _ => Some [v]
       end.

(** [rb_ary_flatten]: a new array; [ArgumentError] on a recursive array,
    [NoMethodError] when the receiver is no array. *)
Definition rb_ary_flatten (ary : VALUE) : M VALUE :=
  if SPECIAL_CONST_P ary then
    n <- etype ary ;; rb_raise rb_eNoMethodError ("undefined method `flatten' for " +:+ n)
  else
    o <- RBASIC ary ;;
    match body o with
    | T_ARRAY _ =>
      fun w =>
        match flatten (size (heap w)) (heap w) ary with
        | Some flat => rb_newobj (RObject rb_cArray (T_ARRAY flat)) w
        | None => Raise rb_eArgError "tried to flatten recursive array" w
        end
    | _ => n <- etype ary ;; rb_raise rb_eNoMethodError ("undefined method `flatten' for " +:+ n)
    end.

(** [rb_ary_entry(ary, offset)] with [long offset]: a negative offset
    counts from the end, an offset outside the array gives [nil]. *)
Definition rb_ary_entry (ary : VALUE) (offset : Z) : M VALUE :=
  o <- RBASIC ary ;;
  match body o with
  | T_ARRAY ptr =>
    let len := Z.of_nat (length ptr) in
    let offset := if offset <? 0 then offset + len else offset in
    if (offset <? 0) || (len <=? offset) then ret Qnil
    else ret (default Qnil (ptr !! Z.to_nat offset))
  | _ => stuck WildPointer
  end.

(** [NUM2INT(x)], that is [(int)NUM2LONG(x)]: a Fixnum is unpacked, [nil]
    raises.  The conversions of Float, Bignum and [to_int] are not modelled. *)
Definition NUM2INT (x : VALUE) : M Z :=
  if FIXNUM_P x then ret (Word.to_long (FIX2LONG x))
  else if x =? Qnil then rb_raise rb_eTypeError "no implicit conversion from nil to integer"
  else stuck Unmodelled.

(** [#define NUM2CHR(x) (((TYPE(x) == T_STRING)&&(RSTRING(x)->len>=1))?
    RSTRING(x)->ptr[0]:(char)(NUM2INT(x)&0xff))] *)
Definition NUM2CHR (x : VALUE) : M Z :=
  if SPECIAL_CONST_P x then
    n <- NUM2INT x ;; ret (Word.to_char (Z.land n 255))
  else
    o <- RBASIC x ;;
    match body o with
    | T_STRING (String c _) => ret (Word.to_char (Z.of_N (Ascii.N_of_ascii c)))
    | _ => n <- NUM2INT x ;; ret (Word.to_char (Z.land n 255))
    end.

(** [rb_obj_call_init(obj, 0, 0)] calls [initialize] without arguments.
    No class of these sources defines it: it is [Object#initialize], which
    does nothing. *)
Definition rb_obj_call_init (obj : VALUE) : M unit := ret tt.

(** [rb_define_class_under(outer, name, super)]: a new class named after
    the module it is defined under.  (The constant that [outer] gets is
    not modelled.) *)
Definition rb_define_class_under (outer : VALUE) (name : string) (super : VALUE) : M VALUE :=
  outer_name <- rb_class2name outer ;;
  rb_newobj (RObject rb_cClass (T_CLASS (outer_name +:+ "::" +:+ name) super ∅ ∅)).

(** [rb_define_singleton_method(obj, name, func, argc)] *)
Definition rb_define_singleton_method (obj : VALUE) (name : string) (func : cfunc) (argc : Z)
  : M unit := fun w =>
  match heap w !! obj with
  | Some (RObject k (T_CLASS n super m_tbl singleton_tbl)) =>
    Return tt (set_heap
      (<[obj := RObject k (T_CLASS n super m_tbl (<[name := (func, argc)]> singleton_tbl))]>
         (heap w)) (brk w) w)
  | Some _ => Stuck Unmodelled
  | None => Stuck WildPointer
  end.

(** [args[i]] of an argument vector of [argc] values. *)
Definition arg (args : list VALUE) (i : nat) : M VALUE :=
  match args !! i with
  | Some v => ret v
  | None => stuck OutOfBounds
  end.

(** [*p] for a pointer handed on as a C++ reference. *)
Definition deref (p : Z) : M Z :=
  if p =? NULL then stuck NullDereference else ret p.

(* ===================================================================== *)
(** * SFML and the C++ run time *)
(* ===================================================================== *)

(** [object->Method(...)]: the call is recorded. *)
Definition sf (object : Z) (method : Z -> call) : M unit :=
  this <- deref object ;;
  fun w => Return tt (log (method this) w).

(** [new sf::Window(...)] *)
Definition cxx_new_Window (mode : Z) (title : string) (style settings : option Z) : M Z :=
  fun w =>
    let this := cxx_brk w in
    Return this
      (log (new_Window this mode title style settings)
           (set_cxx (cxx_heap w) (this + sizeof_Window) w)).

(** [new sf::Event(e)] *)
Definition cxx_new_Event (e : sf_Event) : M Z := fun w =>
  let p := cxx_brk w in
  Return p (set_cxx (<[p := e]> (cxx_heap w)) (p + sizeof_Event) w).

(** [*p = e] for [sf::Event *p] *)
Definition cxx_store_Event (p : Z) (e : sf_Event) : M unit :=
  q <- deref p ;;
  fun w => Return tt (set_cxx (<[q := e]> (cxx_heap w)) (cxx_brk w) w).

(** [new sf::Uint8[size]] and [delete[] p] *)
Definition cxx_new_array (size : Z) : M Z := fun w =>
  let p := cxx_brk w in
  Return p (log (new_array p size) (set_cxx (cxx_heap w) (p + Z.max size 1) w)).

Definition cxx_delete_array (p : Z) : M unit := fun w =>
  Return tt (log (delete_array p) w).

(** [window->GetEvent(event)]: the oldest pending event is handed out, if
    there is one. *)
Definition sf_GetEvent (window : Z) : M (option sf_Event) :=
  this <- deref window ;;
  fun w =>
    match pending w with
    | [] => Return None (log (GetEvent this None) w)
    | e :: q => Return (Some e) (log (GetEvent this (Some e)) (set_pending q w))
    end.

(** Modelled from the spec: [Event.new] belongs to the Event class of the
    binding, which is not part of the sources.  [getEvent] is described as
    returning a newly constructed Event object: [new] allocates an
    [sf::Event] of the type given and wraps it. *)
Definition Event_new (type : VALUE) : M VALUE :=
  p <- cxx_new_Event (Event (FIX2INT type) []) ;;
  Data_Wrap_Struct globalEventClass None (Some (fn_extern "Event_Free")) p.

(** [rb_funcall(recv, rb_intern(mid), argc, ...)] for the three methods the
    file calls: [Module#to_s], [Event.new] and [Array#flatten]. *)
Definition rb_funcall (recv : VALUE) (mid : string) (args : list VALUE) : M VALUE :=
  if String.eqb mid "to_s" then
    match args with [] => rb_mod_to_s recv | _ => stuck Unmodelled end
  else if String.eqb mid "flatten" then
    match args with [] => rb_ary_flatten recv | _ => stuck Unmodelled end
  else if String.eqb mid "new" then
    match args with
    | [type] => if recv =? globalEventClass then Event_new type else stuck Unmodelled
    | _ => stuck Unmodelled
    end
  else stuck Unmodelled.

(* ===================================================================== *)
(** * Window.cpp *)
(* ===================================================================== *)

(** [#define VALIDATE_CLASS( variable, type, name )] *)
Definition VALIDATE_CLASS (variable type : VALUE) (name : string) : M unit :=
  c <- CLASS_OF variable ;;
  if negb (c =? type) then
    s <- rb_funcall type "to_s" [] ;;
    cs <- STR2CSTR s ;;
    rb_raise rb_eTypeError (name +:+ " argument must be instance of " +:+ cs)
  else ret tt.

(** [static void Window_Free( sf::Window *anObject )]: [delete anObject;]
    (deleting a null pointer does nothing). *)
Definition Window_Free (anObject : Z) : M unit :=
  if anObject =? NULL then ret tt
  else fun w => Return tt (log (delete_Window anObject) w).

(** ["Expected 2..4 arguments but was given %d"] *)
Definition expected_2_4 (argc : Z) : string :=
  "Expected 2..4 arguments but was given " +:+ pretty argc.

Definition Window_Create (args : list VALUE) (self : VALUE) : M VALUE :=
  let argc := Z.of_nat (length args) in
  object <- Data_Get_Struct self ;;
  match argc with
  | 2 =>
    a0 <- arg args 0 ;; VALIDATE_CLASS a0 globalVideoModeClass "first" ;;
    a1 <- arg args 1 ;; VALIDATE_CLASS a1 rb_cString "second" ;;
    mode <- Data_Get_Struct a0 ;;
    m <- deref mode ;;
    title <- STR2CSTR a1 ;;
    sf object (fun this => Create this m title None None)
  | 3 =>
    a0 <- arg args 0 ;; VALIDATE_CLASS a0 globalVideoModeClass "first" ;;
    a1 <- arg args 1 ;; VALIDATE_CLASS a1 rb_cString "second" ;;
    a2 <- arg args 2 ;; VALIDATE_CLASS a2 rb_cFixnum "third" ;;
    mode <- Data_Get_Struct a0 ;;
    m <- deref mode ;;
    title <- STR2CSTR a1 ;;
    sf object (fun this => Create this m title (Some (FIX2UINT a2)) None)
  | 4 =>
    a0 <- arg args 0 ;; VALIDATE_CLASS a0 globalVideoModeClass "first" ;;
    a1 <- arg args 1 ;; VALIDATE_CLASS a1 rb_cString "second" ;;
    a2 <- arg args 2 ;; VALIDATE_CLASS a2 rb_cFixnum "third" ;;
    a3 <- arg args 3 ;; VALIDATE_CLASS a3 globalContextSettingsClass "fourth" ;;
    mode <- Data_Get_Struct a0 ;;
    settings <- Data_Get_Struct a3 ;;
    m <- deref mode ;;
    title <- STR2CSTR a1 ;;
    s <- deref settings ;;
    sf object (fun this => Create this m title (Some (FIX2UINT a2)) (Some s))
  | _ => rb_raise rb_eArgError (expected_2_4 argc)
  end ;;
  ret Qnil.

Definition Window_Display (self : VALUE) : M VALUE :=
  object <- Data_Get_Struct self ;;
  sf object Display ;;
  ret Qnil.

Definition Window_EnableKeyRepeat (self anEnableFlag : VALUE) : M VALUE :=
  object <- Data_Get_Struct self ;;
  (if anEnableFlag =? Qfalse then sf object (fun this => EnableKeyRepeat this false)
   else if anEnableFlag =? Qtrue then sf object (fun this => EnableKeyRepeat this true)
   else rb_raise rb_eTypeError "Expected true or false") ;;
  ret Qnil.

Definition Window_GetEvent (self : VALUE) : M VALUE :=
  window <- Data_Get_Struct self ;;
  polled <- sf_GetEvent window ;;
  match polled with
  | Some event =>
    rbObject <- rb_funcall globalEventClass "new" [INT2FIX (Type_ event)] ;;
    rubyRawEvent <- Data_Get_Struct rbObject ;;
    cxx_store_Event rubyRawEvent event ;;
    ret rbObject
  | None => ret Qnil
  end.

Definition Window_GetInput (self : VALUE) : M VALUE :=
  object <- Data_Get_Struct self ;;
  sf object GetInput ;;
  rbData <- Data_Wrap_Struct globalInputClass None None (myInput object) ;;
  rb_obj_call_init rbData ;;
  ret rbData.

Definition Window_GetSettings (self : VALUE) : M VALUE :=
  object <- Data_Get_Struct self ;;
  sf object GetSettings ;;
  rbData <- Data_Wrap_Struct globalContextSettingsClass None None (mySettings object) ;;
  rb_obj_call_init rbData ;;
  ret rbData.

Definition Window_SetActive (self anActiveFlag : VALUE) : M VALUE :=
  object <- Data_Get_Struct self ;;
  (if anActiveFlag =? Qfalse then sf object (fun this => SetActive this false)
   else if anActiveFlag =? Qtrue then sf object (fun this => SetActive this true)
   else rb_raise rb_eTypeError "Expected true or false") ;;
  ret Qnil.

Definition Window_SetCursorPosition (self aX aY : VALUE) : M VALUE :=
  object <- Data_Get_Struct self ;;
  sf object (fun this => SetCursorPosition this (FIX2UINT aX) (FIX2UINT aY)) ;;
  ret Qnil.

Definition Window_SetFramerateLimit (self aLimit : VALUE) : M VALUE :=
  object <- Data_Get_Struct self ;;
  sf object (fun this => SetFramerateLimit this (FIX2UINT aLimit)) ;;
  ret Qnil.

(** The body of the [for] loop of [Window_SetIcon], run [n] times from
    [index] on. *)
Fixpoint fill_tempData (n : nat) (pixels : VALUE) (index : Z) (tempData : list Z)
  : M (list Z) :=
  match n with
  | O => ret tempData
  | S n' =>
    entry <- rb_ary_entry pixels (Word.to_long index) ;;
    c <- NUM2CHR entry ;;
    let val := Word.to_uint8 c in
    fill_tempData n' pixels (index + 1) (<[Z.to_nat index := val]> tempData)
  end.

Definition Window_SetIcon (self aWidth aHeight somePixels : VALUE) : M VALUE :=
  let rawWidth := FIX2UINT aWidth in
  let rawHeight := FIX2UINT aHeight in
  let dataSize := Word.to_ulong (Word.to_uint (Word.to_uint (rawWidth * rawHeight) * 4)) in
  tempData <- cxx_new_array dataSize ;;
  pixels <- rb_funcall somePixels "flatten" [] ;;
  bytes <- fill_tempData (Z.to_nat dataSize) pixels 0 (replicate (Z.to_nat dataSize) 0) ;;
  object <- Data_Get_Struct self ;;
  sf object (fun this => SetIcon this rawWidth rawHeight tempData bytes) ;;
  cxx_delete_array tempData ;;
  ret Qnil.

(** [rb_float_new] takes a [double] and returns a [VALUE];
    [SetJoystickTreshold] takes a [float].  C converts on the way in and on
    the way out. *)
Definition Window_SetJoystickTreshold (self aTreshold : VALUE) : M VALUE :=
  object <- Data_Get_Struct self ;;
  f <- rb_float_new (double_of_integer aTreshold) ;;
  sf object (fun this => SetJoystickTreshold this (float_of_integer f)) ;;
  ret Qnil.

Definition Window_SetPosition (self aX aY : VALUE) : M VALUE :=
  object <- Data_Get_Struct self ;;
  sf object (fun this => SetPosition this (FIX2UINT aX) (FIX2UINT aY)) ;;
  ret Qnil.

Definition Window_SetSize (self aWidth aHeight : VALUE) : M VALUE :=
  object <- Data_Get_Struct self ;;
  sf object (fun this => SetSize this (FIX2UINT aWidth) (FIX2UINT aHeight)) ;;
  ret Qnil.

Definition Window_SetTitle (self aTitle : VALUE) : M VALUE :=
  object <- Data_Get_Struct self ;;
  title <- STR2CSTR aTitle ;;
  sf object (fun this => SetTitle this title) ;;
  ret Qnil.

Definition Window_Show (self aShowFlag : VALUE) : M VALUE :=
  object <- Data_Get_Struct self ;;
  (if aShowFlag =? Qfalse then sf object (fun this => Show this false)
   else if aShowFlag =? Qtrue then sf object (fun this => Show this true)
   else rb_raise rb_eTypeError "Expected true or false") ;;
  ret Qnil.

Definition Window_New (args : list VALUE) (aKlass : VALUE) : M VALUE :=
  let argc := Z.of_nat (length args) in
  let mode := NULL in
  object <-
    match argc with
    | 0 =>
      m <- deref mode ;;
      a1 <- arg args 1 ;;
      title <- STR2CSTR a1 ;;
      cxx_new_Window m title None None
    | 2 =>
      a0 <- arg args 0 ;; VALIDATE_CLASS a0 globalVideoModeClass "first" ;;
      a1 <- arg args 1 ;; VALIDATE_CLASS a1 rb_cString "second" ;;
      mode <- Data_Get_Struct a0 ;;
      m <- deref mode ;;
      title <- STR2CSTR a1 ;;
      cxx_new_Window m title None None
    | 3 =>
      a0 <- arg args 0 ;; VALIDATE_CLASS a0 globalVideoModeClass "first" ;;
      a1 <- arg args 1 ;; VALIDATE_CLASS a1 rb_cString "second" ;;
      a2 <- arg args 2 ;; VALIDATE_CLASS a2 rb_cFixnum "third" ;;
      mode <- Data_Get_Struct a0 ;;
      m <- deref mode ;;
      title <- STR2CSTR a1 ;;
      cxx_new_Window m title (Some (FIX2UINT a2)) None
    | 4 =>
      a0 <- arg args 0 ;; VALIDATE_CLASS a0 globalVideoModeClass "first" ;;
      a1 <- arg args 1 ;; VALIDATE_CLASS a1 rb_cString "second" ;;
      a2 <- arg args 2 ;; VALIDATE_CLASS a2 rb_cFixnum "third" ;;
      a3 <- arg args 3 ;; VALIDATE_CLASS a3 globalContextSettingsClass "fourth" ;;
      mode <- Data_Get_Struct a0 ;;
      settings <- Data_Get_Struct a3 ;;
      m <- deref mode ;;
      title <- STR2CSTR a1 ;;
      s <- deref settings ;;
      cxx_new_Window m title (Some (FIX2UINT a2)) (Some s)
    | _ => rb_raise rb_eArgError (expected_2_4 argc)
    end ;;
  rbData <- Data_Wrap_Struct aKlass None (Some fn_Window_Free) object ;;
  rb_obj_call_init rbData ;;
  ret rbData.

Definition Init_Window : M unit :=
  c <- rb_define_class_under GetNamespace "Window" rb_cObject ;;
  (fun w => Return tt (set_global c w)) ;;
  g <- (fun w => Return (globalWindowClass w) w) ;;
  (* Class methods *)
  rb_define_singleton_method g "new" fn_Window_New (-1)
  (* Instance methods *)
  (* Aliases *).

(* ===================================================================== *)
(** * The garbage collector *)
(* ===================================================================== *)

(** Calling a function through its pointer, as the collector does with the
    free function of a wrapper. *)
Definition RUBY_DATA_FUNC (f : cfunc) (p : Z) : M unit :=
  match f with
  | fn_Window_Free => Window_Free p
  | _ => stuck Unmodelled
  end.

(** [obj_free] of [gc.c] on a wrapper: when [DATA_PTR] is not null and a
    free function is registered it is called on [DATA_PTR]; the slot is
    then released. *)
Definition obj_free (obj : VALUE) : M unit :=
  o <- RBASIC obj ;;
  match body o with
  | T_DATA _ (Some dfree) data => if data =? NULL then ret tt else RUBY_DATA_FUNC dfree data
  | _ => ret tt
  end ;;
  fun w => Return tt (set_heap (delete obj (heap w)) (brk w) w).

End Binding.

(** What a window answers when it is asked for its size and whether it
    is open.  The answers are not the binding's: they are read off the
    world the call is made in.  [GetWidth] and [GetHeight] return
    [unsigned int]. *)
Class Readings := {
  GetWidth_reading : world -> Z -> Z;
  GetHeight_reading : world -> Z -> Z;
  IsOpened_reading : world -> Z -> bool
}.

Section Getters.

Context `{RubyCore} `{Externs} `{SFML} `{Readings}.

(** [object->GetWidth()], [object->GetHeight()], [object->IsOpened()]:
    [const] member functions, answered from the world. *)
Definition sf_GetWidth (object : Z) : M Z :=
  this <- deref object ;;
  fun w => Return (Word.to_uint (GetWidth_reading w this)) w.

Definition sf_GetHeight (object : Z) : M Z :=
  this <- deref object ;;
  fun w => Return (Word.to_uint (GetHeight_reading w this)) w.

Definition sf_IsOpened (object : Z) : M bool :=
  this <- deref object ;;
  fun w => Return (IsOpened_reading w this) w.

Definition Window_GetHeight (self : VALUE) : M VALUE :=
  object <- Data_Get_Struct self ;;
  height <- sf_GetHeight object ;;
  ret (INT2FIX height).

Definition Window_GetWidth (self : VALUE) : M VALUE :=
  object <- Data_Get_Struct self ;;
  width <- sf_GetWidth object ;;
  ret (INT2FIX width).

Definition Window_IsOpened (self : VALUE) : M VALUE :=
  object <- Data_Get_Struct self ;;
  opened <- sf_IsOpened object ;;
  if Bool.eqb opened true then ret Qtrue else ret Qfalse.

End Getters.

(* ===================================================================== *)
(** * Reading a world *)
(* ===================================================================== *)

Section Observations.

Context `{RubyCore}.

(** The native pointer a wrapper holds ([DATA_PTR]), if the value is a wrapper. *)
Definition data_of (w : world) (v : VALUE) : option Z :=
  if SPECIAL_CONST_P v then None
  else match heap w !! v with
       | Some (RObject _ (T_DATA _ _ data)) => Some data
       | _ => None
       end.

(** The class of a value, as [CLASS_OF] finds it. *)
Definition class_of (w : world) (v : VALUE) : option VALUE :=
  if FIXNUM_P v then Some rb_cFixnum
  else if v =? Qnil then Some rb_cNilClass
  else if v =? Qfalse then Some rb_cFalseClass
  else if v =? Qtrue then Some rb_cTrueClass
  else if SYMBOL_P v then Some rb_cSymbol
  else klass <$> heap w !! v.

(** The name of a class object. *)
Definition name_of (w : world) (c : VALUE) : option string :=
  if SPECIAL_CONST_P c then None
  else match heap w !! c with
       | Some (RObject _ (T_CLASS name _ _ _)) => Some name
       | _ => None
       end.

(** The elements of an array object. *)
Definition elements_of (w : world) (v : VALUE) : option (list VALUE) :=
  if SPECIAL_CONST_P v then None
  else match heap w !! v with
       | Some (RObject _ (T_ARRAY ptr)) => Some ptr
       | _ => None
       end.

(** [v] is a wrapper, an instance of [c], around the native pointer [data]. *)
Definition wraps (w : world) (v c data : Z) : Prop :=
  SPECIAL_CONST_P v = false /\
  exists mark free, heap w !! v = Some (RObject c (T_DATA mark free data)).

(** [v] is a String, an instance of [String] itself, with the characters [s]. *)
Definition is_String (w : world) (v : VALUE) (s : string) : Prop :=
  SPECIAL_CONST_P v = false /\ heap w !! v = Some (RObject rb_cString (T_STRING s)).

(** The instance methods and the singleton methods registered on a class. *)
Definition instance_methods (w : world) (c : VALUE) : option (gmap string (cfunc * Z)) :=
  match heap w !! c with
  | Some (RObject _ (T_CLASS _ _ m_tbl _)) => Some m_tbl
  | _ => None
  end.

Definition singleton_methods (w : world) (c : VALUE) : option (gmap string (cfunc * Z)) :=
  match heap w !! c with
  | Some (RObject _ (T_CLASS _ _ _ singleton_tbl)) => Some singleton_tbl
  | _ => None
  end.

(** Both allocators are at a usable place: the next Ruby object goes to a
    word-aligned free address past the immediate values, and [new] does not
    return null. *)
Definition well_placed (w : world) : Prop :=
  8 <= brk w /\ brk w mod 4 = 0 /\ heap w !! brk w = None /\ 0 < cxx_brk w.

(** The library-facing part of a world: the calls made, the pending
    events and C++ memory. *)
Definition library_side (w : world) : list call * list sf_Event * gmap Z sf_Event * Z :=
  (trace w, pending w, cxx_heap w, cxx_brk w).

(** A computation that leaves the library-facing part of the world alone. *)
Definition quiet {A} (c : M A) : Prop :=
  forall w,
    match c w with
    | Return _ w' => library_side w' = library_side w
    | Raise _ _ w' => library_side w' = library_side w
    | Stuck _ => True
    end.

(** A computation that leaves the whole world alone when it returns, and
    the library-facing part of it when it raises. *)
Definition steady {A} (c : M A) : Prop :=
  forall w,
    match c w with
    | Return _ w' => w' = w
    | Raise _ _ w' => library_side w' = library_side w
    | Stuck _ => True
    end.

(** A computation that does not return. *)
Definition never_returns {A} (c : M A) : Prop :=
  forall w, match c w with Return _ _ => False | _ => True end.

(** The world after [Module#to_s] has made a String of a class name. *)
Definition with_name (w : world) (name : string) : world :=
  set_heap (<[brk w := RObject rb_cString (T_STRING name)]> (heap w))
           (brk w + sizeof_RVALUE) w.

End Observations.

(** The positions of the arguments of [Create] and of [new], with the
    class each must be an instance of. *)
Definition required `{RubyCore} `{Externs} : list (string * VALUE) :=
  [ ("first", globalVideoModeClass);
    ("second", rb_cString);
    ("third", rb_cFixnum);
    ("fourth", globalContextSettingsClass) ].

(** An outcome rejects the arguments [args], checked in the world [w]:
    it is a [TypeError] whose message names a position [j] at which the
    argument is not an instance of the class required there, no argument
    before [j] is at fault, and the library-facing part of the world is
    as it was. *)
Definition rejects `{RubyCore} `{Externs} (w : world) (args : list VALUE)
    (o : outcome VALUE) : Prop :=
  exists (j : nat) v pos c name w',
    args !! j = Some v /\ required !! j = Some (pos, c) /\
    class_of w v <> Some c /\
    (forall (i : nat) v' pos' c',
       (i < j)%nat -> args !! i = Some v' -> required !! i = Some (pos', c') ->
       class_of w v' = Some c') /\
    name_of w c = Some name /\
    o = Raise rb_eTypeError (pos +:+ " argument must be instance of " +:+ c_str name) w' /\
    library_side w' = library_side w.

(** The numeric value of an integer entry of an array. *)
Definition integer_of (v : VALUE) : option Z :=
  if FIXNUM_P v then Some (FIX2LONG v) else None.

(** [setIcon] as it is described, for one call: when the flattened
    pixels have at least [width * height * 4] entries, the call returns
    after the buffer has been allocated, passed to [SetIcon] and released,
    the buffer passed has [width * height * 4] bytes, and each byte is the
    numeric value of the entry at its index. *)
Definition SetIcon_as_described `{RubyCore} `{Externs} `{SFML}
    (w : world) (self : VALUE) (width height : Z) (somePixels : VALUE) : Prop :=
  forall object flat,
    data_of w self = Some object ->
    flatten (size (heap w)) (heap w) somePixels = Some flat ->
    width * height * 4 <= Z.of_nat (length flat) ->
    exists p size rawWidth rawHeight bytes w',
      Window_SetIcon self (INT2FIX width) (INT2FIX height) somePixels w = Return Qnil w' /\
      trace w' = trace w ++ [new_array p size; SetIcon object rawWidth rawHeight p bytes;
                             delete_array p] /\
      Z.of_nat (length bytes) = width * height * 4 /\
      (forall (i : nat) v,
         Z.of_nat i < width * height * 4 -> flat !! i = Some v ->
         exists n, integer_of v = Some n /\ bytes !! i = Some n).

(** The numeric value of a Ruby number as a [double] ([NUM2DBL]), for
    Fixnum and Float. *)
Definition numeric_value (w : world) (t : VALUE) : option spec_float :=
  if FIXNUM_P t then Some (double_of_integer (FIX2LONG t))
  else if SPECIAL_CONST_P t then None
  else match heap w !! t with
       | Some (RObject _ (T_FLOAT value)) => Some value
       | _ => None
       end.

(** [dataSize] of [Window_SetIcon]: the product of the two sizes and 4,
    in [unsigned int] arithmetic. *)
Definition icon_size (aWidth aHeight : VALUE) : Z :=
  Word.to_ulong (Word.to_uint (Word.to_uint (FIX2UINT aWidth * FIX2UINT aHeight) * 4)).

(** Two outcomes agree: both raise the same exception with the same
    message and leave the same world, or both are stuck on the same fault,
    or both return, and then the values and worlds are related by [R]. *)
Definition agree {A B} (R : A -> world -> B -> world -> Prop)
    (o1 : outcome A) (o2 : outcome B) : Prop :=
  match o1, o2 with
  | Return a w1, Return b w2 => R a w1 b w2
  | Raise exc1 msg1 w1, Raise exc2 msg2 w2 => exc1 = exc2 /\ msg1 = msg2 /\ w1 = w2
  | Stuck why1, Stuck why2 => why1 = why2
  | _, _ => False
  end.

(** [Create] on the window [object] and [new] were given the same
    arguments: the library received the same mode, title, style and
    settings, once in [Create], once in the constructor of a window placed
    at [p]. *)
Definition same_arguments `{SFML} (w : world) (object : Z) (w1 : world) (p : Z) (w2 : world)
  : Prop :=
  exists w' mode title style settings,
    library_side w' = library_side w /\
    w1 = log (Create object mode title style settings) w' /\
    p = cxx_brk w' /\
    w2 = log (new_Window p mode title style settings)
             (set_cxx (cxx_heap w') (p + sizeof_Window) w').

(** The signed 31-bit integer with the bits of [i]: what a Fixnum made
    from [i] holds. *)
Definition fixnum_of (i : Z) : Z := (i + 2 ^ 30) mod 2 ^ 31 - 2 ^ 30.

(** A computation that, when it returns, has done one thing to the world:
    it has constructed one [sf::Window], at the address [new] was at, and
    returns the pointer to it; and that has left the library-facing part
    of the world alone when it raises. *)
Definition constructs `{SFML} (c : M Z) : Prop :=
  forall w,
    match c w with
    | Return object w' =>
      object = cxx_brk w /\
      exists mode title style settings,
        w' = log (new_Window object mode title style settings)
                 (set_cxx (cxx_heap w) (object + sizeof_Window) w)
    | Raise _ _ w' => library_side w' = library_side w
    | Stuck _ => True
    end.

(** The argument lists [new] goes through with: a VideoMode and a String,
    then possibly a Fixnum, then possibly a ContextSettings; the wrappers
    hold pointers that are not null. *)
Definition accepted `{RubyCore} `{Externs} (w : world) (args : list VALUE) : Prop :=
  exists a0 a1 mode title rest,
    args = a0 :: a1 :: rest /\
    wraps w a0 globalVideoModeClass mode /\ mode <> NULL /\
    is_String w a1 title /\
    match rest with
    | [] => True
    | [a2] => FIXNUM_P a2 = true
    | [a2; a3] =>
      FIXNUM_P a2 = true /\
      exists settings, wraps w a3 globalContextSettingsClass settings /\ settings <> NULL
    | _ => False
    end.

(** The first [n] entries of the flattened pixels are there and are
    Fixnums: the loop of [Window_SetIcon] gets through them. *)
Definition all_Fixnums (flat : list VALUE) (n : nat) : bool :=
  (n <=? length flat)%nat && forallb FIXNUM_P (take n flat).

(* ===================================================================== *)
(** * A concrete world *)
(* ===================================================================== *)

Module Demo.

Definition core : RubyCore :=
  {| rb_cObject := 1000; rb_cClass := 1020; rb_cFixnum := 1040; rb_cNilClass := 1060;
     rb_cFalseClass := 1080; rb_cTrueClass := 1100; rb_cSymbol := 1120;
     rb_cString := 1140; rb_cFloat := 1160; rb_cArray := 1180;
     rb_eTypeError := 1200; rb_eArgError := 1220; rb_eNoMethodError := 1240 |}.

Definition externs : Externs :=
  {| globalVideoModeClass := 1260; globalContextSettingsClass := 1280;
     globalEventClass := 1300; globalInputClass := 1320; GetNamespace := 1340 |}.

Definition sfml : SFML :=
  {| myInput := fun this => this + 8; mySettings := fun this => this + 64;
     sizeof_Window := 128; sizeof_Event := 24 |}.

#[export] Existing Instances core externs sfml.

Definition class (name : string) : robject := RObject 1020 (T_CLASS name 1000 ∅ ∅).

(** [SFML::Window] as it is once [Init_Window] has run. *)
Definition Window_class : robject :=
  RObject 1020 (T_CLASS "SFML::Window" 1000 ∅ {[ "new" := (fn_Window_New, -1) ]}).

Definition a_mode : VALUE := 1380.
Definition a_title : VALUE := 1400.
Definition some_settings : VALUE := 1420.
Definition a_window : VALUE := 1440.
Definition some_pixels : VALUE := 1460.

Definition objects : gmap Z robject :=
  list_to_map
    [ (1000, class "Object"); (1020, class "Class"); (1040, class "Fixnum");
      (1060, class "NilClass"); (1080, class "FalseClass"); (1100, class "TrueClass");
      (1120, class "Symbol"); (1140, class "String"); (1160, class "Float");
      (1180, class "Array"); (1200, class "TypeError"); (1220, class "ArgumentError");
      (1240, class "NoMethodError"); (1260, class "SFML::VideoMode");
      (1280, class "SFML::ContextSettings"); (1300, class "SFML::Event");
      (1320, class "SFML::Input"); (1340, class "SFML"); (1360, Window_class);
      (a_mode, RObject 1260 (T_DATA None (Some (fn_extern "VideoMode_Free")) 5000));
      (a_title, RObject 1140 (T_STRING "SFML window"));
      (some_settings,
       RObject 1280 (T_DATA None (Some (fn_extern "ContextSettings_Free")) 5100));
      (a_window, RObject 1360 (T_DATA None (Some fn_Window_Free) 6000));
      (some_pixels, RObject 1180 (T_ARRAY [INT2FIX 300; 1480; INT2FIX 0]));
      (1480, RObject 1180 (T_ARRAY [INT2FIX 7; INT2FIX 255])) ].

(** A window exists, one event is pending, nothing has been called yet. *)
Definition w0 : world := World objects 1500 ∅ 7000 [Event 3 [1; 2]] [] 1360.

(** The same before [Init_Window] has run. *)
Definition boot : world := World (delete 1360 objects) 1500 ∅ 7000 [] [] Qnil.

(** The pixels of [some_pixels] in one array without nesting. *)
Definition flat_pixels : VALUE := 1500.

(** The world [w0] with that array in it. *)
Definition w1 : world :=
  World (<[flat_pixels := RObject 1180
                            (T_ARRAY [INT2FIX 300; INT2FIX 7; INT2FIX 255; INT2FIX 0])]>
           objects)
        1520 ∅ 7000 [Event 3 [1; 2]] [] 1360.

(** Pixels with a hole: the second entry is [nil]. *)
Definition holed_pixels : VALUE := 1500.

(** The world [w0] with that array in it. *)
Definition w0_holed : world :=
  World (<[holed_pixels := RObject 1180 (T_ARRAY [INT2FIX 1; Qnil; INT2FIX 3; INT2FIX 4])]>
           objects)
        1520 ∅ 7000 [Event 3 [1; 2]] [] 1360.

(** A window of 800 by 600 that is open. *)
Definition readings : Readings :=
  {| GetWidth_reading := fun _ _ => 800;
     GetHeight_reading := fun _ _ => 600;
     IsOpened_reading := fun _ _ => true |}.

#[export] Existing Instance readings.

End Demo.

(* ===================================================================== *)
(** * Facts about words and tagged values *)
(* ===================================================================== *)

Lemma to_long_small z : Word.LONG_MIN <= z <= Word.LONG_MAX -> Word.to_long z = z.
Proof.
  unfold Word.to_long, Word.to_ulong, Word.ULONG_MOD, Word.LONG_MIN, Word.LONG_MAX.
  intros Hz.
  destruct (Z_lt_le_dec z 0) as [Hneg|Hpos].
  - replace (z mod 2 ^ 32) with (z + 2 ^ 32)
      by (apply Z.mod_unique with (q := -1); lia).
    destruct (Z.ltb_spec (z + 2 ^ 32) (2 ^ 31)); lia.
  - rewrite Z.mod_small by lia.
    destruct (Z.ltb_spec z (2 ^ 31)); lia.
Qed.

Lemma Word_to_ulong_range z : 0 <= Word.to_ulong z < Word.ULONG_MOD.
Proof. unfold Word.to_ulong, Word.ULONG_MOD. apply Z.mod_pos_bound. lia. Qed.

Lemma land_255 z : Z.land z 255 = z mod 256.
Proof. change 255 with (Z.ones 8). now rewrite Z.land_ones by lia. Qed.

(** A [char] stored into an [sf::Uint8] keeps its low eight bits. *)
Lemma to_uint8_to_char z : Word.to_uint8 (Word.to_char z) = z mod 256.
Proof.
  unfold Word.to_uint8, Word.to_char. rewrite !land_255.
  pose proof (Z.mod_pos_bound z 256 ltac:(lia)) as Hb.
  destruct (Z.ltb_spec (z mod 256) 128).
  - now rewrite Z.mod_mod by lia.
  - symmetry. apply Z.mod_unique with (q := -1); lia.
Qed.

Lemma INT2FIX_odd i : INT2FIX i = (2 * i + 1) mod 2 ^ 32.
Proof.
  unfold INT2FIX, Word.to_ulong, Word.ULONG_MOD, FIXNUM_FLAG.
  rewrite Z.shiftl_mul_pow2 by lia.
  replace (i * 2 ^ 1) with (2 * i) by lia.
  now rewrite Z.lor_comm, <- Z.add_nocarry_lor, Z.add_comm
    by (rewrite Z.land_comm; change 1 with (Z.ones 1);
        rewrite Z.land_ones by lia; change (2 ^ 1) with 2;
        rewrite Z.mul_comm; apply Z.mod_mul; lia).
Qed.

Lemma FIX2LONG_INT2FIX i : FIXNUM_MIN <= i <= FIXNUM_MAX -> FIX2LONG (INT2FIX i) = i.
Proof.
  unfold FIXNUM_MIN, FIXNUM_MAX. intros Hi.
  unfold FIX2LONG. rewrite INT2FIX_odd.
  assert (Hl : Word.to_long ((2 * i + 1) mod 2 ^ 32) = 2 * i + 1).
  { unfold Word.to_long, Word.to_ulong, Word.ULONG_MOD.
    rewrite Z.mod_mod by lia.
    fold Word.ULONG_MOD. fold (Word.to_ulong (2 * i + 1)).
    fold (Word.to_long (2 * i + 1)).
    apply to_long_small. unfold Word.LONG_MIN, Word.LONG_MAX. lia. }
  rewrite Hl, Z.shiftr_div_pow2 by lia. change (2 ^ 1) with 2.
  rewrite Z.add_comm, Z.mul_comm, Z.div_add by lia. reflexivity.
Qed.

Lemma FIXNUM_P_INT2FIX i : FIXNUM_P (INT2FIX i) = true.
Proof.
  unfold FIXNUM_P, FIXNUM_FLAG. rewrite INT2FIX_odd.
  change 1 with (Z.ones 1) at 2. rewrite Z.land_ones by lia. change (2 ^ 1) with 2.
  rewrite Z.mod_mod_divide by (exists (2 ^ 31); reflexivity).
  rewrite Z.add_comm, Z.mul_comm, Z.mod_add by lia. reflexivity.
Qed.

(** What [FIX2UINT] makes of a Fixnum: the integer modulo [2^32]. *)
Lemma FIX2UINT_INT2FIX i :
  FIXNUM_MIN <= i <= FIXNUM_MAX -> FIX2UINT (INT2FIX i) = i mod 2 ^ 32.
Proof.
  intros Hi. unfold FIX2UINT, FIX2ULONG. rewrite FIX2LONG_INT2FIX by assumption.
  unfold Word.to_uint, Word.to_ulong, Word.ULONG_MOD. now rewrite Z.mod_mod by lia.
Qed.

(** [SPECIAL_CONST_P] taken apart. *)
Lemma not_special x :
  SPECIAL_CONST_P x = false ->
  FIXNUM_P x = false /\ (x =? Qfalse) = false /\ (x =? Qtrue) = false /\
  (x =? Qnil) = false /\ (x =? Qundef) = false /\ SYMBOL_P x = false.
Proof.
  unfold SPECIAL_CONST_P. intros Hx.
  repeat (apply orb_false_elim in Hx; destruct Hx as [Hx ?]). tauto.
Qed.

(** A word-aligned address past the immediate values is a pointer. *)
Lemma aligned_not_special a : 8 <= a -> a mod 4 = 0 -> SPECIAL_CONST_P a = false.
Proof.
  intros Hge Hal.
  assert (H2 : a mod 2 = 0).
  { rewrite <- (Z.mod_mod_divide a 4 2) by (exists 2; reflexivity). now rewrite Hal. }
  assert (H256 : (a mod 256) mod 4 = 0).
  { rewrite Z.mod_mod_divide by (exists 64; reflexivity). exact Hal. }
  unfold SPECIAL_CONST_P, FIXNUM_P, SYMBOL_P, FIXNUM_FLAG, Qfalse, Qtrue, Qnil, Qundef.
  rewrite land_255. change 1 with (Z.ones 1) at 1. rewrite Z.land_ones by lia.
  change (2 ^ 1) with 2. rewrite H2.
  repeat (apply orb_false_intro); try (apply Z.eqb_neq; lia).
  apply Z.eqb_neq. intros E. rewrite E in H256. discriminate.
Qed.

(* ===================================================================== *)
(** * Facts about the Ruby C API *)
(* ===================================================================== *)

Lemma bind_Return {A B} (c : M A) (k : A -> M B) w a w' :
  c w = Return a w' -> bind c k w = k a w'.
Proof. unfold bind. now intros ->. Qed.

Lemma bind_Raise {A B} (c : M A) (k : A -> M B) w exc msg w' :
  c w = Raise exc msg w' -> bind c k w = Raise exc msg w'.
Proof. unfold bind. now intros ->. Qed.

Lemma bind_Stuck {A B} (c : M A) (k : A -> M B) w why :
  c w = Stuck why -> bind c k w = Stuck why.
Proof. unfold bind. now intros ->. Qed.

Section ApiFacts.

Context `{RubyCore} `{Externs} `{SFML}.

Lemma Data_Get_Struct_data w obj data :
  data_of w obj = Some data -> Data_Get_Struct obj w = Return data w.
Proof.
  unfold data_of, Data_Get_Struct. destruct (SPECIAL_CONST_P obj) eqn:Hs; [discriminate|].
  destruct (not_special _ Hs) as (_ & _ & _ & _ & -> & _).
  unfold bind, RBASIC. destruct (heap w !! obj) as [[k [| | | |mk fr p|]]|]; try discriminate.
  now intros [= ->].
Qed.

Lemma CLASS_OF_class_of w v :
  CLASS_OF v w = match class_of w v with
                 | Some c => Return c w
                 | None => Stuck WildPointer
                 end.
Proof.
  unfold CLASS_OF, class_of.
  repeat match goal with |- context [if ?b then _ else _] => destruct b; [reflexivity|] end.
  unfold bind, RBASIC. now destruct (heap w !! v).
Qed.

Lemma sf_call w object method :
  object <> NULL -> sf object method w = Return tt (log (method object) w).
Proof.
  intros Hn. unfold sf, bind, deref.
  destruct (Z.eqb_spec object NULL); [contradiction|reflexivity].
Qed.

(** A method that takes [self] and forwards: it runs the continuation on
    the wrapped pointer. *)
Lemma on_self {A} w self object (k : Z -> M A) :
  data_of w self = Some object ->
  bind (Data_Get_Struct self) k w = k object w.
Proof. intros Hd. apply bind_Return. now apply Data_Get_Struct_data. Qed.

End ApiFacts.

(* ===================================================================== *)
(** * Boolean flags *)
(* ===================================================================== *)

Section Flags.

Context `{RubyCore} `{Externs} `{SFML}.

Variables (w : world) (self object : Z).
Hypothesis Hself : data_of w self = Some object.
Hypothesis Hobject : object <> NULL.

Lemma flag_true (method : Z -> bool -> call) :
  bind (if Qtrue =? Qfalse then sf object (fun this => method this false)
        else if Qtrue =? Qtrue then sf object (fun this => method this true)
        else rb_raise rb_eTypeError "Expected true or false")
       (fun _ => ret Qnil) w
  = Return Qnil (log (method object true) w).
Proof. simpl. now rewrite (bind_Return _ _ _ _ _ (sf_call w object _ Hobject)). Qed.

Lemma flag_false (method : Z -> bool -> call) :
  bind (if Qfalse =? Qfalse then sf object (fun this => method this false)
        else if Qfalse =? Qtrue then sf object (fun this => method this true)
        else rb_raise rb_eTypeError "Expected true or false")
       (fun _ => ret Qnil) w
  = Return Qnil (log (method object false) w).
Proof. simpl. now rewrite (bind_Return _ _ _ _ _ (sf_call w object _ Hobject)). Qed.

Lemma flag_other (method : Z -> bool -> call) v :
  v <> Qtrue -> v <> Qfalse ->
  bind (if v =? Qfalse then sf object (fun this => method this false)
        else if v =? Qtrue then sf object (fun this => method this true)
        else rb_raise rb_eTypeError "Expected true or false")
       (fun _ => ret Qnil) w
  = Raise rb_eTypeError "Expected true or false" w.
Proof.
  intros Ht Hf.
  destruct (Z.eqb_spec v Qfalse); [contradiction|].
  destruct (Z.eqb_spec v Qtrue); [contradiction|]. reflexivity.
Qed.

(** C4.  [enableKeyRepeat], [setActive] and [show] on a window: [true] is
    forwarded as [true], [false] as [false], in one call of the library
    method; for every other argument [TypeError] is raised with the
    message "Expected true or false" and the world, the trace of library
    calls included, is as it was. *)
Theorem flag_methods_forward_or_raise (v : VALUE) :
  (v = Qtrue ->
     Window_EnableKeyRepeat self v w = Return Qnil (log (EnableKeyRepeat object true) w) /\
     Window_SetActive self v w = Return Qnil (log (SetActive object true) w) /\
     Window_Show self v w = Return Qnil (log (Show object true) w)) /\
  (v = Qfalse ->
     Window_EnableKeyRepeat self v w = Return Qnil (log (EnableKeyRepeat object false) w) /\
     Window_SetActive self v w = Return Qnil (log (SetActive object false) w) /\
     Window_Show self v w = Return Qnil (log (Show object false) w)) /\
  (v <> Qtrue -> v <> Qfalse ->
     Window_EnableKeyRepeat self v w = Raise rb_eTypeError "Expected true or false" w /\
     Window_SetActive self v w = Raise rb_eTypeError "Expected true or false" w /\
     Window_Show self v w = Raise rb_eTypeError "Expected true or false" w).
Proof.
  unfold Window_EnableKeyRepeat, Window_SetActive, Window_Show.
  rewrite !(on_self w self object) by exact Hself.
  split; [|split].
  - intros ->. repeat split; apply flag_true.
  - intros ->. repeat split; apply flag_false.
  - intros Ht Hf. repeat split; apply flag_other; assumption.
Qed.

End Flags.

Import Demo.

Lemma flag_methods_witness :
  data_of w0 a_window = Some 6000 /\ 6000 <> NULL /\
  Window_EnableKeyRepeat a_window 7 w0 = Raise rb_eTypeError "Expected true or false" w0 /\
  Window_SetActive a_window Qtrue w0 = Return Qnil (log (SetActive 6000 true) w0) /\
  Window_Show a_window Qfalse w0 = Return Qnil (log (Show 6000 false) w0).
Proof.
  assert (Hd : data_of w0 a_window = Some 6000) by reflexivity.
  assert (Hn : 6000 <> NULL) by discriminate.
  split; [exact Hd|]. split; [exact Hn|].
  split; [|split].
  - apply (flag_methods_forward_or_raise w0 a_window 6000 Hd Hn 7); discriminate.
  - now apply (flag_methods_forward_or_raise w0 a_window 6000 Hd Hn Qtrue).
  - now apply (flag_methods_forward_or_raise w0 a_window 6000 Hd Hn Qfalse).
Defined.

(* ===================================================================== *)
(** * Unsigned coordinates and sizes *)
(* ===================================================================== *)

Section Setters.

Context `{RubyCore} `{Externs} `{SFML}.

Variables (w : world) (self object : Z).
Hypothesis Hself : data_of w self = Some object.
Hypothesis Hobject : object <> NULL.

(** C10.  [setPosition], [setSize], [setCursorPosition] and
    [setFramerateLimit] on a window, given Fixnums (negative ones
    included): nothing is raised, and the library method is called once
    with every argument reduced modulo [2^32]. *)
Theorem setters_forward_modulo_2_32 (x y : Z) :
  FIXNUM_MIN <= x <= FIXNUM_MAX ->
  FIXNUM_MIN <= y <= FIXNUM_MAX ->
  Window_SetPosition self (INT2FIX x) (INT2FIX y) w
    = Return Qnil (log (SetPosition object (x mod 2 ^ 32) (y mod 2 ^ 32)) w) /\
  Window_SetSize self (INT2FIX x) (INT2FIX y) w
    = Return Qnil (log (SetSize object (x mod 2 ^ 32) (y mod 2 ^ 32)) w) /\
  Window_SetCursorPosition self (INT2FIX x) (INT2FIX y) w
    = Return Qnil (log (SetCursorPosition object (x mod 2 ^ 32) (y mod 2 ^ 32)) w) /\
  Window_SetFramerateLimit self (INT2FIX x) w
    = Return Qnil (log (SetFramerateLimit object (x mod 2 ^ 32)) w).
Proof.
  intros Hx Hy.
  unfold Window_SetPosition, Window_SetSize, Window_SetCursorPosition,
    Window_SetFramerateLimit.
  rewrite !(on_self w self object) by exact Hself.
  rewrite !(FIX2UINT_INT2FIX x), !(FIX2UINT_INT2FIX y) by assumption.
  repeat split; (erewrite bind_Return by (apply sf_call; exact Hobject)); reflexivity.
Qed.

(** What [setJoystickThreshold] does with any argument at all: a Float
    object is allocated, and its address, converted to [float], is the
    threshold. *)
Lemma Window_SetJoystickTreshold_runs (t : VALUE) :
  Window_SetJoystickTreshold self t w
  = Return Qnil
      (log (SetJoystickTreshold object (float_of_integer (brk w)))
           (set_heap (<[brk w := RObject rb_cFloat (T_FLOAT (double_of_integer t))]> (heap w))
                     (brk w + sizeof_RVALUE) w)).
Proof.
  unfold Window_SetJoystickTreshold.
  rewrite (on_self w self object) by exact Hself.
  unfold rb_float_new, rb_newobj. unfold bind at 1.
  erewrite bind_Return by (apply sf_call; exact Hobject). reflexivity.
Qed.

(** C3.  The threshold [setJoystickThreshold] hands to the library does
    not depend on its argument: any two arguments, given in the same
    world, forward the same [float], the address at which the next Ruby
    object is placed. *)
Theorem SetJoystickTreshold_ignores_its_argument (t1 t2 : VALUE) :
  exists w1 w2,
    Window_SetJoystickTreshold self t1 w = Return Qnil w1 /\
    Window_SetJoystickTreshold self t2 w = Return Qnil w2 /\
    trace w1 = trace w ++ [SetJoystickTreshold object (float_of_integer (brk w))] /\
    trace w2 = trace w ++ [SetJoystickTreshold object (float_of_integer (brk w))].
Proof.
  do 2 eexists. rewrite !Window_SetJoystickTreshold_runs. repeat split.
Qed.

(** Finalising a wrapper that has no free function calls nothing. *)
Lemma obj_free_without_dfree (w2 : world) v k mk data :
  heap w2 !! v = Some (RObject k (T_DATA mk None data)) ->
  exists w3, obj_free v w2 = Return tt w3 /\ library_side w3 = library_side w2 /\
             heap w3 !! v = None.
Proof.
  intros Hv. unfold obj_free, bind, RBASIC. rewrite Hv. simpl.
  eexists. split; [reflexivity|]. split; [reflexivity|]. simpl. apply lookup_delete_eq.
Qed.

(** C9.  [getInput] and [getSettings] return a new wrapper around the
    [sf::Input], the [sf::ContextSettings], that the window owns, with no
    mark and no free function; finalising that wrapper, in whatever later
    world it is collected, makes no call at all: nothing is deleted. *)
Theorem GetInput_GetSettings_wrap_without_free :
  well_placed w ->
  (exists w',
     Window_GetInput self w = Return (brk w) w' /\
     heap w !! brk w = None /\
     heap w' !! brk w = Some (RObject globalInputClass (T_DATA None None (myInput object))) /\
     trace w' = trace w ++ [GetInput object]) /\
  (exists w',
     Window_GetSettings self w = Return (brk w) w' /\
     heap w !! brk w = None /\
     heap w' !! brk w
       = Some (RObject globalContextSettingsClass (T_DATA None None (mySettings object))) /\
     trace w' = trace w ++ [GetSettings object]) /\
  (forall w2 v k data,
     heap w2 !! v = Some (RObject k (T_DATA None None data)) ->
     exists w3, obj_free v w2 = Return tt w3 /\ trace w3 = trace w2).
Proof.
  intros (_ & _ & Hfree & _).
  unfold Window_GetInput, Window_GetSettings.
  rewrite !(on_self w self object) by exact Hself.
  split; [|split].
  - erewrite bind_Return by (apply sf_call; exact Hobject).
    eexists. split; [reflexivity|]. split; [exact Hfree|].
    split; [apply lookup_insert_eq|reflexivity].
  - erewrite bind_Return by (apply sf_call; exact Hobject).
    eexists. split; [reflexivity|]. split; [exact Hfree|].
    split; [apply lookup_insert_eq|reflexivity].
  - intros w2 v k data Hv.
    destruct (obj_free_without_dfree w2 v k None data Hv) as (w3 & Hr & Hl & _).
    exists w3. split; [exact Hr|]. now injection Hl.
Qed.

End Setters.

Lemma w0_well_placed : well_placed w0.
Proof. split; [cbv; discriminate|]. repeat split; reflexivity. Qed.

Lemma setters_witness :
  data_of w0 a_window = Some 6000 /\ 6000 <> NULL /\
  Window_SetPosition a_window (INT2FIX 5) (INT2FIX (-1)) w0
    = Return Qnil (log (SetPosition 6000 5 4294967295) w0).
Proof.
  assert (Hd : data_of w0 a_window = Some 6000) by reflexivity.
  assert (Hn : 6000 <> NULL) by discriminate.
  split; [exact Hd|]. split; [exact Hn|].
  apply (setters_forward_modulo_2_32 w0 a_window 6000 Hd Hn 5 (-1));
    unfold FIXNUM_MIN, FIXNUM_MAX; lia.
Defined.

Lemma SetJoystickTreshold_witness :
  data_of w0 a_window = Some 6000 /\ 6000 <> NULL /\
  exists w1 w2,
    Window_SetJoystickTreshold a_window (INT2FIX 5) w0 = Return Qnil w1 /\
    Window_SetJoystickTreshold a_window (INT2FIX 90) w0 = Return Qnil w2 /\
    trace w1 = [SetJoystickTreshold 6000 (float_of_integer 1500)] /\
    trace w2 = [SetJoystickTreshold 6000 (float_of_integer 1500)].
Proof.
  assert (Hd : data_of w0 a_window = Some 6000) by reflexivity.
  assert (Hn : 6000 <> NULL) by discriminate.
  split; [exact Hd|]. split; [exact Hn|].
  exact (SetJoystickTreshold_ignores_its_argument w0 a_window 6000 Hd Hn
           (INT2FIX 5) (INT2FIX 90)).
Defined.

(** [setJoystickThreshold(5)] in the example world: the library receives
    1500.0, the address of the Float just allocated, where the numeric
    value of the argument is 5.0. *)
Lemma SetJoystickTreshold_of_five :
  numeric_value w0 (INT2FIX 5) = Some (S754_finite false 5629499534213120 (-50)) /\
  float_of_double (S754_finite false 5629499534213120 (-50))
    = S754_finite false 10485760 (-21) /\
  (exists w1,
     Window_SetJoystickTreshold a_window (INT2FIX 5) w0 = Return Qnil w1 /\
     trace w1 = [SetJoystickTreshold 6000 (S754_finite false 12288000 (-13))]) /\
  S754_finite false 12288000 (-13) <> S754_finite false 10485760 (-21).
Proof.
  split; [reflexivity|]. split; [reflexivity|]. split; [|discriminate].
  eexists. split; reflexivity.
Qed.

Lemma GetInput_GetSettings_witness :
  data_of w0 a_window = Some 6000 /\ 6000 <> NULL /\ well_placed w0 /\
  exists w',
    Window_GetInput a_window w0 = Return 1500 w' /\
    heap w0 !! 1500 = None /\
    heap w' !! 1500 = Some (RObject globalInputClass (T_DATA None None 6008)) /\
    trace w' = [GetInput 6000].
Proof.
  assert (Hd : data_of w0 a_window = Some 6000) by reflexivity.
  assert (Hn : 6000 <> NULL) by discriminate.
  split; [exact Hd|]. split; [exact Hn|]. split; [exact w0_well_placed|].
  exact (proj1 (GetInput_GetSettings_wrap_without_free w0 a_window 6000 Hd Hn
                  w0_well_placed)).
Defined.

(* ===================================================================== *)
(** * The number of arguments *)
(* ===================================================================== *)

Section Arity.

Context `{RubyCore} `{Externs} `{SFML}.

(** [Create] with a number of arguments other than 2, 3 and 4: [ArgError]
    with the number in the message, and the world is as it was. *)
Lemma Window_Create_wrong_arity w self object args :
  data_of w self = Some object ->
  let argc := Z.of_nat (length args) in
  argc <> 2 -> argc <> 3 -> argc <> 4 ->
  Window_Create args self w = Raise rb_eArgError (expected_2_4 argc) w.
Proof.
  intros Hself argc H2 H3 H4. unfold Window_Create.
  rewrite (on_self w self object) by exact Hself. fold argc.
  destruct argc as [|[[q|q|]|[q|[r|r|]|]|]|p]; try reflexivity; lia.
Qed.

(** [new] with one argument or with more than four: the same. *)
Lemma Window_New_wrong_arity w aKlass args :
  let argc := Z.of_nat (length args) in
  argc <> 0 -> argc <> 2 -> argc <> 3 -> argc <> 4 ->
  Window_New args aKlass w = Raise rb_eArgError (expected_2_4 argc) w.
Proof.
  intros argc H0' H2 H3 H4. unfold Window_New. fold argc.
  destruct argc as [|[[q|q|]|[q|[r|r|]|]|]|p]; try reflexivity; lia.
Qed.

(** C1.  [new] without arguments does not raise [ArgError]: [case 0] of
    the [switch] passes [*mode] to the constructor of [sf::Window] while
    [mode] is still the null pointer it was initialised to (and reads
    [args[1]] of an empty argument vector).  The run is undefined
    behaviour; it raises nothing. *)
Theorem Window_New_without_arguments_is_undefined (aKlass : VALUE) (w : world) :
  Window_New [] aKlass w = Stuck NullDereference /\
  (forall exc msg w', Window_New [] aKlass w <> Raise exc msg w').
Proof. split; [reflexivity|discriminate]. Qed.

End Arity.

(* ===================================================================== *)
(** * Registration *)
(* ===================================================================== *)

Section Registration.

Context `{RubyCore} `{Externs} `{SFML}.

(** C2.  What [Init_Window] registers: the class [Window] under the
    namespace module, and on it the singleton method [new] alone.  The
    table of instance methods is empty: no name at all, and so none of the
    operations of the description, can be called on a window. *)
Theorem Init_Window_registers_new_only (w : world) (namespace : string) :
  name_of w GetNamespace = Some namespace ->
  exists w',
    Init_Window w = Return tt w' /\
    globalWindowClass w' = brk w /\
    heap w' !! brk w
      = Some (RObject rb_cClass
                (T_CLASS (namespace +:+ "::Window") rb_cObject ∅
                         {[ "new" := (fn_Window_New, -1) ]})) /\
    instance_methods w' (globalWindowClass w') = Some ∅ /\
    (forall name : string,
       instance_methods w' (globalWindowClass w') ≫= (fun m_tbl => m_tbl !! name) = None) /\
    trace w' = trace w.
Proof.
  intros Hns. unfold name_of in Hns.
  destruct (SPECIAL_CONST_P GetNamespace); [discriminate|].
  destruct (heap w !! GetNamespace) as [[k [n s m st| | | | |]]|] eqn:Hh; try discriminate.
  injection Hns as ->.
  unfold Init_Window, rb_define_class_under, rb_class2name.
  unfold bind, RBASIC. rewrite Hh. simpl.
  unfold rb_define_singleton_method. simpl. rewrite lookup_insert_eq. simpl.
  eexists. split; [reflexivity|]. simpl.
  split; [reflexivity|]. rewrite insert_insert_eq.
  unfold instance_methods. simpl. rewrite lookup_insert_eq.
  repeat split.
Qed.

End Registration.

Lemma Init_Window_witness :
  name_of boot GetNamespace = Some "SFML" /\
  exists w',
    Init_Window boot = Return tt w' /\
    globalWindowClass w' = 1500 /\
    heap w' !! 1500
      = Some (RObject rb_cClass
                (T_CLASS "SFML::Window" rb_cObject ∅ {[ "new" := (fn_Window_New, -1) ]})) /\
    instance_methods w' (globalWindowClass w') = Some ∅ /\
    (forall name : string,
       instance_methods w' (globalWindowClass w') ≫= (fun m_tbl => m_tbl !! name) = None) /\
    trace w' = [].
Proof.
  split; [reflexivity|].
  exact (Init_Window_registers_new_only boot "SFML" eq_refl).
Defined.

(* ===================================================================== *)
(** * Polling events *)
(* ===================================================================== *)

Section Events.

Context `{RubyCore} `{Externs} `{SFML}.

Variables (w : world) (self window : Z).
Hypothesis Hself : data_of w self = Some window.
Hypothesis Hwindow : window <> NULL.
Hypothesis Hplaced : well_placed w.

Lemma sf_GetEvent_polls :
  sf_GetEvent window w
  = match pending w with
    | [] => Return None (log (GetEvent window None) w)
    | e :: q => Return (Some e) (log (GetEvent window (Some e)) (set_pending q w))
    end.
Proof.
  unfold sf_GetEvent, bind, deref.
  destruct (Z.eqb_spec window NULL); [contradiction|reflexivity].
Qed.

Lemma Window_GetEvent_none :
  pending w = [] ->
  Window_GetEvent self w = Return Qnil (log (GetEvent window None) w).
Proof.
  intros Hp. unfold Window_GetEvent.
  rewrite (on_self w self window) by exact Hself.
  unfold bind. now rewrite sf_GetEvent_polls, Hp.
Qed.

Lemma Window_GetEvent_some e q :
  pending w = e :: q ->
  exists w',
    Window_GetEvent self w = Return (brk w) w' /\
    heap w' !! brk w
      = Some (RObject globalEventClass
                (T_DATA None (Some (fn_extern "Event_Free")) (cxx_brk w))) /\
    cxx_heap w' !! cxx_brk w = Some e /\
    trace w' = trace w ++ [GetEvent window (Some e)] /\
    pending w' = q.
Proof.
  intros Hp. destruct Hplaced as (Hge & Hal & Hfree & Hcxx).
  pose proof (aligned_not_special _ Hge Hal) as Hsp.
  unfold Window_GetEvent.
  rewrite (on_self w self window) by exact Hself.
  unfold bind at 1. rewrite sf_GetEvent_polls, Hp.
  unfold rb_funcall. simpl String.eqb. cbv iota. rewrite Z.eqb_refl.
  unfold Event_new, cxx_new_Event, Data_Wrap_Struct, rb_newobj.
  unfold bind at 1. unfold bind at 1. simpl.
  erewrite bind_Return.
  2:{ apply Data_Get_Struct_data. unfold data_of. simpl. rewrite Hsp, lookup_insert_eq.
      reflexivity. }
  unfold cxx_store_Event, deref, bind. simpl.
  destruct (Z.eqb_spec (cxx_brk w) NULL) as [E|_]; [unfold NULL in E; lia|].
  eexists. split; [reflexivity|]. simpl.
  split; [apply lookup_insert_eq|]. split; [apply lookup_insert_eq|]. split; reflexivity.
Qed.

(** C6.  [getEvent] on a window returns; it returns [nil] exactly when the
    library reports no pending event, and otherwise a value that was no
    object before the call and is now an Event wrapper, around an
    [sf::Event] equal to the event the library handed out. *)
Theorem Window_GetEvent_nil_iff_no_event :
  exists v w',
    Window_GetEvent self w = Return v w' /\
    (v = Qnil <-> pending w = []) /\
    (forall e q,
       pending w = e :: q ->
       heap w !! v = None /\
       exists p,
         heap w' !! v
           = Some (RObject globalEventClass (T_DATA None (Some (fn_extern "Event_Free")) p)) /\
         cxx_heap w' !! p = Some e /\
         trace w' = trace w ++ [GetEvent window (Some e)]).
Proof.
  destruct (pending w) as [|e q] eqn:Hp.
  - exists Qnil. eexists. split; [now apply Window_GetEvent_none|].
    split; [tauto|]. intros ? ? [=].
  - destruct (Window_GetEvent_some e q Hp) as (w' & Hrun & Hwrap & Hev & Htr & _).
    exists (brk w), w'. split; [exact Hrun|].
    destruct Hplaced as (Hge & _ & Hfree & _).
    split.
    + split; [unfold Qnil; lia|discriminate].
    + intros e' q' [= <- <-]. split; [exact Hfree|].
      exists (cxx_brk w). auto.
Qed.

End Events.

Lemma Window_GetEvent_witness :
  data_of w0 a_window = Some 6000 /\ 6000 <> NULL /\ well_placed w0 /\
  exists v w',
    Window_GetEvent a_window w0 = Return v w' /\
    (v = Qnil <-> pending w0 = []) /\
    (forall e q,
       pending w0 = e :: q ->
       heap w0 !! v = None /\
       exists p,
         heap w' !! v
           = Some (RObject globalEventClass (T_DATA None (Some (fn_extern "Event_Free")) p)) /\
         cxx_heap w' !! p = Some e /\
         trace w' = trace w0 ++ [GetEvent 6000 (Some e)]).
Proof.
  assert (Hd : data_of w0 a_window = Some 6000) by reflexivity.
  assert (Hn : 6000 <> NULL) by discriminate.
  split; [exact Hd|]. split; [exact Hn|]. split; [exact w0_well_placed|].
  exact (Window_GetEvent_nil_iff_no_event w0 a_window 6000 Hd Hn w0_well_placed).
Defined.

(* ===================================================================== *)
(** * The classes of the arguments *)
(* ===================================================================== *)

Section Validation.

Context `{RubyCore} `{Externs} `{SFML}.

Variable w : world.
Hypothesis Hplaced : well_placed w.

Lemma rb_mod_to_s_name type name :
  name_of w type = Some name -> rb_mod_to_s type w = Return (brk w) (with_name w name).
Proof.
  unfold name_of, rb_mod_to_s. destruct (SPECIAL_CONST_P type); [discriminate|].
  unfold bind, RBASIC.
  destruct (heap w !! type) as [[k [n s m st| | | | |]]|]; try discriminate.
  now intros [= ->].
Qed.

Lemma STR2CSTR_String (w1 : world) v k s :
  SPECIAL_CONST_P v = false ->
  heap w1 !! v = Some (RObject k (T_STRING s)) ->
  STR2CSTR v w1 = Return (c_str s) w1.
Proof. intros Hsp Hv. unfold STR2CSTR, bind, RBASIC. now rewrite Hsp, Hv. Qed.

Lemma VALIDATE_CLASS_runs variable c type name pos :
  class_of w variable = Some c ->
  name_of w type = Some name ->
  VALIDATE_CLASS variable type pos w
  = if c =? type then Return tt w
    else Raise rb_eTypeError (pos +:+ " argument must be instance of " +:+ c_str name)
               (with_name w name).
Proof.
  intros Hc Hn. destruct Hplaced as (Hge & Hal & _ & _).
  pose proof (aligned_not_special _ Hge Hal) as Hsp.
  unfold VALIDATE_CLASS. unfold bind at 1. rewrite CLASS_OF_class_of, Hc.
  destruct (c =? type); [reflexivity|].
  change (negb false) with true. cbv iota.
  change (rb_funcall type "to_s" []) with (rb_mod_to_s type).
  erewrite bind_Return by (apply rb_mod_to_s_name; exact Hn).
  erewrite bind_Return
    by (apply STR2CSTR_String with (k := rb_cString); [exact Hsp|apply lookup_insert_eq]).
  reflexivity.
Qed.

Variables (self object : Z).
Hypothesis Hself : data_of w self = Some object.

Variables (VideoMode String' Fixnum ContextSettings : string).
Hypothesis HVideoMode : name_of w globalVideoModeClass = Some VideoMode.
Hypothesis HString : name_of w rb_cString = Some String'.
Hypothesis HFixnum : name_of w rb_cFixnum = Some Fixnum.
Hypothesis HContextSettings : name_of w globalContextSettingsClass = Some ContextSettings.

Lemma validate_step {A} variable c type name pos (k : unit -> M A) :
  class_of w variable = Some c ->
  name_of w type = Some name ->
  bind (VALIDATE_CLASS variable type pos) k w
  = if c =? type then k tt w
    else Raise rb_eTypeError (pos +:+ " argument must be instance of " +:+ c_str name)
               (with_name w name).
Proof.
  intros Hc Hn. unfold bind at 1. rewrite (VALIDATE_CLASS_runs _ _ _ _ _ Hc Hn).
  now destruct (c =? type).
Qed.

(** The argument at position [j] is the first at fault. *)
Ltac rejected_at j v pos c name :=
  exists j, v, pos, c, name, (with_name w name);
  split; [reflexivity|]; split; [reflexivity|];
  split; [congruence|];
  split; [intros [|[|[|[|?]]]] ? ? ? Hbefore Hargs Hreq; unfold required in Hreq; simpl in Hargs, Hreq;
          try lia; simplify_eq; congruence
         |];
  split; [assumption|]; split; reflexivity.

(** One [VALIDATE_CLASS] of [Window_Create]: either the class is the
    required one and the run goes on, or the argument is rejected. *)
Ltac validate Hc Hn E :=
  rewrite (validate_step _ _ _ _ _ _ Hc Hn);
  match goal with
  | |- context [if ?c =? ?type then _ else _] =>
    destruct (Z.eqb_spec c type) as [E|E]
  end.

(** C5.  [Create] on a window with 2, 3 or 4 arguments of which one is
    not an instance of the class its position requires (VideoMode,
    String, Fixnum, ContextSettings): [TypeError] is raised, the message
    names the position of the first such argument and the required class,
    and the calls made, the pending events and C++ memory are as they
    were: the library has not been called. *)
Theorem Window_Create_rejects_wrong_class (args : list VALUE) :
  (2 <= length args <= 4)%nat ->
  Forall (fun v => is_Some (class_of w v)) args ->
  (exists (i : nat) v pos c,
     args !! i = Some v /\ required !! i = Some (pos, c) /\ class_of w v <> Some c) ->
  exists (j : nat) v pos c name w',
    args !! j = Some v /\ required !! j = Some (pos, c) /\
    class_of w v <> Some c /\
    (forall (i : nat) v' pos' c',
       (i < j)%nat -> args !! i = Some v' -> required !! i = Some (pos', c') ->
       class_of w v' = Some c') /\
    name_of w c = Some name /\
    Window_Create args self w
      = Raise rb_eTypeError (pos +:+ " argument must be instance of " +:+ c_str name) w' /\
    library_side w' = library_side w.
Proof.
  intros Hlen Hvalid (i & v & pos & c & Hi & Hr & Hbad).
  change (rejects w args (Window_Create args self w)). unfold rejects.
  unfold Window_Create. rewrite (on_self w self object) by exact Hself.
  destruct args as [|a0 [|a1 [|a2 [|a3 [|a4 rest]]]]]; simpl in Hlen; try lia;
    rewrite !Forall_cons in Hvalid.
  - (* two arguments *)
    destruct Hvalid as ([c0 Hc0] & [c1 Hc1] & _).
    change (Z.of_nat (length [a0; a1])) with 2. cbv iota.
    change (arg [a0; a1] 0) with (ret (A := Z) a0).
    change (arg [a0; a1] 1) with (ret (A := Z) a1).
    unfold bind at 1. unfold bind at 1. unfold ret at 1.
    validate Hc0 HVideoMode E0; [|rejected_at 0%nat a0 "first" globalVideoModeClass VideoMode].
    unfold bind at 1. unfold ret at 1.
    validate Hc1 HString E1; [|rejected_at 1%nat a1 "second" rb_cString String'].
    exfalso. destruct i as [|[|i]]; unfold required in Hr; simpl in Hi, Hr; simplify_eq; congruence.
  - (* three arguments *)
    destruct Hvalid as ([c0 Hc0] & [c1 Hc1] & [c2 Hc2] & _).
    change (Z.of_nat (length [a0; a1; a2])) with 3. cbv iota.
    change (arg [a0; a1; a2] 0) with (ret (A := Z) a0).
    change (arg [a0; a1; a2] 1) with (ret (A := Z) a1).
    change (arg [a0; a1; a2] 2) with (ret (A := Z) a2).
    unfold bind at 1. unfold bind at 1. unfold ret at 1.
    validate Hc0 HVideoMode E0; [|rejected_at 0%nat a0 "first" globalVideoModeClass VideoMode].
    unfold bind at 1. unfold ret at 1.
    validate Hc1 HString E1; [|rejected_at 1%nat a1 "second" rb_cString String'].
    unfold bind at 1. unfold ret at 1.
    validate Hc2 HFixnum E2; [|rejected_at 2%nat a2 "third" rb_cFixnum Fixnum].
    exfalso. destruct i as [|[|[|i]]]; unfold required in Hr; simpl in Hi, Hr; simplify_eq; congruence.
  - (* four arguments *)
    destruct Hvalid as ([c0 Hc0] & [c1 Hc1] & [c2 Hc2] & [c3 Hc3] & _).
    change (Z.of_nat (length [a0; a1; a2; a3])) with 4. cbv iota.
    change (arg [a0; a1; a2; a3] 0) with (ret (A := Z) a0).
    change (arg [a0; a1; a2; a3] 1) with (ret (A := Z) a1).
    change (arg [a0; a1; a2; a3] 2) with (ret (A := Z) a2).
    change (arg [a0; a1; a2; a3] 3) with (ret (A := Z) a3).
    unfold bind at 1. unfold bind at 1. unfold ret at 1.
    validate Hc0 HVideoMode E0; [|rejected_at 0%nat a0 "first" globalVideoModeClass VideoMode].
    unfold bind at 1. unfold ret at 1.
    validate Hc1 HString E1; [|rejected_at 1%nat a1 "second" rb_cString String'].
    unfold bind at 1. unfold ret at 1.
    validate Hc2 HFixnum E2; [|rejected_at 2%nat a2 "third" rb_cFixnum Fixnum].
    unfold bind at 1. unfold ret at 1.
    validate Hc3 HContextSettings E3;
      [|rejected_at 3%nat a3 "fourth" globalContextSettingsClass ContextSettings].
    exfalso. destruct i as [|[|[|[|i]]]]; unfold required in Hr; simpl in Hi, Hr; simplify_eq; congruence.
Qed.

End Validation.

Lemma Window_Create_rejects_witness :
  well_placed w0 /\ data_of w0 a_window = Some 6000 /\
  name_of w0 globalVideoModeClass = Some "SFML::VideoMode" /\
  name_of w0 rb_cString = Some "String" /\
  name_of w0 rb_cFixnum = Some "Fixnum" /\
  name_of w0 globalContextSettingsClass = Some "SFML::ContextSettings" /\
  (2 <= length [a_mode; a_title; a_title] <= 4)%nat /\
  Forall (fun v => is_Some (class_of w0 v)) [a_mode; a_title; a_title] /\
  exists (j : nat) v pos c name w',
    [a_mode; a_title; a_title] !! j = Some v /\ required !! j = Some (pos, c) /\
    class_of w0 v <> Some c /\
    (forall (i : nat) v' pos' c',
       (i < j)%nat -> [a_mode; a_title; a_title] !! i = Some v' ->
       required !! i = Some (pos', c') -> class_of w0 v' = Some c') /\
    name_of w0 c = Some name /\
    Window_Create [a_mode; a_title; a_title] a_window w0
      = Raise rb_eTypeError (pos +:+ " argument must be instance of " +:+ c_str name) w' /\
    library_side w' = library_side w0.
Proof.
  assert (Hlen : (2 <= length [a_mode; a_title; a_title] <= 4)%nat) by (simpl; lia).
  assert (Hvalid : Forall (fun v => is_Some (class_of w0 v)) [a_mode; a_title; a_title])
    by (repeat constructor; eexists; reflexivity).
  assert (Hd : data_of w0 a_window = Some 6000) by reflexivity.
  assert (Hn1 : name_of w0 globalVideoModeClass = Some "SFML::VideoMode") by reflexivity.
  assert (Hn2 : name_of w0 rb_cString = Some "String") by reflexivity.
  assert (Hn3 : name_of w0 rb_cFixnum = Some "Fixnum") by reflexivity.
  assert (Hn4 : name_of w0 globalContextSettingsClass = Some "SFML::ContextSettings")
    by reflexivity.
  split; [exact w0_well_placed|]. repeat (split; [assumption|]).
  apply (Window_Create_rejects_wrong_class w0 w0_well_placed a_window 6000 Hd
           "SFML::VideoMode" "String" "Fixnum" "SFML::ContextSettings"
           Hn1 Hn2 Hn3 Hn4 [a_mode; a_title; a_title] Hlen Hvalid).
  exists 2%nat, a_title, "third", rb_cFixnum.
  split; [reflexivity|]. split; [reflexivity|]. discriminate.
Defined.

(** [Create] with a String where the style is expected, in the example
    world. *)
Example Window_Create_third_argument :
  Window_Create [a_mode; a_title; a_title] a_window w0
  = Raise rb_eTypeError "third argument must be instance of Fixnum" (with_name w0 "Fixnum").
Proof. reflexivity. Qed.

(* ===================================================================== *)
(** * Allocation and release of the window *)
(* ===================================================================== *)

Create HintDb quiet.

Section Quiet.

Context `{RubyCore} `{Externs} `{SFML}.

Lemma quiet_ret {A} (a : A) : quiet (ret a).
Proof. intros w. reflexivity. Qed.

Lemma quiet_rb_raise {A} exc msg : quiet (rb_raise (A := A) exc msg).
Proof. intros w. reflexivity. Qed.

Lemma quiet_stuck {A} why : quiet (stuck (A := A) why).
Proof. intros w. exact I. Qed.

Lemma quiet_bind {A B} (c : M A) (k : A -> M B) :
  quiet c -> (forall a, quiet (k a)) -> quiet (bind c k).
Proof.
  intros Hc Hk w. unfold bind. specialize (Hc w).
  destruct (c w) as [a w1|exc msg w1|why]; [|exact Hc|exact I].
  specialize (Hk a w1). destruct (k a w1); [congruence|congruence|exact I].
Qed.

Lemma quiet_if {A} (b : bool) (c d : M A) : quiet c -> quiet d -> quiet (if b then c else d).
Proof. now destruct b. Qed.

Lemma quiet_RBASIC v : quiet (RBASIC v).
Proof. intros w. unfold RBASIC. now destruct (heap w !! v). Qed.

Lemma quiet_rb_newobj o : quiet (rb_newobj o).
Proof. intros w. reflexivity. Qed.

Hint Resolve quiet_ret quiet_rb_raise quiet_stuck quiet_RBASIC quiet_rb_newobj : quiet.
Hint Extern 2 (quiet (bind _ _)) => apply quiet_bind; [|intros ?] : quiet.
Hint Extern 2 (quiet (if _ then _ else _)) => apply quiet_if : quiet.
Hint Extern 3 (quiet (match body ?o with _ => _ end)) => destruct (body o) : quiet.
Hint Extern 3 (quiet (match ?l !! ?i with _ => _ end)) => destruct (l !! i) : quiet.

Lemma quiet_CLASS_OF v : quiet (CLASS_OF v).
Proof. unfold CLASS_OF. auto 10 with quiet. Qed.

Lemma quiet_rb_class2name c : quiet (rb_class2name c).
Proof. unfold rb_class2name. auto with quiet. Qed.

Hint Resolve quiet_CLASS_OF quiet_rb_class2name : quiet.

Lemma quiet_etype x : quiet (etype x).
Proof. unfold etype. auto 10 with quiet. Qed.

Hint Resolve quiet_etype : quiet.

Lemma quiet_Data_Get_Struct obj : quiet (Data_Get_Struct obj).
Proof. unfold Data_Get_Struct. auto 10 with quiet. Qed.

Lemma quiet_STR2CSTR x : quiet (STR2CSTR x).
Proof. unfold STR2CSTR. auto 10 with quiet. Qed.

Lemma quiet_rb_mod_to_s recv : quiet (rb_mod_to_s recv).
Proof. unfold rb_mod_to_s, rb_str_new2. auto 10 with quiet. Qed.

Lemma quiet_arg args i : quiet (arg args i).
Proof. unfold arg. auto with quiet. Qed.

Lemma quiet_deref p : quiet (deref p).
Proof. unfold deref. auto with quiet. Qed.

Hint Resolve quiet_Data_Get_Struct quiet_STR2CSTR quiet_rb_mod_to_s quiet_arg quiet_deref
  : quiet.

Lemma quiet_VALIDATE_CLASS variable type name : quiet (VALIDATE_CLASS variable type name).
Proof.
  unfold VALIDATE_CLASS. change (rb_funcall type "to_s" []) with (rb_mod_to_s type).
  auto 10 with quiet.
Qed.

Hint Resolve quiet_VALIDATE_CLASS : quiet.

Lemma steady_ret {A} (a : A) : steady (ret a).
Proof. intros w. reflexivity. Qed.

Lemma steady_rb_raise {A} exc msg : steady (rb_raise (A := A) exc msg).
Proof. intros w. reflexivity. Qed.

Lemma steady_stuck {A} why : steady (stuck (A := A) why).
Proof. intros w. exact I. Qed.

Lemma steady_bind {A B} (c : M A) (k : A -> M B) :
  steady c -> (forall a, steady (k a)) -> steady (bind c k).
Proof.
  intros Hc Hk w. unfold bind. specialize (Hc w).
  destruct (c w) as [a w1|exc msg w1|why]; [|exact Hc|exact I].
  subst w1. exact (Hk a w).
Qed.

Lemma steady_if {A} (b : bool) (c d : M A) : steady c -> steady d -> steady (if b then c else d).
Proof. now destruct b. Qed.

Lemma steady_RBASIC v : steady (RBASIC v).
Proof. intros w. unfold RBASIC. now destruct (heap w !! v). Qed.

Lemma never_returns_rb_raise {A} exc msg : never_returns (rb_raise (A := A) exc msg).
Proof. intros w. exact I. Qed.

Lemma never_returns_bind {A B} (c : M A) (k : A -> M B) :
  (forall a, never_returns (k a)) -> never_returns (bind c k).
Proof.
  intros Hk w. unfold bind. destruct (c w) as [a w1|exc msg w1|why]; [|exact I|exact I].
  exact (Hk a w1).
Qed.

(** What is quiet and does not return is steady. *)
Lemma steady_of_quiet {A} (c : M A) : quiet c -> never_returns c -> steady c.
Proof.
  intros Hq Hn w. specialize (Hq w). specialize (Hn w).
  destruct (c w); [contradiction|exact Hq|exact I].
Qed.

Create HintDb steady.

Hint Resolve steady_ret steady_rb_raise steady_stuck steady_RBASIC : steady.
Hint Extern 2 (steady (bind _ _)) => apply steady_bind; [|intros ?] : steady.
Hint Extern 2 (steady (if _ then _ else _)) => apply steady_if : steady.
Hint Extern 3 (steady (match body ?o with _ => _ end)) => destruct (body o) : steady.
Hint Extern 3 (steady (match ?l !! ?i with _ => _ end)) => destruct (l !! i) : steady.

Lemma steady_CLASS_OF v : steady (CLASS_OF v).
Proof. unfold CLASS_OF. auto 10 with steady. Qed.

Lemma steady_rb_class2name c : steady (rb_class2name c).
Proof. unfold rb_class2name. auto with steady. Qed.

Hint Resolve steady_CLASS_OF steady_rb_class2name : steady.

Lemma steady_etype x : steady (etype x).
Proof. unfold etype. auto 10 with steady. Qed.

Hint Resolve steady_etype : steady.

Lemma steady_Data_Get_Struct obj : steady (Data_Get_Struct obj).
Proof. unfold Data_Get_Struct. auto 10 with steady. Qed.

Lemma steady_STR2CSTR x : steady (STR2CSTR x).
Proof. unfold STR2CSTR. auto 10 with steady. Qed.

Lemma steady_arg args i : steady (arg args i).
Proof. unfold arg. auto with steady. Qed.

Lemma steady_deref p : steady (deref p).
Proof. unfold deref. auto with steady. Qed.

(** [VALIDATE_CLASS] allocates the String of its message only on the way
    to [rb_raise]. *)
Lemma steady_VALIDATE_CLASS variable type name : steady (VALIDATE_CLASS variable type name).
Proof.
  unfold VALIDATE_CLASS. apply steady_bind; [apply steady_CLASS_OF|]. intros c.
  destruct (negb (c =? type)); [|apply steady_ret].
  apply steady_of_quiet.
  - change (rb_funcall type "to_s" []) with (rb_mod_to_s type). auto 10 with quiet.
  - apply never_returns_bind. intros s. apply never_returns_bind. intros cs.
    apply never_returns_rb_raise.
Qed.

Hint Resolve steady_Data_Get_Struct steady_STR2CSTR steady_arg steady_deref
  steady_VALIDATE_CLASS : steady.

Lemma constructs_new mode title style settings :
  constructs (cxx_new_Window mode title style settings).
Proof. intros w. simpl. split; [reflexivity|]. now exists mode, title, style, settings. Qed.

Lemma constructs_rb_raise exc msg : constructs (rb_raise exc msg).
Proof. intros w. reflexivity. Qed.

Lemma constructs_bind {A} (c : M A) (k : A -> M Z) :
  steady c -> (forall a, constructs (k a)) -> constructs (bind c k).
Proof.
  intros Hc Hk w. unfold bind. specialize (Hc w).
  destruct (c w) as [a w1|exc msg w1|why]; [|exact Hc|exact I].
  subst w1. exact (Hk a w).
Qed.

(** The [switch] of [Window_New]: whatever [argc] is, a run that returns
    has constructed the window and done nothing else. *)
Ltac constructs_steps :=
  repeat first
    [ apply constructs_new
    | apply constructs_rb_raise
    | apply constructs_bind; [solve [auto with steady]|intros ?] ].

(** [new], whatever its arguments: a run that returns has constructed one
    window and allocated one object, the wrapper it returns; a run that
    raises has left the library alone. *)
Lemma Window_New_wraps_what_it_constructs (args : list VALUE) (aKlass : VALUE) (w : world) :
  match Window_New args aKlass w with
  | Return rbData w' =>
    rbData = brk w /\
    exists mode title style settings,
      w' = set_heap
             (<[brk w := RObject aKlass (T_DATA None (Some fn_Window_Free) (cxx_brk w))]>
                (heap w))
             (brk w + sizeof_RVALUE)
             (log (new_Window (cxx_brk w) mode title style settings)
                  (set_cxx (cxx_heap w) (cxx_brk w + sizeof_Window) w))
  | Raise _ _ w' => library_side w' = library_side w
  | Stuck _ => True
  end.
Proof.
  unfold Window_New.
  match goal with
  | |- context [bind ?c _ w] => assert (Hc : constructs c)
  end.
  { destruct (Z.of_nat (length args)) as [|[[q|q|]|[q|[r|r|]|]|]|p]; constructs_steps. }
  match goal with
  | |- context [bind ?c _ w] =>
    specialize (Hc w); unfold bind at 1; destruct (c w) as [object w1|exc msg w1|why]
  end.
  - destruct Hc as (-> & mode & title & style & settings & ->).
    simpl. split; [reflexivity|]. now exists mode, title, style, settings.
  - exact Hc.
  - exact I.
Qed.

(** The collector on a wrapper with [Window_Free]: the window is deleted,
    the wrapper released, and nothing else happens. *)
Lemma obj_free_deletes (w2 : world) v k mk object :
  object <> NULL ->
  heap w2 !! v = Some (RObject k (T_DATA mk (Some fn_Window_Free) object)) ->
  obj_free v w2
  = Return tt (set_heap (delete v (heap w2)) (brk w2) (log (delete_Window object) w2)).
Proof.
  intros Hn Hv. unfold obj_free, bind, RBASIC. rewrite Hv. simpl.
  unfold Window_Free. destruct (Z.eqb_spec object NULL); [contradiction|reflexivity].
Qed.

Lemma obj_free_Window_Free (w2 : world) v k mk object :
  object <> NULL ->
  heap w2 !! v = Some (RObject k (T_DATA mk (Some fn_Window_Free) object)) ->
  exists w3, obj_free v w2 = Return tt w3 /\
             trace w3 = trace w2 ++ [delete_Window object] /\
             heap w3 !! v = None.
Proof.
  intros Hn Hv. unfold obj_free, bind, RBASIC. rewrite Hv. simpl.
  unfold Window_Free. destruct (Z.eqb_spec object NULL); [contradiction|].
  eexists. split; [reflexivity|]. split; [reflexivity|]. simpl. apply lookup_delete_eq.
Qed.

End Quiet.

(** [new] on well-typed arguments returns: the window is constructed
    with the arguments given, and wrapped. *)
Section Construction.

Context `{RubyCore} `{Externs} `{SFML}.

Variables (w : world) (aKlass a0 a1 mode : Z) (title : string).
Hypothesis Hmode : wraps w a0 globalVideoModeClass mode.
Hypothesis Hmode_not_null : mode <> NULL.
Hypothesis Htitle : is_String w a1 title.

(** The world after the window has been constructed and wrapped. *)
Let constructed (style settings : option Z) : world :=
  set_heap (<[brk w := RObject aKlass (T_DATA None (Some fn_Window_Free) (cxx_brk w))]> (heap w))
           (brk w + sizeof_RVALUE)
           (log (new_Window (cxx_brk w) mode (c_str title) style settings)
                (set_cxx (cxx_heap w) (cxx_brk w + sizeof_Window) w)).

Lemma class_of_pointer v o :
  SPECIAL_CONST_P v = false -> heap w !! v = Some o -> class_of w v = Some (klass o).
Proof.
  intros Hsp Hv. destruct (not_special _ Hsp) as (Hf & Hfalse & Htrue & Hnil & _ & Hsym).
  unfold class_of. now rewrite Hf, Hnil, Hfalse, Htrue, Hsym, Hv.
Qed.

Lemma VALIDATE_CLASS_passes v type pos :
  class_of w v = Some type -> VALIDATE_CLASS v type pos w = Return tt w.
Proof.
  intros Hc. unfold VALIDATE_CLASS. unfold bind at 1.
  now rewrite CLASS_OF_class_of, Hc, Z.eqb_refl.
Qed.

Lemma data_of_wraps v c data : wraps w v c data -> data_of w v = Some data.
Proof. intros (Hsp & mark & free & Hv). unfold data_of. now rewrite Hsp, Hv. Qed.

Lemma class_of_wraps v c data : wraps w v c data -> class_of w v = Some c.
Proof. intros (Hsp & mark & free & Hv). now rewrite (class_of_pointer _ _ Hsp Hv). Qed.

Lemma class_of_String v s : is_String w v s -> class_of w v = Some rb_cString.
Proof. intros (Hsp & Hv). now rewrite (class_of_pointer _ _ Hsp Hv). Qed.

(** The steps all three branches share. *)
Ltac run_new :=
  repeat first
    [ erewrite bind_Return by (apply VALIDATE_CLASS_passes;
        first [ eapply class_of_wraps; eassumption
              | eapply class_of_String; eassumption
              | eassumption ])
    | erewrite bind_Return by (apply Data_Get_Struct_data; eapply data_of_wraps; eassumption)
    | erewrite bind_Return by (destruct Htitle; eapply STR2CSTR_String; eassumption)
    | erewrite bind_Return by (unfold deref;
        match goal with |- (if ?p =? NULL then _ else _) _ = _ =>
          destruct (Z.eqb_spec p NULL); [contradiction|reflexivity] end) ].

Lemma Window_New_two_arguments :
  Window_New [a0; a1] aKlass w = Return (brk w) (constructed None None).
Proof.
  unfold Window_New. change (Z.of_nat (length [a0; a1])) with 2. cbv iota zeta.
  change (arg [a0; a1] 0) with (ret (A := Z) a0).
  change (arg [a0; a1] 1) with (ret (A := Z) a1).
  unfold bind at 1. unfold bind at 1. unfold ret at 1. run_new.
  unfold bind at 1. unfold ret at 1. run_new. reflexivity.
Qed.

Lemma Window_New_three_arguments a2 :
  FIXNUM_P a2 = true ->
  Window_New [a0; a1; a2] aKlass w = Return (brk w) (constructed (Some (FIX2UINT a2)) None).
Proof.
  intros H2. assert (Hc2 : class_of w a2 = Some rb_cFixnum)
    by (unfold class_of; now rewrite H2).
  unfold Window_New. change (Z.of_nat (length [a0; a1; a2])) with 3. cbv iota zeta.
  change (arg [a0; a1; a2] 0) with (ret (A := Z) a0).
  change (arg [a0; a1; a2] 1) with (ret (A := Z) a1).
  change (arg [a0; a1; a2] 2) with (ret (A := Z) a2).
  unfold bind at 1. unfold bind at 1. unfold ret at 1. run_new.
  unfold bind at 1. unfold ret at 1. run_new.
  unfold bind at 1. unfold ret at 1. run_new. reflexivity.
Qed.

Lemma Window_New_four_arguments a2 a3 settings :
  FIXNUM_P a2 = true ->
  wraps w a3 globalContextSettingsClass settings ->
  settings <> NULL ->
  Window_New [a0; a1; a2; a3] aKlass w
  = Return (brk w) (constructed (Some (FIX2UINT a2)) (Some settings)).
Proof.
  intros H2 H3 Hsettings. assert (Hc2 : class_of w a2 = Some rb_cFixnum)
    by (unfold class_of; now rewrite H2).
  unfold Window_New. change (Z.of_nat (length [a0; a1; a2; a3])) with 4. cbv iota zeta.
  change (arg [a0; a1; a2; a3] 0) with (ret (A := Z) a0).
  change (arg [a0; a1; a2; a3] 1) with (ret (A := Z) a1).
  change (arg [a0; a1; a2; a3] 2) with (ret (A := Z) a2).
  change (arg [a0; a1; a2; a3] 3) with (ret (A := Z) a3).
  unfold bind at 1. unfold bind at 1. unfold ret at 1. run_new.
  unfold bind at 1. unfold ret at 1. run_new.
  unfold bind at 1. unfold ret at 1. run_new.
  unfold bind at 1. unfold ret at 1. run_new. reflexivity.
Qed.

End Construction.

Section Ownership.

Context `{RubyCore} `{Externs} `{SFML}.

(** C8.  The window [new] allocates has one owner, the wrapper [new]
    returns, and that wrapper deletes it.  In a world where no wrapper
    holds the address the next window goes to:
    [new] with a VideoMode, a String and, when given, a Fixnum and a
    ContextSettings returns; and, whatever the arguments of [new],
    a run that returns has made exactly one call, the construction of
    one [sf::Window]; the object space has gained exactly one object, at
    an address that was free: the wrapper returned, an instance of the
    class asked for around the pointer to that window, with no mark
    function and [Window_Free] as free function; no other object of the
    world wraps that pointer; and finalising the wrapper, in whatever later
    world it is collected, makes exactly one call, the deletion of that
    window, and removes the wrapper and nothing else from the object space,
    so that it cannot be finalised again.  A run that raises has made no
    call and allocated nothing in C++: no window was constructed. *)
Theorem Window_New_pairs_new_with_delete (args : list VALUE) (aKlass : VALUE) (w : world) :
  well_placed w ->
  (forall v, data_of w v <> Some (cxx_brk w)) ->
  (accepted w args -> exists rbData w', Window_New args aKlass w = Return rbData w') /\
  match Window_New args aKlass w with
  | Return rbData w' =>
    exists object mode title style settings,
      object <> NULL /\
      trace w' = trace w ++ [new_Window object mode title style settings] /\
      heap w !! rbData = None /\
      heap w' = <[rbData := RObject aKlass (T_DATA None (Some fn_Window_Free) object)]>
                  (heap w) /\
      (forall v, data_of w' v = Some object -> v = rbData) /\
      (forall w2,
         heap w2 !! rbData = Some (RObject aKlass (T_DATA None (Some fn_Window_Free) object)) ->
         exists w3,
           obj_free rbData w2 = Return tt w3 /\
           trace w3 = trace w2 ++ [delete_Window object] /\
           heap w3 = delete rbData (heap w2))
  | Raise _ _ w' => library_side w' = library_side w
  | Stuck _ => True
  end.
Proof.
  intros Hwp Hfresh. split.
  - intros (a0 & a1 & mode & title & rest & -> & Hm & Hmn & Ht & Hrest).
    destruct rest as [|a2 [|a3 [|a4 rest]]].
    + eexists _, _. exact (Window_New_two_arguments w aKlass a0 a1 mode title Hm Hmn Ht).
    + eexists _, _.
      exact (Window_New_three_arguments w aKlass a0 a1 mode title Hm Hmn Ht a2 Hrest).
    + destruct Hrest as (H2 & settings & H3 & Hs). eexists _, _.
      exact (Window_New_four_arguments w aKlass a0 a1 mode title Hm Hmn Ht
               a2 a3 settings H2 H3 Hs).
    + contradiction.
  - pose proof (Window_New_wraps_what_it_constructs args aKlass w) as Hnew.
    destruct (Window_New args aKlass w) as [rbData w'|exc msg w'|why]; [|exact Hnew|exact I].
    destruct Hnew as (-> & mode & title & style & settings & ->).
    destruct Hwp as (Hge & Hal & Hfree & Hcxx).
    exists (cxx_brk w), mode, title, style, settings.
    split; [unfold NULL; lia|]. split; [reflexivity|]. split; [exact Hfree|].
    split; [reflexivity|]. split.
    + intros v Hv. destruct (decide (v = brk w)) as [Heq|Hne]; [exact Heq|].
      exfalso. apply (Hfresh v). unfold data_of in *. simpl in Hv.
      rewrite lookup_insert_ne in Hv by congruence. exact Hv.
    + intros w2 Hv. assert (Hn : cxx_brk w <> NULL) by (unfold NULL; lia).
      eexists. split; [exact (obj_free_deletes w2 _ aKlass None _ Hn Hv)|].
      split; reflexivity.
Qed.

End Ownership.

(** In the example world no wrapper holds the address of the next window. *)
Lemma w0_next_window_unused : forall v, data_of w0 v <> Some (cxx_brk w0).
Proof.
  intros v Hv. unfold data_of in Hv. destruct (SPECIAL_CONST_P v); [discriminate|].
  destruct (heap w0 !! v) as [o|] eqn:E; [|discriminate].
  apply elem_of_map_to_list in E. vm_compute in E.
  repeat (apply elem_of_cons in E as [E|E]; [injection E as -> ->; discriminate|]).
  now apply elem_of_nil in E.
Qed.

Lemma Window_New_witness :
  well_placed w0 /\
  (forall v, data_of w0 v <> Some (cxx_brk w0)) /\
  accepted w0 [a_mode; a_title] /\
  exists rbData w',
    Window_New [a_mode; a_title] 1360 w0 = Return rbData w' /\
    exists object mode title style settings,
      object <> NULL /\
      trace w' = trace w0 ++ [new_Window object mode title style settings] /\
      heap w0 !! rbData = None /\
      heap w' = <[rbData := RObject 1360 (T_DATA None (Some fn_Window_Free) object)]>
                  (heap w0) /\
      (forall v, data_of w' v = Some object -> v = rbData) /\
      (forall w2,
         heap w2 !! rbData = Some (RObject 1360 (T_DATA None (Some fn_Window_Free) object)) ->
         exists w3,
           obj_free rbData w2 = Return tt w3 /\
           trace w3 = trace w2 ++ [delete_Window object] /\
           heap w3 = delete rbData (heap w2)).
Proof.
  assert (Hacc : accepted w0 [a_mode; a_title]).
  { exists a_mode, a_title, 5000, "SFML window"%string, [].
    split; [reflexivity|]. split; [split; [reflexivity|do 2 eexists; reflexivity]|].
    split; [discriminate|]. split; [split; reflexivity|exact I]. }
  pose proof (Window_New_pairs_new_with_delete [a_mode; a_title] 1360 w0 w0_well_placed
                w0_next_window_unused) as [Hreturns Hnew].
  destruct (Hreturns Hacc) as (rbData & w' & Hrun).
  rewrite Hrun in Hnew.
  split; [exact w0_well_placed|]. split; [exact w0_next_window_unused|].
  split; [exact Hacc|]. exists rbData, w'. split; [exact Hrun|exact Hnew].
Defined.

(** [new] with two, three and four well-typed arguments, in the example
    world: the run returns the wrapper, and the window was constructed
    with the arguments given. *)
Example Window_New_returns :
  (exists w',
     Window_New [a_mode; a_title] 1360 w0 = Return 1500 w' /\
     trace w' = [new_Window 7000 5000 "SFML window" None None] /\
     heap w' !! 1500 = Some (RObject 1360 (T_DATA None (Some fn_Window_Free) 7000))) /\
  (exists w',
     Window_New [a_mode; a_title; INT2FIX 4] 1360 w0 = Return 1500 w' /\
     trace w' = [new_Window 7000 5000 "SFML window" (Some 4) None]) /\
  (exists w',
     Window_New [a_mode; a_title; INT2FIX 4; some_settings] 1360 w0 = Return 1500 w' /\
     trace w' = [new_Window 7000 5000 "SFML window" (Some 4) (Some 5100)]).
Proof.
  split; [|split]; eexists.
  - split; [vm_compute; reflexivity|]. split; reflexivity.
  - split; [vm_compute; reflexivity|reflexivity].
  - split; [vm_compute; reflexivity|reflexivity].
Qed.

(* ===================================================================== *)
(** * The icon *)
(* ===================================================================== *)

Lemma FIX2LONG_range x : Word.LONG_MIN <= FIX2LONG x <= Word.LONG_MAX.
Proof.
  unfold FIX2LONG. rewrite Z.shiftr_div_pow2 by lia. change (2 ^ 1) with 2.
  assert (Hl : - 2 ^ 31 <= Word.to_long x < 2 ^ 31).
  { unfold Word.to_long. pose proof (Word_to_ulong_range x) as Hu.
    unfold Word.ULONG_MOD in *.
    destruct (Z.ltb_spec (Word.to_ulong x) (2 ^ 31)); lia. }
  unfold Word.LONG_MIN, Word.LONG_MAX.
  pose proof (Z.div_mod (Word.to_long x) 2 ltac:(lia)).
  pose proof (Z.mod_pos_bound (Word.to_long x) 2 ltac:(lia)). lia.
Qed.

(** What a Fixnum entry becomes in the buffer: its value modulo 256. *)
Lemma uint8_of_Fixnum v :
  Word.to_uint8 (Word.to_char (Z.land (Word.to_long (FIX2LONG v)) 255)) = FIX2LONG v mod 256.
Proof.
  rewrite (to_long_small _ (FIX2LONG_range v)), to_uint8_to_char, land_255.
  now rewrite Z.mod_mod by lia.
Qed.

Section Icon.

Context `{RubyCore} `{Externs} `{SFML}.

Lemma rb_ary_entry_in_range (w : world) pixels k flat (i : nat) v :
  heap w !! pixels = Some (RObject k (T_ARRAY flat)) ->
  Z.of_nat (length flat) <= Word.LONG_MAX ->
  flat !! i = Some v ->
  rb_ary_entry pixels (Word.to_long (Z.of_nat i)) w = Return v w.
Proof.
  intros Hp Hlen Hi. pose proof (lookup_lt_Some _ _ _ Hi) as Hlt.
  unfold rb_ary_entry, bind, RBASIC. rewrite Hp. simpl.
  rewrite to_long_small by (unfold Word.LONG_MIN, Word.LONG_MAX in *; lia).
  assert (E1 : (Z.of_nat i <? 0) = false) by (apply Z.ltb_ge; lia).
  assert (E2 : (Z.of_nat (length flat) <=? Z.of_nat i) = false) by (apply Z.leb_gt; lia).
  rewrite E1. cbv iota. rewrite E1, E2. simpl.
  now rewrite Nat2Z.id, Hi.
Qed.

Lemma NUM2CHR_Fixnum (w : world) v :
  FIXNUM_P v = true ->
  NUM2CHR v w = Return (Word.to_char (Z.land (Word.to_long (FIX2LONG v)) 255)) w.
Proof.
  intros Hv. unfold NUM2CHR, SPECIAL_CONST_P, NUM2INT. rewrite Hv. reflexivity.
Qed.

(** The loop of [Window_SetIcon] over an array of Fixnums: [n] rounds from
    index [i] on write the entries [i .. i+n-1], each modulo 256, into the
    buffer, and leave the world as it is. *)
Lemma fill_tempData_runs (w : world) pixels k flat :
  heap w !! pixels = Some (RObject k (T_ARRAY flat)) ->
  Z.of_nat (length flat) <= Word.LONG_MAX ->
  forall (n i : nat) (tempData : list Z),
    (i + n <= length flat)%nat ->
    (i + n <= length tempData)%nat ->
    (forall (j : nat) v, (i <= j < i + n)%nat -> flat !! j = Some v -> FIXNUM_P v = true) ->
    exists bytes,
      fill_tempData n pixels (Z.of_nat i) tempData w = Return bytes w /\
      length bytes = length tempData /\
      (forall (j : nat) v,
         (i <= j < i + n)%nat -> flat !! j = Some v -> bytes !! j = Some (FIX2LONG v mod 256)) /\
      (forall j : nat, (j < i)%nat -> bytes !! j = tempData !! j).
Proof.
  intros Hp Hlen. induction n as [|n IH]; intros i tempData Hflat Htemp Hfix.
  - exists tempData. split; [reflexivity|]. split; [reflexivity|]. split; [lia|auto].
  - destruct (lookup_lt_is_Some_2 flat i ltac:(lia)) as [v Hv].
    assert (Hvfix : FIXNUM_P v = true) by (apply (Hfix i); [lia|exact Hv]).
    simpl fill_tempData.
    erewrite bind_Return by (eapply rb_ary_entry_in_range; eassumption).
    erewrite bind_Return by (apply NUM2CHR_Fixnum; exact Hvfix).
    rewrite uint8_of_Fixnum, Nat2Z.id.
    replace (Z.of_nat i + 1) with (Z.of_nat (S i)) by lia.
    destruct (IH (S i) (<[i := FIX2LONG v mod 256]> tempData)) as (bytes & Hrun & Hl & Hnew & Hold).
    + lia.
    + rewrite length_insert. lia.
    + intros j u Hj. apply Hfix. lia.
    + exists bytes. split; [exact Hrun|]. rewrite length_insert in Hl. split; [exact Hl|].
      split.
      * intros j u Hj Hu. destruct (decide (j = i)) as [->|Hne].
        -- rewrite Hold by lia. rewrite list_lookup_insert_eq by lia. congruence.
        -- apply Hnew; [lia|exact Hu].
      * intros j Hj. rewrite Hold by lia. apply list_lookup_insert_ne. lia.
Qed.

Lemma rb_ary_flatten_runs (w : world) ary flat :
  is_Some (elements_of w ary) ->
  flatten (size (heap w)) (heap w) ary = Some flat ->
  rb_funcall ary "flatten" [] w
  = Return (brk w)
      (set_heap (<[brk w := RObject rb_cArray (T_ARRAY flat)]> (heap w))
                (brk w + sizeof_RVALUE) w).
Proof.
  intros [elts He] Hf. change (rb_funcall ary "flatten" []) with (rb_ary_flatten ary).
  unfold elements_of in He. unfold rb_ary_flatten.
  destruct (SPECIAL_CONST_P ary); [discriminate|].
  unfold bind, RBASIC.
  destruct (heap w !! ary) as [[k [| | |ptr| |]]|]; try discriminate.
  simpl. now rewrite Hf.
Qed.

(** A wrapper is still a wrapper after an object has been allocated. *)
Lemma data_of_after_rb_newobj (w : world) o v data :
  heap w !! brk w = None ->
  data_of w v = Some data ->
  data_of (set_heap (<[brk w := o]> (heap w)) (brk w + sizeof_RVALUE) w) v = Some data.
Proof.
  intros Hfree. unfold data_of. destruct (SPECIAL_CONST_P v); [discriminate|].
  simpl. destruct (decide (brk w = v)) as [<-|Hne].
  - now rewrite Hfree.
  - now rewrite lookup_insert_ne.
Qed.

(** C7, as the code has it.  [setIcon(width, height, pixels)] on a
    window, with Fixnums [width >= 0] and [height >= 0] and an array
    [pixels] that flattens to at least [width * height * 4] entries, the
    first [width * height * 4] of them Fixnums: the call returns after
    three calls, the allocation of a buffer of [width * height * 4] bytes,
    [SetIcon] with [width], [height] and that buffer, and the release of
    the buffer; the buffer passed has [width * height * 4] bytes, and the
    byte at each index is the entry at that index reduced modulo 256 (the
    entry itself when it lies in 0..255). *)
Theorem Window_SetIcon_forwards_bytes_modulo_256
    (w : world) (self object width height somePixels : Z) (flat : list VALUE) :
  data_of w self = Some object ->
  object <> NULL ->
  well_placed w ->
  0 <= width <= FIXNUM_MAX ->
  0 <= height <= FIXNUM_MAX ->
  is_Some (elements_of w somePixels) ->
  flatten (size (heap w)) (heap w) somePixels = Some flat ->
  width * height * 4 <= Z.of_nat (length flat) <= Word.LONG_MAX ->
  (forall (i : nat) v,
     Z.of_nat i < width * height * 4 -> flat !! i = Some v -> FIXNUM_P v = true) ->
  exists bytes w',
    Window_SetIcon self (INT2FIX width) (INT2FIX height) somePixels w = Return Qnil w' /\
    trace w' = trace w ++ [new_array (cxx_brk w) (width * height * 4);
                           SetIcon object width height (cxx_brk w) bytes;
                           delete_array (cxx_brk w)] /\
    Z.of_nat (length bytes) = width * height * 4 /\
    (forall (i : nat) v,
       Z.of_nat i < width * height * 4 -> flat !! i = Some v ->
       bytes !! i = Some (FIX2LONG v mod 256)).
Proof.
  intros Hself Hobject Hplaced Hwidth Hheight Harr Hflat Hlen Hfix.
  destruct Hplaced as (_ & _ & Hfree & _).
  unfold FIXNUM_MAX in *. unfold Word.LONG_MAX in Hlen.
  assert (Hsize : 0 <= width * height * 4 < 2 ^ 31) by nia.
  unfold Window_SetIcon. cbv zeta.
  rewrite !(FIX2UINT_INT2FIX width), !(FIX2UINT_INT2FIX height)
    by (unfold FIXNUM_MIN, FIXNUM_MAX; lia).
  rewrite !(Z.mod_small width), !(Z.mod_small height) by lia.
  assert (Hdata : Word.to_ulong (Word.to_uint (Word.to_uint (width * height) * 4))
                  = width * height * 4).
  { unfold Word.to_ulong, Word.to_uint, Word.ULONG_MOD.
    rewrite (Z.mod_small (width * height)) by nia.
    rewrite (Z.mod_small (width * height * 4)) by lia. apply Z.mod_small. lia. }
  rewrite !Hdata. set (n := width * height * 4) in *.
  (* tempData = new sf::Uint8[dataSize] *)
  erewrite bind_Return by reflexivity.
  (* pixels = somePixels.flatten *)
  erewrite bind_Return by (apply rb_ary_flatten_runs; [exact Harr|exact Hflat]).
  simpl brk. simpl heap.
  (* the loop *)
  match goal with
  | |- context [bind (fill_tempData _ _ _ _) _ ?w1] =>
    destruct (fill_tempData_runs w1 (brk w) rb_cArray flat
                (lookup_insert_eq _ _ _) ltac:(unfold Word.LONG_MAX; simpl; lia)
                (Z.to_nat n) 0%nat (replicate (Z.to_nat n) 0))
      as (bytes & Hrun & Hbytes & Hnew & _)
  end.
  { lia. }
  { rewrite length_replicate. lia. }
  { intros j v Hj. apply Hfix. lia. }
  change 0 with (Z.of_nat 0) at 1.
  erewrite bind_Return by exact Hrun.
  (* Data_Get_Struct( self, sf::Window, object ) *)
  erewrite bind_Return
    by (apply Data_Get_Struct_data, (data_of_after_rb_newobj
          (log (new_array (cxx_brk w) n) (set_cxx (cxx_heap w) (cxx_brk w + Z.max n 1) w)));
        [exact Hfree|exact Hself]).
  erewrite bind_Return by (apply sf_call; exact Hobject).
  erewrite bind_Return by reflexivity.
  exists bytes. eexists. split; [reflexivity|]. simpl.
  rewrite length_replicate in Hbytes.
  split; [now rewrite <- !app_assoc|]. split; [lia|].
  intros i v Hi Hv. apply Hnew; [lia|exact Hv].
Qed.

End Icon.

(** [setIcon(1, 1, [300, [7, 255], 0])] in the example world: the array
    flattens to 300, 7, 255, 0, and the buffer passed is 44, 7, 255, 0. *)
Example Window_SetIcon_of_300 :
  flatten (size (heap w0)) (heap w0) some_pixels
    = Some [INT2FIX 300; INT2FIX 7; INT2FIX 255; INT2FIX 0] /\
  exists w',
    Window_SetIcon a_window (INT2FIX 1) (INT2FIX 1) some_pixels w0 = Return Qnil w' /\
    trace w' = [new_array 7000 4; SetIcon 6000 1 1 7000 [44; 7; 255; 0]; delete_array 7000].
Proof.
  split; [reflexivity|]. eexists. split; [vm_compute; reflexivity|reflexivity].
Qed.

(** [setIcon(1, 2, ...)] on the same array, which is four entries short:
    the fifth entry read is [nil], [NUM2CHR] raises, and the buffer
    allocated before the loop is never released. *)
Example Window_SetIcon_of_short_array :
  exists w',
    Window_SetIcon a_window (INT2FIX 1) (INT2FIX 2) some_pixels w0
      = Raise rb_eTypeError "no implicit conversion from nil to integer" w' /\
    trace w' = [new_array 7000 8].
Proof. eexists. split; [vm_compute; reflexivity|reflexivity]. Qed.

(** C7 as it is described fails on that call: the first entry of the
    flattened array is 300, the first byte of the buffer is 44. *)
Lemma SetIcon_as_described_fails :
  ~ SetIcon_as_described w0 a_window 1 1 some_pixels.
Proof.
  intros Hdescribed.
  assert (Hd : data_of w0 a_window = Some 6000) by reflexivity.
  assert (Hf : flatten (size (heap w0)) (heap w0) some_pixels
               = Some [INT2FIX 300; INT2FIX 7; INT2FIX 255; INT2FIX 0]) by reflexivity.
  destruct (Hdescribed 6000 _ Hd Hf ltac:(simpl; lia))
    as (p & size & rawWidth & rawHeight & bytes & w' & Hrun & Htr & _ & Hbytes).
  destruct Window_SetIcon_of_300 as (_ & w1 & Hrun1 & Htr1).
  rewrite Hrun1 in Hrun. injection Hrun as <-.
  rewrite Htr1 in Htr. simpl in Htr. injection Htr as _ _ _ _ _ <- _.
  destruct (Hbytes 0%nat (INT2FIX 300) ltac:(lia) eq_refl) as (n & Hn & Hb).
  vm_compute in Hn. simpl in Hb. congruence.
Qed.

Lemma Window_SetIcon_witness :
  data_of w0 a_window = Some 6000 /\ 6000 <> NULL /\ well_placed w0 /\
  0 <= 1 <= FIXNUM_MAX /\
  is_Some (elements_of w0 some_pixels) /\
  flatten (size (heap w0)) (heap w0) some_pixels
    = Some [INT2FIX 300; INT2FIX 7; INT2FIX 255; INT2FIX 0] /\
  exists bytes w',
    Window_SetIcon a_window (INT2FIX 1) (INT2FIX 1) some_pixels w0 = Return Qnil w' /\
    trace w' = trace w0 ++ [new_array (cxx_brk w0) (1 * 1 * 4);
                            SetIcon 6000 1 1 (cxx_brk w0) bytes;
                            delete_array (cxx_brk w0)] /\
    Z.of_nat (length bytes) = 1 * 1 * 4 /\
    (forall (i : nat) v,
       Z.of_nat i < 1 * 1 * 4 ->
       [INT2FIX 300; INT2FIX 7; INT2FIX 255; INT2FIX 0] !! i = Some v ->
       bytes !! i = Some (FIX2LONG v mod 256)).
Proof.
  assert (Hd : data_of w0 a_window = Some 6000) by reflexivity.
  assert (Hn : 6000 <> NULL) by discriminate.
  assert (Hone : 0 <= 1 <= FIXNUM_MAX) by (unfold FIXNUM_MAX; lia).
  assert (Ha : is_Some (elements_of w0 some_pixels)) by (eexists; reflexivity).
  assert (Hf : flatten (size (heap w0)) (heap w0) some_pixels
               = Some [INT2FIX 300; INT2FIX 7; INT2FIX 255; INT2FIX 0]) by reflexivity.
  assert (Hlen : 1 * 1 * 4
                 <= Z.of_nat (length [INT2FIX 300; INT2FIX 7; INT2FIX 255; INT2FIX 0])
                 <= Word.LONG_MAX) by (unfold Word.LONG_MAX; simpl; lia).
  assert (Hfix : forall (i : nat) v,
            Z.of_nat i < 1 * 1 * 4 ->
            [INT2FIX 300; INT2FIX 7; INT2FIX 255; INT2FIX 0] !! i = Some v ->
            FIXNUM_P v = true).
  { intros [|[|[|[|i]]]] v Hi Hv; simpl in Hv; try lia; injection Hv as <-; reflexivity. }
  pose proof (Window_SetIcon_forwards_bytes_modulo_256 w0 a_window 6000 1 1 some_pixels _
                Hd Hn w0_well_placed Hone Hone Ha Hf Hlen Hfix) as Hrun.
  repeat (split; [assumption || exact w0_well_placed|]). exact Hrun.
Defined.

(* ===================================================================== *)
(** * More of Window.cpp: [Create] and [new] *)
(* ===================================================================== *)

Section CreateAndNew.

Context `{RubyCore} `{Externs} `{SFML}.

(** X1.  [Create] on a window with a number of arguments that is not 2, 3
    or 4, whatever the arguments are: [ArgError] is raised, the message
    ends with the number given, in decimal, and the world is as it was. *)
Theorem Window_Create_counts_its_arguments (w : world) (self object : Z) (args : list VALUE) :
  data_of w self = Some object ->
  length args <> 2%nat -> length args <> 3%nat -> length args <> 4%nat ->
  Window_Create args self w
  = Raise rb_eArgError
      ("Expected 2..4 arguments but was given " +:+ pretty (Z.of_nat (length args))) w.
Proof.
  intros Hself H2 H3 H4.
  apply (Window_Create_wrong_arity w self object args Hself); lia.
Qed.

(** X2.  [new] with one argument or with more than four, whatever the
    arguments and the class are: [ArgError] is raised, the message ends
    with the number given, in decimal, and the world is as it was; no
    window has been constructed. *)
Theorem Window_New_counts_its_arguments (w : world) (aKlass : VALUE) (args : list VALUE) :
  length args = 1%nat \/ (4 < length args)%nat ->
  Window_New args aKlass w
  = Raise rb_eArgError
      ("Expected 2..4 arguments but was given " +:+ pretty (Z.of_nat (length args))) w.
Proof.
  intros Hlen. apply (Window_New_wrong_arity w aKlass args); lia.
Qed.

Variables (w : world) (self object a0 a1 mode : Z) (title : string).
Hypothesis Hself : data_of w self = Some object.
Hypothesis Hobject : object <> NULL.
Hypothesis Hmode : wraps w a0 globalVideoModeClass mode.
Hypothesis Hmode_not_null : mode <> NULL.
Hypothesis Htitle : is_String w a1 title.

(** The steps of a branch of [Create] when every argument is accepted. *)
Ltac run_create :=
  repeat first
    [ erewrite bind_Return by (apply VALIDATE_CLASS_passes;
        first [ eapply class_of_wraps; eassumption
              | eapply class_of_String; eassumption
              | eassumption ])
    | erewrite bind_Return by (apply Data_Get_Struct_data; eapply data_of_wraps; eassumption)
    | erewrite bind_Return by (destruct Htitle; eapply STR2CSTR_String; eassumption)
    | erewrite bind_Return by (apply sf_call; exact Hobject)
    | erewrite bind_Return by (unfold deref;
        match goal with |- (if ?p =? NULL then _ else _) _ = _ =>
          destruct (Z.eqb_spec p NULL); [contradiction|reflexivity] end) ].

(** X3.  [Create] on a window with a VideoMode, a String and, when they
    are given, a Fixnum style and a ContextSettings: the call returns
    [nil] after exactly one call of the library's [Create] on that window,
    with the wrapped mode, the characters of the String up to its first
    NUL, the style reduced modulo [2^32] and the wrapped settings; nothing
    else in the world changes. *)
Theorem Window_Create_forwards_its_arguments :
  Window_Create [a0; a1] self w
    = Return Qnil (log (Create object mode (c_str title) None None) w) /\
  (forall a2,
     FIXNUM_P a2 = true ->
     Window_Create [a0; a1; a2] self w
       = Return Qnil (log (Create object mode (c_str title) (Some (FIX2UINT a2)) None) w)) /\
  (forall a2 a3 settings,
     FIXNUM_P a2 = true ->
     wraps w a3 globalContextSettingsClass settings ->
     settings <> NULL ->
     Window_Create [a0; a1; a2; a3] self w
       = Return Qnil
           (log (Create object mode (c_str title) (Some (FIX2UINT a2)) (Some settings)) w)).
Proof.
  split; [|split].
  - unfold Window_Create. rewrite (on_self w self object) by exact Hself.
    change (Z.of_nat (length [a0; a1])) with 2. cbv iota.
    change (arg [a0; a1] 0) with (ret (A := Z) a0).
    change (arg [a0; a1] 1) with (ret (A := Z) a1).
    unfold bind at 1. unfold bind at 1. unfold ret at 1. run_create.
    unfold bind at 1. unfold ret at 1. run_create.
    rewrite (sf_call _ _ _ Hobject). reflexivity.
  - intros a2 H2. assert (Hc2 : class_of w a2 = Some rb_cFixnum)
      by (unfold class_of; now rewrite H2).
    unfold Window_Create. rewrite (on_self w self object) by exact Hself.
    change (Z.of_nat (length [a0; a1; a2])) with 3. cbv iota.
    change (arg [a0; a1; a2] 0) with (ret (A := Z) a0).
    change (arg [a0; a1; a2] 1) with (ret (A := Z) a1).
    change (arg [a0; a1; a2] 2) with (ret (A := Z) a2).
    unfold bind at 1. unfold bind at 1. unfold ret at 1. run_create.
    unfold bind at 1. unfold ret at 1. run_create.
    unfold bind at 1. unfold ret at 1. run_create.
    rewrite (sf_call _ _ _ Hobject). reflexivity.
  - intros a2 a3 settings H2 H3 Hsettings.
    assert (Hc2 : class_of w a2 = Some rb_cFixnum) by (unfold class_of; now rewrite H2).
    unfold Window_Create. rewrite (on_self w self object) by exact Hself.
    change (Z.of_nat (length [a0; a1; a2; a3])) with 4. cbv iota.
    change (arg [a0; a1; a2; a3] 0) with (ret (A := Z) a0).
    change (arg [a0; a1; a2; a3] 1) with (ret (A := Z) a1).
    change (arg [a0; a1; a2; a3] 2) with (ret (A := Z) a2).
    change (arg [a0; a1; a2; a3] 3) with (ret (A := Z) a3).
    unfold bind at 1. unfold bind at 1. unfold ret at 1. run_create.
    unfold bind at 1. unfold ret at 1. run_create.
    unfold bind at 1. unfold ret at 1. run_create.
    unfold bind at 1. unfold ret at 1. run_create.
    rewrite (sf_call _ _ _ Hobject). reflexivity.
Qed.

End CreateAndNew.

Section NewReturns.

Context `{RubyCore} `{Externs} `{SFML}.

Variables (w : world) (aKlass a0 a1 mode : Z) (title : string).
Hypothesis Hmode : wraps w a0 globalVideoModeClass mode.
Hypothesis Hmode_not_null : mode <> NULL.
Hypothesis Htitle : is_String w a1 title.

(** X4.  [new] with a VideoMode, a String and, when they are given, a
    Fixnum style and a ContextSettings: the call returns a new object, at
    the address the allocator was at; exactly one call was made, the
    construction of an [sf::Window] from the wrapped mode, the characters
    of the String up to its first NUL, the style reduced modulo [2^32] and
    the wrapped settings; and the object space has gained that one object,
    an instance of the class [new] was called on. *)
Theorem Window_New_constructs_from_its_arguments :
  (exists w',
     Window_New [a0; a1] aKlass w = Return (brk w) w' /\
     trace w' = trace w ++ [new_Window (cxx_brk w) mode (c_str title) None None] /\
     heap w' = <[brk w := RObject aKlass (T_DATA None (Some fn_Window_Free) (cxx_brk w))]>
                 (heap w)) /\
  (forall a2,
     FIXNUM_P a2 = true ->
     exists w',
       Window_New [a0; a1; a2] aKlass w = Return (brk w) w' /\
       trace w' = trace w ++ [new_Window (cxx_brk w) mode (c_str title)
                                         (Some (FIX2UINT a2)) None] /\
       heap w' = <[brk w := RObject aKlass (T_DATA None (Some fn_Window_Free) (cxx_brk w))]>
                   (heap w)) /\
  (forall a2 a3 settings,
     FIXNUM_P a2 = true ->
     wraps w a3 globalContextSettingsClass settings ->
     settings <> NULL ->
     exists w',
       Window_New [a0; a1; a2; a3] aKlass w = Return (brk w) w' /\
       trace w' = trace w ++ [new_Window (cxx_brk w) mode (c_str title)
                                         (Some (FIX2UINT a2)) (Some settings)] /\
       heap w' = <[brk w := RObject aKlass (T_DATA None (Some fn_Window_Free) (cxx_brk w))]>
                   (heap w)).
Proof.
  split; [|split].
  - rewrite (Window_New_two_arguments w aKlass a0 a1 mode title) by assumption.
    eexists. repeat split.
  - intros a2 H2.
    rewrite (Window_New_three_arguments w aKlass a0 a1 mode title) by assumption.
    eexists. repeat split.
  - intros a2 a3 settings H2 H3 Hsettings.
    rewrite (Window_New_four_arguments w aKlass a0 a1 mode title Hmode Hmode_not_null Htitle
               a2 a3 settings) by assumption.
    eexists. repeat split.
Qed.

End NewReturns.

Section Agreement.

Context `{RubyCore} `{Externs} `{SFML}.

(** Two runs that start with the same quiet step agree when they agree
    after it. *)
Lemma agree_step {A B C} (w0 : world) (R : A -> world -> B -> world -> Prop)
    (c : M C) (k1 : C -> M A) (k2 : C -> M B) (w : world) :
  quiet c ->
  library_side w = library_side w0 ->
  (forall a w', library_side w' = library_side w0 -> agree R (k1 a w') (k2 a w')) ->
  agree R (bind c k1 w) (bind c k2 w).
Proof.
  intros Hq Hw Hk. unfold bind. specialize (Hq w).
  destruct (c w) as [a w1|exc msg w1|why]; simpl; [|auto..].
  apply Hk. congruence.
Qed.

(** Two runs whose first parts agree, agree when what follows does. *)
Lemma agree_bind {A B A' B'} (R' : A' -> world -> B' -> world -> Prop)
    (R : A -> world -> B -> world -> Prop)
    (c1 : M A') (c2 : M B') (k1 : A' -> M A) (k2 : B' -> M B) (w : world) :
  agree R' (c1 w) (c2 w) ->
  (forall a w1 b w2, R' a w1 b w2 -> agree R (k1 a w1) (k2 b w2)) ->
  agree R (bind c1 k1 w) (bind c2 k2 w).
Proof.
  intros Hc Hk. unfold bind.
  destruct (c1 w) as [a w1|exc1 msg1 w1|why1], (c2 w) as [b w2|exc2 msg2 w2|why2];
    simpl in Hc |- *; auto; contradiction.
Qed.

Ltac agree_steps w0 :=
  repeat (apply (agree_step w0);
          [ first [ apply quiet_arg | apply quiet_VALIDATE_CLASS | apply quiet_Data_Get_Struct
                  | apply quiet_deref | apply quiet_STR2CSTR ]
          | assumption
          | intros ? ? ? ]).

(** The last step of a branch: [object->Create(...)] against
    [new sf::Window(...)]. *)
Lemma agree_last (w w' : world) object mode title style settings :
  object <> NULL ->
  library_side w' = library_side w ->
  agree (fun _ w1 p w2 => same_arguments w object w1 p w2)
        (sf object (fun this => Create this mode title style settings) w')
        (cxx_new_Window mode title style settings w').
Proof.
  intros Hobject Hw. rewrite (sf_call w' object _ Hobject). simpl.
  unfold same_arguments. eauto 10.
Qed.

(** X5.  [Create] on a window and [new], given the same arguments (at
    least one) in the same world, treat them alike: either both raise the
    same exception with the same message and leave the same world, or
    both are stuck on the same fault, or both return, and then [Create]
    has made one call, the library's [Create] on the window, [new] has
    made one call, the construction of a window, both with the same mode,
    title, style and settings, and [new] returns a wrapper around the
    window constructed. *)
Theorem Window_New_validates_like_Window_Create
    (w : world) (self object aKlass : Z) (args : list VALUE) :
  data_of w self = Some object ->
  object <> NULL ->
  args <> [] ->
  agree (fun v w1 rbData w2 =>
           v = Qnil /\
           exists mode title style settings,
             trace w1 = trace w ++ [Create object mode title style settings] /\
             trace w2 = trace w ++ [new_Window (cxx_brk w) mode title style settings] /\
             heap w2 !! rbData
               = Some (RObject aKlass (T_DATA None (Some fn_Window_Free) (cxx_brk w))))
        (Window_Create args self w) (Window_New args aKlass w).
Proof.
  intros Hself Hobject Hargs.
  assert (Hnz : Z.of_nat (length args) <> 0) by (destruct args; [congruence|simpl; lia]).
  unfold Window_Create, Window_New. rewrite (on_self w self object) by exact Hself.
  cbv zeta.
  apply agree_bind with (R' := fun _ w1 p w2 => same_arguments w object w1 p w2).
  - assert (Hw : library_side w = library_side w) by reflexivity. revert Hw.
    generalize w at 1 4 5 as w'. intros w' Hw.
    destruct (Z.of_nat (length args)) as [|[[q|q|]|[q|[r|r|]|]|]|p];
      try contradiction; try (simpl; now auto);
      agree_steps w; now apply agree_last.
  - intros [] w1 p w2 (w' & mode & title & style & settings & Hls & -> & -> & ->).
    unfold library_side in Hls. injection Hls as Htr _ _ Hbrk.
    simpl. split; [reflexivity|]. exists mode, title, style, settings.
    rewrite Htr, Hbrk. repeat split. apply lookup_insert_eq.
Qed.

End Agreement.

Section NewValidation.

Context `{RubyCore} `{Externs} `{SFML}.

Variables (w : world) (aKlass : Z).
Hypothesis Hplaced : well_placed w.

Variables (VideoMode String' Fixnum ContextSettings : string).
Hypothesis HVideoMode : name_of w globalVideoModeClass = Some VideoMode.
Hypothesis HString : name_of w rb_cString = Some String'.
Hypothesis HFixnum : name_of w rb_cFixnum = Some Fixnum.
Hypothesis HContextSettings : name_of w globalContextSettingsClass = Some ContextSettings.

Ltac new_rejected_at j v pos c name :=
  exists j, v, pos, c, name, (with_name w name);
  split; [reflexivity|]; split; [reflexivity|];
  split; [congruence|];
  split; [intros [|[|[|[|?]]]] ? ? ? Hbefore Hargs Hreq; unfold required in Hreq;
          simpl in Hargs, Hreq; try lia; simplify_eq; congruence
         |];
  split; [assumption|]; split; reflexivity.

Ltac new_validate Hc Hn E :=
  rewrite (validate_step w Hplaced _ _ _ _ _ _ Hc Hn);
  match goal with
  | |- context [if ?c =? ?type then _ else _] =>
    destruct (Z.eqb_spec c type) as [E|E]
  end.

(** X6.  [new] with 2, 3 or 4 arguments of which one is not an instance
    of the class its position requires: [TypeError] is raised before
    anything is constructed; the message names the position of the first
    such argument and the required class, and the calls made and C++
    memory are as they were. *)
Theorem Window_New_rejects_wrong_class (args : list VALUE) :
  (2 <= length args <= 4)%nat ->
  Forall (fun v => is_Some (class_of w v)) args ->
  (exists (i : nat) v pos c,
     args !! i = Some v /\ required !! i = Some (pos, c) /\ class_of w v <> Some c) ->
  exists (j : nat) v pos c name w',
    args !! j = Some v /\ required !! j = Some (pos, c) /\
    class_of w v <> Some c /\
    (forall (i : nat) v' pos' c',
       (i < j)%nat -> args !! i = Some v' -> required !! i = Some (pos', c') ->
       class_of w v' = Some c') /\
    name_of w c = Some name /\
    Window_New args aKlass w
      = Raise rb_eTypeError (pos +:+ " argument must be instance of " +:+ c_str name) w' /\
    library_side w' = library_side w.
Proof.
  intros Hlen Hvalid (i & v & pos & c & Hi & Hr & Hbad).
  change (rejects w args (Window_New args aKlass w)). unfold rejects.
  unfold Window_New. cbv zeta.
  destruct args as [|a0 [|a1 [|a2 [|a3 [|a4 rest]]]]]; simpl in Hlen; try lia;
    rewrite !Forall_cons in Hvalid.
  - destruct Hvalid as ([c0 Hc0] & [c1 Hc1] & _).
    change (Z.of_nat (length [a0; a1])) with 2. cbv iota.
    change (arg [a0; a1] 0) with (ret (A := Z) a0).
    change (arg [a0; a1] 1) with (ret (A := Z) a1).
    unfold bind at 1. unfold bind at 1. unfold ret at 1.
    new_validate Hc0 HVideoMode E0;
      [|new_rejected_at 0%nat a0 "first" globalVideoModeClass VideoMode].
    unfold bind at 1. unfold ret at 1.
    new_validate Hc1 HString E1; [|new_rejected_at 1%nat a1 "second" rb_cString String'].
    exfalso. destruct i as [|[|i]]; unfold required in Hr; simpl in Hi, Hr;
      simplify_eq; congruence.
  - destruct Hvalid as ([c0 Hc0] & [c1 Hc1] & [c2 Hc2] & _).
    change (Z.of_nat (length [a0; a1; a2])) with 3. cbv iota.
    change (arg [a0; a1; a2] 0) with (ret (A := Z) a0).
    change (arg [a0; a1; a2] 1) with (ret (A := Z) a1).
    change (arg [a0; a1; a2] 2) with (ret (A := Z) a2).
    unfold bind at 1. unfold bind at 1. unfold ret at 1.
    new_validate Hc0 HVideoMode E0;
      [|new_rejected_at 0%nat a0 "first" globalVideoModeClass VideoMode].
    unfold bind at 1. unfold ret at 1.
    new_validate Hc1 HString E1; [|new_rejected_at 1%nat a1 "second" rb_cString String'].
    unfold bind at 1. unfold ret at 1.
    new_validate Hc2 HFixnum E2; [|new_rejected_at 2%nat a2 "third" rb_cFixnum Fixnum].
    exfalso. destruct i as [|[|[|i]]]; unfold required in Hr; simpl in Hi, Hr;
      simplify_eq; congruence.
  - destruct Hvalid as ([c0 Hc0] & [c1 Hc1] & [c2 Hc2] & [c3 Hc3] & _).
    change (Z.of_nat (length [a0; a1; a2; a3])) with 4. cbv iota.
    change (arg [a0; a1; a2; a3] 0) with (ret (A := Z) a0).
    change (arg [a0; a1; a2; a3] 1) with (ret (A := Z) a1).
    change (arg [a0; a1; a2; a3] 2) with (ret (A := Z) a2).
    change (arg [a0; a1; a2; a3] 3) with (ret (A := Z) a3).
    unfold bind at 1. unfold bind at 1. unfold ret at 1.
    new_validate Hc0 HVideoMode E0;
      [|new_rejected_at 0%nat a0 "first" globalVideoModeClass VideoMode].
    unfold bind at 1. unfold ret at 1.
    new_validate Hc1 HString E1; [|new_rejected_at 1%nat a1 "second" rb_cString String'].
    unfold bind at 1. unfold ret at 1.
    new_validate Hc2 HFixnum E2; [|new_rejected_at 2%nat a2 "third" rb_cFixnum Fixnum].
    unfold bind at 1. unfold ret at 1.
    new_validate Hc3 HContextSettings E3;
      [|new_rejected_at 3%nat a3 "fourth" globalContextSettingsClass ContextSettings].
    exfalso. destruct i as [|[|[|[|i]]]]; unfold required in Hr; simpl in Hi, Hr;
      simplify_eq; congruence.
Qed.

End NewValidation.

(* ===================================================================== *)
(** * More of Window.cpp: the icon buffer *)
(* ===================================================================== *)

Section IconBuffer.

Context `{RubyCore} `{Externs} `{SFML}.

Lemma icon_size_range aWidth aHeight : 0 <= icon_size aWidth aHeight < 2 ^ 32.
Proof. unfold icon_size. apply Word_to_ulong_range. Qed.

(** The size of the buffer for Fixnum sizes: the product modulo [2^32]. *)
Lemma icon_size_of_Fixnums width height :
  FIXNUM_MIN <= width <= FIXNUM_MAX ->
  FIXNUM_MIN <= height <= FIXNUM_MAX ->
  icon_size (INT2FIX width) (INT2FIX height) = (width * height * 4) mod 2 ^ 32.
Proof.
  intros Hw Hh. unfold icon_size.
  rewrite (FIX2UINT_INT2FIX width), (FIX2UINT_INT2FIX height) by assumption.
  unfold Word.to_ulong, Word.to_uint, Word.ULONG_MOD.
  rewrite Z.mod_mod by lia.
  rewrite <- Z.mul_mod by lia. rewrite Z.mul_mod_idemp_l by lia. reflexivity.
Qed.

Lemma quiet_rb_ary_flatten ary : quiet (rb_funcall ary "flatten" []).
Proof.
  change (rb_funcall ary "flatten" []) with (rb_ary_flatten ary). unfold rb_ary_flatten.
  assert (Hraise : quiet (A := Z)
            (n <- etype ary ;;
             rb_raise rb_eNoMethodError ("undefined method `flatten' for " +:+ n))).
  { apply quiet_bind; [apply quiet_etype|intros ?; apply quiet_rb_raise]. }
  destruct (SPECIAL_CONST_P ary); [exact Hraise|].
  apply quiet_bind; [apply quiet_RBASIC|]. intros o.
  destruct (body o); try exact Hraise.
  intros w. destruct (flatten (size (heap w)) (heap w) ary); reflexivity.
Qed.

Lemma quiet_rb_ary_entry ary offset : quiet (rb_ary_entry ary offset).
Proof.
  unfold rb_ary_entry. apply quiet_bind; [apply quiet_RBASIC|]. intros o.
  destruct (body o); try apply quiet_stuck.
  match goal with |- quiet (if ?b then _ else _) => destruct b end; apply quiet_ret.
Qed.

Lemma quiet_NUM2INT x : quiet (NUM2INT x).
Proof.
  unfold NUM2INT. destruct (FIXNUM_P x); [apply quiet_ret|].
  destruct (x =? Qnil); [apply quiet_rb_raise|apply quiet_stuck].
Qed.

Lemma quiet_NUM2CHR x : quiet (NUM2CHR x).
Proof.
  unfold NUM2CHR.
  assert (Hint : quiet (n <- NUM2INT x ;; ret (Word.to_char (Z.land n 255)))).
  { apply quiet_bind; [apply quiet_NUM2INT|intros ?; apply quiet_ret]. }
  destruct (SPECIAL_CONST_P x); [exact Hint|].
  apply quiet_bind; [apply quiet_RBASIC|]. intros o.
  destruct (body o) as [| [|c s] | | | |]; try exact Hint. apply quiet_ret.
Qed.

(** The loop leaves the library alone, and the buffer keeps its length. *)
Lemma fill_tempData_quiet pixels (n : nat) :
  forall index tempData w,
    match fill_tempData n pixels index tempData w with
    | Return bytes w' => library_side w' = library_side w /\ length bytes = length tempData
    | Raise _ _ w' => library_side w' = library_side w
    | Stuck _ => True
    end.
Proof.
  induction n as [|n IH]; intros index tempData w; [now split|].
  simpl fill_tempData. unfold bind at 1.
  pose proof (quiet_rb_ary_entry pixels (Word.to_long index) w) as Hentry.
  destruct (rb_ary_entry pixels (Word.to_long index) w) as [entry w1|exc msg w1|why];
    [|exact Hentry|exact I].
  unfold bind at 1. pose proof (quiet_NUM2CHR entry w1) as Hchr.
  destruct (NUM2CHR entry w1) as [c w2|exc msg w2|why]; [|congruence|exact I].
  specialize (IH (index + 1) (<[Z.to_nat index := Word.to_uint8 c]> tempData) w2).
  destruct (fill_tempData n pixels (index + 1) _ w2) as [bytes w3|exc msg w3|why];
    [|congruence|exact I].
  destruct IH as [Hls Hlen]. rewrite length_insert in Hlen. split; congruence.
Qed.

(** What [setIcon] has called when it is over: a run that returns has
    made three calls, the allocation of the buffer, [SetIcon] with a
    buffer of as many bytes as were allocated, and the release of the
    buffer; a run that raises has made one call, the allocation. *)
Lemma Window_SetIcon_calls (self aWidth aHeight somePixels : VALUE)
    (w : world) :
  match Window_SetIcon self aWidth aHeight somePixels w with
  | Return v w' =>
    v = Qnil /\
    exists object bytes,
      trace w' = trace w ++ [new_array (cxx_brk w) (icon_size aWidth aHeight);
                             SetIcon object (FIX2UINT aWidth) (FIX2UINT aHeight)
                                     (cxx_brk w) bytes;
                             delete_array (cxx_brk w)] /\
      Z.of_nat (length bytes) = icon_size aWidth aHeight
  | Raise _ _ w' => trace w' = trace w ++ [new_array (cxx_brk w) (icon_size aWidth aHeight)]
  | Stuck _ => True
  end.
Proof.
  pose proof (icon_size_range aWidth aHeight) as Hsize.
  unfold Window_SetIcon. cbv zeta. fold (icon_size aWidth aHeight).
  set (n := icon_size aWidth aHeight) in *.
  erewrite bind_Return by reflexivity.
  set (wa := log (new_array (cxx_brk w) n) (set_cxx (cxx_heap w) (cxx_brk w + Z.max n 1) w)).
  assert (Hwa : trace wa = trace w ++ [new_array (cxx_brk w) n]) by reflexivity.
  unfold bind at 1. pose proof (quiet_rb_ary_flatten somePixels wa) as Hflat.
  destruct (rb_funcall somePixels "flatten" [] wa) as [pixels w1|exc msg w1|why];
    [|unfold library_side in Hflat; congruence|exact I].
  unfold bind at 1.
  pose proof (fill_tempData_quiet pixels (Z.to_nat n) 0 (replicate (Z.to_nat n) 0) w1)
    as Hfill.
  destruct (fill_tempData (Z.to_nat n) pixels 0 _ w1) as [bytes w2|exc msg w2|why];
    [|unfold library_side in *; congruence|exact I].
  destruct Hfill as [Hfill Hlen]. rewrite length_replicate in Hlen.
  unfold bind at 1. pose proof (quiet_Data_Get_Struct self w2) as Hself.
  destruct (Data_Get_Struct self w2) as [object w3|exc msg w3|why];
    [|unfold library_side in *; congruence|exact I].
  unfold bind at 1. unfold sf, deref. unfold bind at 1.
  destruct (object =? NULL); [exact I|]. simpl.
  split; [reflexivity|]. exists object, bytes. split; [|lia].
  unfold library_side in *. rewrite <- !app_assoc. simpl.
  replace (trace w3) with (trace wa) by congruence. rewrite Hwa, <- app_assoc. reflexivity.
Qed.

Lemma rb_ary_entry_past_the_end (w : world) pixels k flat :
  heap w !! pixels = Some (RObject k (T_ARRAY flat)) ->
  Z.of_nat (length flat) <= Word.LONG_MAX ->
  rb_ary_entry pixels (Word.to_long (Z.of_nat (length flat))) w = Return Qnil w.
Proof.
  intros Hp Hlen. unfold rb_ary_entry, bind, RBASIC. rewrite Hp. simpl.
  rewrite to_long_small by (unfold Word.LONG_MIN, Word.LONG_MAX in *; lia).
  assert (E1 : (Z.of_nat (length flat) <? 0) = false) by (apply Z.ltb_ge; lia).
  rewrite E1. cbv iota. rewrite E1, Z.leb_refl. reflexivity.
Qed.

(** The loop over an array of Fixnums that ends before the loop does: the
    entry read past the end is [nil], and [NUM2CHR] raises. *)
Lemma fill_tempData_short (w : world) pixels k flat :
  heap w !! pixels = Some (RObject k (T_ARRAY flat)) ->
  Z.of_nat (length flat) <= Word.LONG_MAX ->
  Forall (fun v => FIXNUM_P v = true) flat ->
  forall (n i : nat) (tempData : list Z),
    (i <= length flat < i + n)%nat ->
    fill_tempData n pixels (Z.of_nat i) tempData w
    = Raise rb_eTypeError "no implicit conversion from nil to integer" w.
Proof.
  intros Hp Hlen Hfix. induction n as [|n IH]; intros i tempData Hi; [lia|].
  simpl fill_tempData. destruct (decide (i = length flat)) as [->|Hne].
  - erewrite bind_Return by (eapply rb_ary_entry_past_the_end; eassumption).
    reflexivity.
  - destruct (lookup_lt_is_Some_2 flat i ltac:(lia)) as [v Hv].
    assert (Hvfix : FIXNUM_P v = true).
    { rewrite Forall_lookup in Hfix. exact (Hfix i v Hv). }
    erewrite bind_Return by (eapply rb_ary_entry_in_range; eassumption).
    erewrite bind_Return by (apply NUM2CHR_Fixnum; exact Hvfix).
    replace (Z.of_nat i + 1) with (Z.of_nat (S i)) by lia.
    apply IH. lia.
Qed.

(** X8.  [setIcon] with sizes that ask for more bytes than the flattened
    pixels, all Fixnums, have entries, on any receiver: the buffer is
    allocated, the entries there are are read, the entry after the last
    is [nil], and [TypeError] is raised with the message of a failed
    conversion of [nil]; [SetIcon] has not been called and the buffer has
    not been released. *)
Theorem Window_SetIcon_raises_on_a_short_array
    (w : world) (self aWidth aHeight somePixels : VALUE) (flat : list VALUE) :
  is_Some (elements_of w somePixels) ->
  flatten (size (heap w)) (heap w) somePixels = Some flat ->
  Forall (fun v => FIXNUM_P v = true) flat ->
  Z.of_nat (length flat) <= Word.LONG_MAX ->
  Z.of_nat (length flat) < icon_size aWidth aHeight ->
  exists w',
    Window_SetIcon self aWidth aHeight somePixels w
      = Raise rb_eTypeError "no implicit conversion from nil to integer" w' /\
    trace w' = trace w ++ [new_array (cxx_brk w) (icon_size aWidth aHeight)].
Proof.
  intros Harr Hflat Hfix Hlen Hshort.
  unfold Window_SetIcon. cbv zeta. fold (icon_size aWidth aHeight).
  set (n := icon_size aWidth aHeight) in *.
  erewrite bind_Return by reflexivity.
  erewrite bind_Return by (apply rb_ary_flatten_runs; [exact Harr|exact Hflat]).
  simpl brk. simpl heap.
  change 0 with (Z.of_nat 0) at 1.
  erewrite bind_Raise.
  2:{ apply fill_tempData_short with (k := rb_cArray) (flat := flat);
        [apply lookup_insert_eq|exact Hlen|exact Hfix|lia]. }
  eexists. split; reflexivity.
Qed.

(** [setIcon] on a window, for any two size arguments: when the flattened
    pixels have at least [dataSize] entries and the first [dataSize] are
    Fixnums, the buffer is allocated, filled, passed and released. *)
Lemma Window_SetIcon_runs
    (w : world) (self object aWidth aHeight somePixels : Z) (flat : list VALUE) :
  data_of w self = Some object ->
  object <> NULL ->
  heap w !! brk w = None ->
  is_Some (elements_of w somePixels) ->
  flatten (size (heap w)) (heap w) somePixels = Some flat ->
  icon_size aWidth aHeight <= Z.of_nat (length flat) <= Word.LONG_MAX ->
  (forall (i : nat) v,
     Z.of_nat i < icon_size aWidth aHeight -> flat !! i = Some v -> FIXNUM_P v = true) ->
  exists bytes w',
    Window_SetIcon self aWidth aHeight somePixels w = Return Qnil w' /\
    trace w' = trace w ++ [new_array (cxx_brk w) (icon_size aWidth aHeight);
                           SetIcon object (FIX2UINT aWidth) (FIX2UINT aHeight)
                                   (cxx_brk w) bytes;
                           delete_array (cxx_brk w)] /\
    Z.of_nat (length bytes) = icon_size aWidth aHeight /\
    (forall (i : nat) v,
       Z.of_nat i < icon_size aWidth aHeight -> flat !! i = Some v ->
       bytes !! i = Some (FIX2LONG v mod 256)).
Proof.
  intros Hself Hobject Hfree Harr Hflat Hlen Hfix.
  pose proof (icon_size_range aWidth aHeight) as Hsize.
  unfold Window_SetIcon. cbv zeta. fold (icon_size aWidth aHeight).
  set (n := icon_size aWidth aHeight) in *.
  erewrite bind_Return by reflexivity.
  erewrite bind_Return by (apply rb_ary_flatten_runs; [exact Harr|exact Hflat]).
  simpl brk. simpl heap.
  match goal with
  | |- context [bind (fill_tempData _ _ _ _) _ ?w1] =>
    destruct (fill_tempData_runs w1 (brk w) rb_cArray flat
                (lookup_insert_eq _ _ _) ltac:(simpl; lia)
                (Z.to_nat n) 0%nat (replicate (Z.to_nat n) 0))
      as (bytes & Hrun & Hbytes & Hnew & _)
  end.
  { lia. }
  { rewrite length_replicate. lia. }
  { intros j v Hj. apply Hfix. lia. }
  change 0 with (Z.of_nat 0) at 1.
  erewrite bind_Return by exact Hrun.
  erewrite bind_Return
    by (apply Data_Get_Struct_data, (data_of_after_rb_newobj
          (log (new_array (cxx_brk w) n) (set_cxx (cxx_heap w) (cxx_brk w + Z.max n 1) w)));
        [exact Hfree|exact Hself]).
  erewrite bind_Return by (apply sf_call; exact Hobject).
  erewrite bind_Return by reflexivity.
  exists bytes. eexists. split; [reflexivity|]. simpl.
  rewrite length_replicate in Hbytes.
  split; [now rewrite <- !app_assoc|]. split; [lia|].
  intros i v Hi Hv. apply Hnew; [lia|exact Hv].
Qed.

Lemma all_Fixnums_true flat n :
  all_Fixnums flat n = true ->
  (n <= length flat)%nat /\
  forall (i : nat) v, (i < n)%nat -> flat !! i = Some v -> FIXNUM_P v = true.
Proof.
  unfold all_Fixnums. intros [Hlen Hall]%andb_true_iff.
  apply Nat.leb_le in Hlen. split; [exact Hlen|]. intros i v Hi Hv.
  rewrite forallb_forall in Hall. apply Hall, list_elem_of_In, elem_of_take.
  now exists i.
Qed.

(** The loop over an array of Fixnums and [nil]s stops at the first entry
    that is [nil] or missing: [NUM2CHR] raises there. *)
Lemma fill_tempData_stops (w : world) pixels k flat :
  heap w !! pixels = Some (RObject k (T_ARRAY flat)) ->
  Z.of_nat (length flat) <= Word.LONG_MAX ->
  Forall (fun v => FIXNUM_P v = true \/ v = Qnil) flat ->
  forall (n i : nat) (tempData : list Z),
    (i <= length flat)%nat ->
    all_Fixnums (drop i flat) n = false ->
    fill_tempData n pixels (Z.of_nat i) tempData w
    = Raise rb_eTypeError "no implicit conversion from nil to integer" w.
Proof.
  intros Hp Hlen Hall. induction n as [|n IH]; intros i tempData Hi Hbad.
  - unfold all_Fixnums in Hbad. rewrite take_0 in Hbad. discriminate.
  - simpl fill_tempData. destruct (decide (i = length flat)) as [->|Hne].
    + erewrite bind_Return by (eapply rb_ary_entry_past_the_end; eassumption).
      reflexivity.
    + destruct (lookup_lt_is_Some_2 flat i ltac:(lia)) as [v Hv].
      erewrite bind_Return by (eapply rb_ary_entry_in_range; eassumption).
      rewrite (drop_S _ _ _ Hv) in Hbad. unfold all_Fixnums in Hbad. simpl in Hbad.
      destruct (FIXNUM_P v) eqn:Hfix.
      * erewrite bind_Return by (apply NUM2CHR_Fixnum; exact Hfix).
        replace (Z.of_nat i + 1) with (Z.of_nat (S i)) by lia.
        apply IH; [lia|exact Hbad].
      * rewrite Forall_lookup in Hall. destruct (Hall i v Hv) as [Hf| ->]; [congruence|].
        reflexivity.
Qed.

(** X7.  [setIcon] on a window, with pixels that flatten to Fixnums and
    [nil]s, comes to one of two ends, and the entries decide which.  When
    each of the first [dataSize] entries is there and is a Fixnum, the
    call returns [nil] after three calls: the allocation of the buffer,
    [SetIcon] with a buffer of [dataSize] bytes, the release of the
    buffer.  Otherwise, one of them being [nil] or missing, [TypeError] is
    raised with the message of a failed conversion of [nil], and one call
    has been made, the allocation: [SetIcon] has not been called and the
    buffer, allocated before the loop, has not been released. *)
Theorem Window_SetIcon_leaks_when_it_raises
    (w : world) (self object aWidth aHeight somePixels : Z) (flat : list VALUE) :
  data_of w self = Some object ->
  object <> NULL ->
  heap w !! brk w = None ->
  is_Some (elements_of w somePixels) ->
  flatten (size (heap w)) (heap w) somePixels = Some flat ->
  Z.of_nat (length flat) <= Word.LONG_MAX ->
  Forall (fun v => FIXNUM_P v = true \/ v = Qnil) flat ->
  if all_Fixnums flat (Z.to_nat (icon_size aWidth aHeight)) then
    exists bytes w',
      Window_SetIcon self aWidth aHeight somePixels w = Return Qnil w' /\
      trace w' = trace w ++ [new_array (cxx_brk w) (icon_size aWidth aHeight);
                             SetIcon object (FIX2UINT aWidth) (FIX2UINT aHeight)
                                     (cxx_brk w) bytes;
                             delete_array (cxx_brk w)] /\
      Z.of_nat (length bytes) = icon_size aWidth aHeight
  else
    exists w',
      Window_SetIcon self aWidth aHeight somePixels w
        = Raise rb_eTypeError "no implicit conversion from nil to integer" w' /\
      trace w' = trace w ++ [new_array (cxx_brk w) (icon_size aWidth aHeight)].
Proof.
  intros Hself Hobject Hfree Harr Hflat Hlen Hall.
  pose proof (icon_size_range aWidth aHeight) as Hsize.
  destruct (all_Fixnums flat (Z.to_nat (icon_size aWidth aHeight))) eqn:Hdecide.
  - apply all_Fixnums_true in Hdecide as [Hn Hfix].
    destruct (Window_SetIcon_runs w self object aWidth aHeight somePixels flat)
      as (bytes & w' & Hrun & Htrace & Hbytes & _); try assumption.
    + lia.
    + intros i v Hi. apply Hfix. lia.
    + now exists bytes, w'.
  - unfold Window_SetIcon. cbv zeta. fold (icon_size aWidth aHeight).
    set (n := icon_size aWidth aHeight) in *.
    erewrite bind_Return by reflexivity.
    erewrite bind_Return by (apply rb_ary_flatten_runs; [exact Harr|exact Hflat]).
    simpl brk. simpl heap.
    change 0 with (Z.of_nat 0) at 1.
    erewrite bind_Raise.
    2:{ apply fill_tempData_stops with (k := rb_cArray) (flat := flat);
          [apply lookup_insert_eq|exact Hlen|exact Hall|lia|exact Hdecide]. }
    eexists. split; reflexivity.
Qed.

(** X9.  The size of the icon buffer is computed in [unsigned int]
    arithmetic.  [setIcon(width, height, pixels)] on a window, with any
    two Fixnums, negative ones included: with [n] the product
    [width * height * 4] reduced modulo [2^32], when the flattened pixels
    have at least [n] entries and the first [n] are Fixnums, the library's
    [SetIcon] receives [width] and [height] reduced modulo [2^32] and a
    buffer of [n] bytes, the entries modulo 256.  (With 65536 and 16384,
    [n] is 0 and the buffer is empty.) *)
Theorem Window_SetIcon_size_wraps
    (w : world) (self object width height somePixels : Z) (flat : list VALUE) :
  data_of w self = Some object ->
  object <> NULL ->
  heap w !! brk w = None ->
  FIXNUM_MIN <= width <= FIXNUM_MAX ->
  FIXNUM_MIN <= height <= FIXNUM_MAX ->
  is_Some (elements_of w somePixels) ->
  flatten (size (heap w)) (heap w) somePixels = Some flat ->
  (width * height * 4) mod 2 ^ 32 <= Z.of_nat (length flat) <= Word.LONG_MAX ->
  (forall (i : nat) v,
     Z.of_nat i < (width * height * 4) mod 2 ^ 32 -> flat !! i = Some v ->
     FIXNUM_P v = true) ->
  exists bytes w',
    Window_SetIcon self (INT2FIX width) (INT2FIX height) somePixels w = Return Qnil w' /\
    trace w' = trace w ++ [new_array (cxx_brk w) ((width * height * 4) mod 2 ^ 32);
                           SetIcon object (width mod 2 ^ 32) (height mod 2 ^ 32)
                                   (cxx_brk w) bytes;
                           delete_array (cxx_brk w)] /\
    Z.of_nat (length bytes) = (width * height * 4) mod 2 ^ 32 /\
    (forall (i : nat) v,
       Z.of_nat i < (width * height * 4) mod 2 ^ 32 -> flat !! i = Some v ->
       bytes !! i = Some (FIX2LONG v mod 256)).
Proof.
  intros Hself Hobject Hfree Hwidth Hheight Harr Hflat Hlen Hfix.
  rewrite <- (icon_size_of_Fixnums width height Hwidth Hheight) in *.
  rewrite <- (FIX2UINT_INT2FIX width Hwidth), <- (FIX2UINT_INT2FIX height Hheight).
  now apply Window_SetIcon_runs.
Qed.

End IconBuffer.

(* ===================================================================== *)
(** * More of Window.cpp: the title, the life of a window, the getters *)
(* ===================================================================== *)

Lemma fixnum_of_range i : FIXNUM_MIN <= fixnum_of i <= FIXNUM_MAX.
Proof.
  unfold fixnum_of, FIXNUM_MIN, FIXNUM_MAX.
  pose proof (Z.mod_pos_bound (i + 2 ^ 30) (2 ^ 31) ltac:(lia)). lia.
Qed.

Lemma fixnum_of_small i : FIXNUM_MIN <= i <= FIXNUM_MAX -> fixnum_of i = i.
Proof.
  unfold fixnum_of, FIXNUM_MIN, FIXNUM_MAX. intros Hi. rewrite Z.mod_small by lia. lia.
Qed.

(** A Fixnum made of any integer holds its low 31 bits, signed. *)
Lemma FIX2LONG_INT2FIX_wraps i : FIX2LONG (INT2FIX i) = fixnum_of i.
Proof.
  assert (Hsame : INT2FIX i = INT2FIX (fixnum_of i)).
  { rewrite !INT2FIX_odd. unfold fixnum_of.
    pose proof (Z.div_mod (i + 2 ^ 30) (2 ^ 31) ltac:(lia)) as Hdm.
    replace (2 * i + 1)
      with (2 * ((i + 2 ^ 30) mod 2 ^ 31 - 2 ^ 30) + 1 + ((i + 2 ^ 30) / 2 ^ 31) * 2 ^ 32)
      by lia.
    now rewrite Z.mod_add by lia. }
  rewrite Hsame. apply FIX2LONG_INT2FIX, fixnum_of_range.
Qed.

Section Title.

Context `{RubyCore} `{Externs} `{SFML}.

Variables (w : world) (self object : Z).
Hypothesis Hself : data_of w self = Some object.
Hypothesis Hobject : object <> NULL.

Lemma STR2CSTR_immediate (x : VALUE) (n : string) :
  SPECIAL_CONST_P x = true ->
  etype x w = Return n w ->
  STR2CSTR x w = Raise rb_eTypeError ("can't convert " +:+ n +:+ " into String") w.
Proof. intros Hsp Hn. unfold STR2CSTR. rewrite Hsp. now rewrite (bind_Return _ _ _ _ _ Hn). Qed.

(** X10.  [setTitle] on a window: a String is forwarded, in one call, as
    the characters before its first NUL; [nil], [true], [false] and a
    Fixnum are not converted: [TypeError] is raised, the message names
    what was given, and the library is not called. *)
Theorem Window_SetTitle_forwards_a_String (aTitle : VALUE) :
  (forall s, is_String w aTitle s ->
     Window_SetTitle self aTitle w = Return Qnil (log (SetTitle object (c_str s)) w)) /\
  (aTitle = Qnil ->
     Window_SetTitle self aTitle w
       = Raise rb_eTypeError "can't convert nil into String" w) /\
  (aTitle = Qtrue ->
     Window_SetTitle self aTitle w
       = Raise rb_eTypeError "can't convert true into String" w) /\
  (aTitle = Qfalse ->
     Window_SetTitle self aTitle w
       = Raise rb_eTypeError "can't convert false into String" w) /\
  (FIXNUM_P aTitle = true ->
     Window_SetTitle self aTitle w
       = Raise rb_eTypeError "can't convert Fixnum into String" w).
Proof.
  unfold Window_SetTitle. rewrite (on_self w self object) by exact Hself.
  split; [|split; [|split; [|split]]].
  - intros s [Hsp Hs].
    erewrite bind_Return by (eapply STR2CSTR_String; eassumption).
    erewrite bind_Return by (apply sf_call; exact Hobject). reflexivity.
  - intros ->. reflexivity.
  - intros ->. reflexivity.
  - intros ->. reflexivity.
  - intros Hfix. apply bind_Raise.
    apply (STR2CSTR_immediate aTitle "Fixnum").
    + unfold SPECIAL_CONST_P. now rewrite Hfix.
    + unfold etype. rewrite Hfix.
      destruct (Z.eqb_spec aTitle Qnil) as [->|_]; [discriminate Hfix|reflexivity].
Qed.

End Title.

Section Life.

Context `{RubyCore} `{Externs} `{SFML}.

Variables (w : world) (aKlass a0 a1 mode : Z) (title : string).
Hypothesis Hplaced : well_placed w.
Hypothesis Hmode : wraps w a0 globalVideoModeClass mode.
Hypothesis Hmode_not_null : mode <> NULL.
Hypothesis Htitle : is_String w a1 title.

(** X11.  The life of a window.  [new] with a VideoMode and a String
    returns a wrapper; [display] on that wrapper returns [nil]; the
    collector then finalises the wrapper.  The three together make three
    calls and no other: the construction of a window, [Display] on that
    window, the deletion of that window; and the wrapper is gone. *)
Theorem new_display_finalise :
  exists rbData w1 w2 w3,
    Window_New [a0; a1] aKlass w = Return rbData w1 /\
    Window_Display rbData w1 = Return Qnil w2 /\
    obj_free rbData w2 = Return tt w3 /\
    trace w3 = trace w ++ [new_Window (cxx_brk w) mode (c_str title) None None;
                           Display (cxx_brk w);
                           delete_Window (cxx_brk w)] /\
    heap w3 !! rbData = None.
Proof.
  destruct Hplaced as (Hge & Hal & Hfree & Hcxx).
  pose proof (aligned_not_special _ Hge Hal) as Hsp.
  assert (Hn : cxx_brk w <> NULL) by (unfold NULL; lia).
  exists (brk w). eexists. eexists.
  rewrite (Window_New_two_arguments w aKlass a0 a1 mode title) by assumption.
  assert (Hdisplay : forall w1,
            heap w1 !! brk w
              = Some (RObject aKlass (T_DATA None (Some fn_Window_Free) (cxx_brk w))) ->
            Window_Display (brk w) w1 = Return Qnil (log (Display (cxx_brk w)) w1)).
  { intros w1 Hw1. unfold Window_Display.
    rewrite (on_self w1 (brk w) (cxx_brk w)) by (unfold data_of; now rewrite Hsp, Hw1).
    erewrite bind_Return by (apply sf_call; exact Hn). reflexivity. }
  match goal with
  | |- exists w3, Return _ ?w1 = _ /\ _ =>
    destruct (obj_free_Window_Free (log (Display (cxx_brk w)) w1) (brk w) aKlass None
                (cxx_brk w) Hn (lookup_insert_eq _ _ _)) as (w3 & Hfin & Htr & Hgone)
  end.
  exists w3. split; [reflexivity|]. split; [apply Hdisplay, lookup_insert_eq|].
  split; [exact Hfin|]. split; [|exact Hgone].
  rewrite Htr. simpl. now rewrite <- !app_assoc.
Qed.

End Life.

Section Wrappers.

Context `{RubyCore} `{Externs} `{SFML}.

Variables (w : world) (self object : Z).
Hypothesis Hself : data_of w self = Some object.
Hypothesis Hobject : object <> NULL.
Hypothesis Hplaced : well_placed w.

(** X12.  [getInput] does not remember the wrapper it made: two calls in
    a row return two different objects, both wrappers, without free
    function, around the one [sf::Input] of the window; the library has
    been asked twice. *)
Theorem Window_GetInput_twice :
  exists v1 w1 v2 w2,
    Window_GetInput self w = Return v1 w1 /\
    Window_GetInput self w1 = Return v2 w2 /\
    v1 <> v2 /\
    heap w2 !! v1 = Some (RObject globalInputClass (T_DATA None None (myInput object))) /\
    heap w2 !! v2 = Some (RObject globalInputClass (T_DATA None None (myInput object))) /\
    trace w2 = trace w ++ [GetInput object; GetInput object].
Proof.
  destruct Hplaced as (_ & _ & Hfree & _).
  assert (Hrun : forall w', data_of w' self = Some object ->
            Window_GetInput self w'
            = Return (brk w')
                (set_heap (<[brk w' := RObject globalInputClass
                                         (T_DATA None None (myInput object))]> (heap w'))
                          (brk w' + sizeof_RVALUE) (log (GetInput object) w'))).
  { intros w' Hw'. unfold Window_GetInput. rewrite (on_self w' self object) by exact Hw'.
    erewrite bind_Return by (apply sf_call; exact Hobject). reflexivity. }
  exists (brk w). eexists. exists (brk w + sizeof_RVALUE). eexists.
  split; [apply Hrun, Hself|]. split.
  - apply Hrun. apply (data_of_after_rb_newobj (log (GetInput object) w)); assumption.
  - simpl. split; [unfold sizeof_RVALUE; lia|]. split.
    + rewrite lookup_insert_ne by (unfold sizeof_RVALUE; lia). apply lookup_insert_eq.
    + split; [apply lookup_insert_eq|]. now rewrite <- app_assoc.
Qed.

End Wrappers.

Section Sizes.

Context `{RubyCore} `{Externs} `{SFML} `{Readings}.

Variables (w : world) (self object : Z).
Hypothesis Hself : data_of w self = Some object.
Hypothesis Hobject : object <> NULL.

Lemma Window_GetWidth_runs :
  Window_GetWidth self w = Return (INT2FIX (Word.to_uint (GetWidth_reading w object))) w.
Proof.
  unfold Window_GetWidth. rewrite (on_self w self object) by exact Hself.
  unfold sf_GetWidth, deref, bind.
  destruct (Z.eqb_spec object NULL); [contradiction|reflexivity].
Qed.

Lemma Window_GetHeight_runs :
  Window_GetHeight self w = Return (INT2FIX (Word.to_uint (GetHeight_reading w object))) w.
Proof.
  unfold Window_GetHeight. rewrite (on_self w self object) by exact Hself.
  unfold sf_GetHeight, deref, bind.
  destruct (Z.eqb_spec object NULL); [contradiction|reflexivity].
Qed.

(** X13.  [getWidth] and [getHeight] on a window return Fixnums and leave
    the world as it is.  The Fixnum holds the size the library reports as
    long as that is at most [2^30 - 1]; from [2^30] on it holds the low 31
    bits of the size, signed.  A size that fits, read with [getWidth] and
    [getHeight] and handed back to [setSize], reaches the library as it
    was reported. *)
Theorem Window_GetWidth_GetHeight_return_Fixnums :
  0 <= GetWidth_reading w object < 2 ^ 32 ->
  0 <= GetHeight_reading w object < 2 ^ 32 ->
  exists width height,
    Window_GetWidth self w = Return width w /\
    Window_GetHeight self w = Return height w /\
    FIXNUM_P width = true /\ FIXNUM_P height = true /\
    FIX2LONG width = fixnum_of (GetWidth_reading w object) /\
    FIX2LONG height = fixnum_of (GetHeight_reading w object) /\
    (GetWidth_reading w object <= FIXNUM_MAX ->
     GetHeight_reading w object <= FIXNUM_MAX ->
     FIX2LONG width = GetWidth_reading w object /\
     FIX2LONG height = GetHeight_reading w object /\
     Window_SetSize self width height w
       = Return Qnil
           (log (SetSize object (GetWidth_reading w object) (GetHeight_reading w object)) w)).
Proof.
  intros Hw Hh. do 2 eexists.
  split; [apply Window_GetWidth_runs|]. split; [apply Window_GetHeight_runs|].
  unfold Word.to_uint, Word.ULONG_MOD. rewrite !Z.mod_small by assumption.
  split; [apply FIXNUM_P_INT2FIX|]. split; [apply FIXNUM_P_INT2FIX|].
  split; [apply FIX2LONG_INT2FIX_wraps|]. split; [apply FIX2LONG_INT2FIX_wraps|].
  intros Hwfit Hhfit.
  assert (Hwr : FIXNUM_MIN <= GetWidth_reading w object <= FIXNUM_MAX)
    by (unfold FIXNUM_MIN; lia).
  assert (Hhr : FIXNUM_MIN <= GetHeight_reading w object <= FIXNUM_MAX)
    by (unfold FIXNUM_MIN; lia).
  split; [now apply FIX2LONG_INT2FIX|]. split; [now apply FIX2LONG_INT2FIX|].
  unfold Window_SetSize. rewrite (on_self w self object) by exact Hself.
  rewrite !FIX2UINT_INT2FIX by assumption. rewrite !Z.mod_small by assumption.
  erewrite bind_Return by (apply sf_call; exact Hobject). reflexivity.
Qed.

(** X14.  [isOpened] on a window returns [true] or [false], as the
    library reports, and leaves the world as it is; what it returns is a
    flag [show] accepts: [show] forwards it to the library and does not
    raise. *)
Theorem Window_IsOpened_returns_a_flag :
  exists v,
    Window_IsOpened self w = Return v w /\
    (v = Qtrue <-> IsOpened_reading w object = true) /\
    (v = Qfalse <-> IsOpened_reading w object = false) /\
    Window_Show self v w = Return Qnil (log (Show object (IsOpened_reading w object)) w).
Proof.
  assert (Hrun : Window_IsOpened self w
                 = Return (if IsOpened_reading w object then Qtrue else Qfalse) w).
  { unfold Window_IsOpened. rewrite (on_self w self object) by exact Hself.
    unfold sf_IsOpened, deref, bind.
    destruct (Z.eqb_spec object NULL); [contradiction|]. unfold ret.
    now destruct (IsOpened_reading w object). }
  eexists. split; [exact Hrun|].
  unfold Window_Show. rewrite (on_self w self object) by exact Hself.
  destruct (IsOpened_reading w object).
  - split; [tauto|]. split; [split; discriminate|]. apply flag_true; assumption.
  - split; [split; discriminate|]. split; [tauto|]. apply flag_false; assumption.
Qed.

End Sizes.

Section Nesting.

Context `{RubyCore} `{Externs} `{SFML}.

(** X15.  How the pixels are nested does not matter to [setIcon]: two
    arrays that flatten to the same entries, given with the same sizes on
    the same window, make the same three calls, with the same bytes. *)
Theorem Window_SetIcon_ignores_nesting
    (w : world) (self object aWidth aHeight pixels1 pixels2 : Z) (flat : list VALUE) :
  data_of w self = Some object ->
  object <> NULL ->
  heap w !! brk w = None ->
  is_Some (elements_of w pixels1) ->
  is_Some (elements_of w pixels2) ->
  flatten (size (heap w)) (heap w) pixels1 = Some flat ->
  flatten (size (heap w)) (heap w) pixels2 = Some flat ->
  icon_size aWidth aHeight <= Z.of_nat (length flat) <= Word.LONG_MAX ->
  (forall (i : nat) v,
     Z.of_nat i < icon_size aWidth aHeight -> flat !! i = Some v -> FIXNUM_P v = true) ->
  exists bytes w1 w2,
    Window_SetIcon self aWidth aHeight pixels1 w = Return Qnil w1 /\
    Window_SetIcon self aWidth aHeight pixels2 w = Return Qnil w2 /\
    trace w1 = trace w ++ [new_array (cxx_brk w) (icon_size aWidth aHeight);
                           SetIcon object (FIX2UINT aWidth) (FIX2UINT aHeight)
                                   (cxx_brk w) bytes;
                           delete_array (cxx_brk w)] /\
    trace w2 = trace w1.
Proof.
  intros Hself Hobject Hfree Harr1 Harr2 Hflat1 Hflat2 Hlen Hfix.
  destruct (Window_SetIcon_runs w self object aWidth aHeight pixels1 flat
              Hself Hobject Hfree Harr1 Hflat1 Hlen Hfix)
    as (bytes1 & w1 & Hrun1 & Htr1 & Hlen1 & Hbytes1).
  destruct (Window_SetIcon_runs w self object aWidth aHeight pixels2 flat
              Hself Hobject Hfree Harr2 Hflat2 Hlen Hfix)
    as (bytes2 & w2 & Hrun2 & Htr2 & Hlen2 & Hbytes2).
  assert (Hsame : bytes2 = bytes1).
  { apply list_eq. intros i.
    destruct (decide (Z.of_nat i < icon_size aWidth aHeight)) as [Hi|Hi].
    - destruct (lookup_lt_is_Some_2 flat i ltac:(lia)) as [v Hv].
      now rewrite (Hbytes1 i v Hi Hv), (Hbytes2 i v Hi Hv).
    - rewrite !lookup_ge_None_2 by lia. reflexivity. }
  subst bytes2. exists bytes1, w1, w2. repeat split; congruence.
Qed.

End Nesting.

(* ===================================================================== *)
(** * The example world, again *)
(* ===================================================================== *)

Lemma a_window_in_w0 : data_of w0 a_window = Some 6000 /\ 6000 <> NULL.
Proof. split; [reflexivity|discriminate]. Qed.

Lemma a_mode_in_w0 : wraps w0 a_mode globalVideoModeClass 5000 /\ 5000 <> NULL.
Proof. split; [|discriminate]. split; [reflexivity|]. do 2 eexists. reflexivity. Qed.

Lemma a_title_in_w0 : is_String w0 a_title "SFML window".
Proof. split; reflexivity. Qed.

Lemma some_pixels_in_w0 :
  is_Some (elements_of w0 some_pixels) /\
  flatten (size (heap w0)) (heap w0) some_pixels
    = Some [INT2FIX 300; INT2FIX 7; INT2FIX 255; INT2FIX 0] /\
  Forall (fun v => FIXNUM_P v = true) [INT2FIX 300; INT2FIX 7; INT2FIX 255; INT2FIX 0] /\
  Z.of_nat (length [INT2FIX 300; INT2FIX 7; INT2FIX 255; INT2FIX 0]) <= Word.LONG_MAX.
Proof.
  split; [eexists; reflexivity|]. split; [reflexivity|].
  split; [repeat constructor|]. unfold Word.LONG_MAX. simpl. lia.
Qed.

Lemma Window_Create_counts_witness :
  data_of w0 a_window = Some 6000 /\
  length [a_mode] <> 2%nat /\ length [a_mode] <> 3%nat /\ length [a_mode] <> 4%nat /\
  Window_Create [a_mode] a_window w0
  = Raise rb_eArgError
      ("Expected 2..4 arguments but was given " +:+ pretty (Z.of_nat (length [a_mode]))) w0.
Proof.
  destruct a_window_in_w0 as [Hd _].
  assert (H2 : length [a_mode] <> 2%nat) by discriminate.
  assert (H3 : length [a_mode] <> 3%nat) by discriminate.
  assert (H4 : length [a_mode] <> 4%nat) by discriminate.
  pose proof (Window_Create_counts_its_arguments w0 a_window 6000 [a_mode] Hd H2 H3 H4)
    as Hrun.
  repeat (split; [assumption|]). exact Hrun.
Defined.

Lemma Window_New_counts_witness :
  (length [a_mode] = 1%nat \/ (4 < length [a_mode])%nat) /\
  Window_New [a_mode] 1360 w0
  = Raise rb_eArgError
      ("Expected 2..4 arguments but was given " +:+ pretty (Z.of_nat (length [a_mode]))) w0.
Proof.
  assert (Hlen : length [a_mode] = 1%nat \/ (4 < length [a_mode])%nat) by (left; reflexivity).
  pose proof (Window_New_counts_its_arguments w0 1360 [a_mode] Hlen) as Hrun.
  split; [exact Hlen|exact Hrun].
Defined.

Lemma Window_Create_forwards_witness :
  data_of w0 a_window = Some 6000 /\ 6000 <> NULL /\
  wraps w0 a_mode globalVideoModeClass 5000 /\ 5000 <> NULL /\
  is_String w0 a_title "SFML window" /\
  Window_Create [a_mode; a_title] a_window w0
    = Return Qnil (log (Create 6000 5000 (c_str "SFML window") None None) w0).
Proof.
  destruct a_window_in_w0 as [Hd Hn]. destruct a_mode_in_w0 as [Hm Hmn].
  pose proof a_title_in_w0 as Ht.
  pose proof (Window_Create_forwards_its_arguments w0 a_window 6000 a_mode a_title 5000
                "SFML window" Hd Hn Hm Hmn Ht) as Hrun.
  repeat (split; [assumption|]). exact (proj1 Hrun).
Defined.

Lemma Window_New_constructs_witness :
  wraps w0 a_mode globalVideoModeClass 5000 /\ 5000 <> NULL /\
  is_String w0 a_title "SFML window" /\
  exists w',
    Window_New [a_mode; a_title] 1360 w0 = Return (brk w0) w' /\
    trace w' = trace w0 ++ [new_Window (cxx_brk w0) 5000 (c_str "SFML window") None None] /\
    heap w' = <[brk w0 := RObject 1360 (T_DATA None (Some fn_Window_Free) (cxx_brk w0))]>
                (heap w0).
Proof.
  destruct a_mode_in_w0 as [Hm Hmn]. pose proof a_title_in_w0 as Ht.
  pose proof (Window_New_constructs_from_its_arguments w0 1360 a_mode a_title 5000
                "SFML window" Hm Hmn Ht) as Hrun.
  repeat (split; [assumption|]). exact (proj1 Hrun).
Defined.

Lemma Window_New_validates_witness :
  data_of w0 a_window = Some 6000 /\ 6000 <> NULL /\
  [a_mode; a_title; a_title] <> [] /\
  agree (fun v w1 rbData w2 =>
           v = Qnil /\
           exists mode title style settings,
             trace w1 = trace w0 ++ [Create 6000 mode title style settings] /\
             trace w2 = trace w0 ++ [new_Window (cxx_brk w0) mode title style settings] /\
             heap w2 !! rbData
               = Some (RObject 1360 (T_DATA None (Some fn_Window_Free) (cxx_brk w0))))
        (Window_Create [a_mode; a_title; a_title] a_window w0)
        (Window_New [a_mode; a_title; a_title] 1360 w0).
Proof.
  destruct a_window_in_w0 as [Hd Hn].
  assert (Hargs : [a_mode; a_title; a_title] <> []) by discriminate.
  pose proof (Window_New_validates_like_Window_Create w0 a_window 6000 1360
                [a_mode; a_title; a_title] Hd Hn Hargs) as Hrun.
  split; [exact Hd|]. split; [exact Hn|]. split; [exact Hargs|exact Hrun].
Defined.

Lemma Window_New_rejects_witness :
  well_placed w0 /\
  name_of w0 globalVideoModeClass = Some "SFML::VideoMode" /\
  name_of w0 rb_cString = Some "String" /\
  name_of w0 rb_cFixnum = Some "Fixnum" /\
  name_of w0 globalContextSettingsClass = Some "SFML::ContextSettings" /\
  (2 <= length [a_mode; a_title; a_title] <= 4)%nat /\
  Forall (fun v => is_Some (class_of w0 v)) [a_mode; a_title; a_title] /\
  exists (j : nat) v pos c name w',
    [a_mode; a_title; a_title] !! j = Some v /\ required !! j = Some (pos, c) /\
    class_of w0 v <> Some c /\
    (forall (i : nat) v' pos' c',
       (i < j)%nat -> [a_mode; a_title; a_title] !! i = Some v' ->
       required !! i = Some (pos', c') -> class_of w0 v' = Some c') /\
    name_of w0 c = Some name /\
    Window_New [a_mode; a_title; a_title] 1360 w0
      = Raise rb_eTypeError (pos +:+ " argument must be instance of " +:+ c_str name) w' /\
    library_side w' = library_side w0.
Proof.
  assert (Hlen : (2 <= length [a_mode; a_title; a_title] <= 4)%nat) by (simpl; lia).
  assert (Hvalid : Forall (fun v => is_Some (class_of w0 v)) [a_mode; a_title; a_title])
    by (repeat constructor; eexists; reflexivity).
  assert (Hn1 : name_of w0 globalVideoModeClass = Some "SFML::VideoMode") by reflexivity.
  assert (Hn2 : name_of w0 rb_cString = Some "String") by reflexivity.
  assert (Hn3 : name_of w0 rb_cFixnum = Some "Fixnum") by reflexivity.
  assert (Hn4 : name_of w0 globalContextSettingsClass = Some "SFML::ContextSettings")
    by reflexivity.
  assert (Hbad : exists (i : nat) v pos c,
            [a_mode; a_title; a_title] !! i = Some v /\ required !! i = Some (pos, c) /\
            class_of w0 v <> Some c).
  { exists 2%nat, a_title, "third", rb_cFixnum.
    split; [reflexivity|]. split; [reflexivity|]. discriminate. }
  pose proof (Window_New_rejects_wrong_class w0 1360 w0_well_placed
                "SFML::VideoMode" "String" "Fixnum" "SFML::ContextSettings"
                Hn1 Hn2 Hn3 Hn4 [a_mode; a_title; a_title] Hlen Hvalid Hbad) as Hrun.
  split; [exact w0_well_placed|]. repeat (split; [assumption|]). exact Hrun.
Defined.

Lemma Window_SetIcon_short_witness :
  is_Some (elements_of w0 some_pixels) /\
  flatten (size (heap w0)) (heap w0) some_pixels
    = Some [INT2FIX 300; INT2FIX 7; INT2FIX 255; INT2FIX 0] /\
  Forall (fun v => FIXNUM_P v = true) [INT2FIX 300; INT2FIX 7; INT2FIX 255; INT2FIX 0] /\
  Z.of_nat (length [INT2FIX 300; INT2FIX 7; INT2FIX 255; INT2FIX 0]) <= Word.LONG_MAX /\
  Z.of_nat (length [INT2FIX 300; INT2FIX 7; INT2FIX 255; INT2FIX 0])
    < icon_size (INT2FIX 1) (INT2FIX 2) /\
  exists w',
    Window_SetIcon Qnil (INT2FIX 1) (INT2FIX 2) some_pixels w0
      = Raise rb_eTypeError "no implicit conversion from nil to integer" w' /\
    trace w' = trace w0 ++ [new_array (cxx_brk w0) (icon_size (INT2FIX 1) (INT2FIX 2))].
Proof.
  destruct some_pixels_in_w0 as (Ha & Hf & Hfix & Hlen).
  assert (Hshort : Z.of_nat (length [INT2FIX 300; INT2FIX 7; INT2FIX 255; INT2FIX 0])
                   < icon_size (INT2FIX 1) (INT2FIX 2)) by reflexivity.
  pose proof (Window_SetIcon_raises_on_a_short_array w0 Qnil (INT2FIX 1) (INT2FIX 2)
                some_pixels _ Ha Hf Hfix Hlen Hshort) as Hrun.
  repeat (split; [assumption|]). exact Hrun.
Defined.

Lemma Window_SetIcon_leaks_witness :
  data_of w0_holed a_window = Some 6000 /\ 6000 <> NULL /\
  heap w0_holed !! brk w0_holed = None /\
  is_Some (elements_of w0_holed holed_pixels) /\
  flatten (size (heap w0_holed)) (heap w0_holed) holed_pixels
    = Some [INT2FIX 1; Qnil; INT2FIX 3; INT2FIX 4] /\
  Z.of_nat (length [INT2FIX 1; Qnil; INT2FIX 3; INT2FIX 4]) <= Word.LONG_MAX /\
  Forall (fun v => FIXNUM_P v = true \/ v = Qnil) [INT2FIX 1; Qnil; INT2FIX 3; INT2FIX 4] /\
  all_Fixnums [INT2FIX 1; Qnil; INT2FIX 3; INT2FIX 4]
              (Z.to_nat (icon_size (INT2FIX 1) (INT2FIX 1))) = false /\
  exists w',
    Window_SetIcon a_window (INT2FIX 1) (INT2FIX 1) holed_pixels w0_holed
      = Raise rb_eTypeError "no implicit conversion from nil to integer" w' /\
    trace w' = trace w0_holed
               ++ [new_array (cxx_brk w0_holed) (icon_size (INT2FIX 1) (INT2FIX 1))].
Proof.
  assert (Hd : data_of w0_holed a_window = Some 6000) by reflexivity.
  assert (Hn : 6000 <> NULL) by discriminate.
  assert (Hfree : heap w0_holed !! brk w0_holed = None) by reflexivity.
  assert (Ha : is_Some (elements_of w0_holed holed_pixels)) by (eexists; reflexivity).
  assert (Hf : flatten (size (heap w0_holed)) (heap w0_holed) holed_pixels
               = Some [INT2FIX 1; Qnil; INT2FIX 3; INT2FIX 4]) by reflexivity.
  assert (Hlen : Z.of_nat (length [INT2FIX 1; Qnil; INT2FIX 3; INT2FIX 4]) <= Word.LONG_MAX)
    by (vm_compute; discriminate).
  assert (Hall : Forall (fun v => FIXNUM_P v = true \/ v = Qnil)
                        [INT2FIX 1; Qnil; INT2FIX 3; INT2FIX 4]).
  { repeat constructor; right; reflexivity. }
  assert (Hdecide : all_Fixnums [INT2FIX 1; Qnil; INT2FIX 3; INT2FIX 4]
                                (Z.to_nat (icon_size (INT2FIX 1) (INT2FIX 1))) = false)
    by reflexivity.
  pose proof (Window_SetIcon_leaks_when_it_raises w0_holed a_window 6000 (INT2FIX 1) (INT2FIX 1)
                holed_pixels _ Hd Hn Hfree Ha Hf Hlen Hall) as Hrun.
  rewrite Hdecide in Hrun.
  split; [exact Hd|]. split; [exact Hn|]. split; [exact Hfree|]. split; [exact Ha|].
  split; [exact Hf|]. split; [exact Hlen|]. split; [exact Hall|].
  split; [exact Hdecide|exact Hrun].
Defined.

Lemma Window_SetIcon_size_wraps_witness :
  data_of w0 a_window = Some 6000 /\ 6000 <> NULL /\ heap w0 !! brk w0 = None /\
  FIXNUM_MIN <= 65536 <= FIXNUM_MAX /\ FIXNUM_MIN <= 16384 <= FIXNUM_MAX /\
  is_Some (elements_of w0 some_pixels) /\
  flatten (size (heap w0)) (heap w0) some_pixels
    = Some [INT2FIX 300; INT2FIX 7; INT2FIX 255; INT2FIX 0] /\
  (65536 * 16384 * 4) mod 2 ^ 32
    <= Z.of_nat (length [INT2FIX 300; INT2FIX 7; INT2FIX 255; INT2FIX 0]) <= Word.LONG_MAX /\
  exists bytes w',
    Window_SetIcon a_window (INT2FIX 65536) (INT2FIX 16384) some_pixels w0 = Return Qnil w' /\
    trace w' = trace w0 ++ [new_array (cxx_brk w0) ((65536 * 16384 * 4) mod 2 ^ 32);
                            SetIcon 6000 (65536 mod 2 ^ 32) (16384 mod 2 ^ 32)
                                    (cxx_brk w0) bytes;
                            delete_array (cxx_brk w0)] /\
    Z.of_nat (length bytes) = (65536 * 16384 * 4) mod 2 ^ 32 /\
    (forall (i : nat) v,
       Z.of_nat i < (65536 * 16384 * 4) mod 2 ^ 32 ->
       [INT2FIX 300; INT2FIX 7; INT2FIX 255; INT2FIX 0] !! i = Some v ->
       bytes !! i = Some (FIX2LONG v mod 256)).
Proof.
  destruct a_window_in_w0 as [Hd Hn]. destruct some_pixels_in_w0 as (Ha & Hf & _ & Hl).
  assert (Hfree : heap w0 !! brk w0 = None) by reflexivity.
  assert (Hw : FIXNUM_MIN <= 65536 <= FIXNUM_MAX) by (unfold FIXNUM_MIN, FIXNUM_MAX; lia).
  assert (Hh : FIXNUM_MIN <= 16384 <= FIXNUM_MAX) by (unfold FIXNUM_MIN, FIXNUM_MAX; lia).
  assert (Hlen : (65536 * 16384 * 4) mod 2 ^ 32
                 <= Z.of_nat (length [INT2FIX 300; INT2FIX 7; INT2FIX 255; INT2FIX 0])
                 <= Word.LONG_MAX) by (split; [vm_compute; discriminate|exact Hl]).
  assert (Hfix : forall (i : nat) v,
            Z.of_nat i < (65536 * 16384 * 4) mod 2 ^ 32 ->
            [INT2FIX 300; INT2FIX 7; INT2FIX 255; INT2FIX 0] !! i = Some v ->
            FIXNUM_P v = true).
  { intros i v Hi. change ((65536 * 16384 * 4) mod 2 ^ 32) with 0 in Hi. lia. }
  pose proof (Window_SetIcon_size_wraps w0 a_window 6000 65536 16384 some_pixels _
                Hd Hn Hfree Hw Hh Ha Hf Hlen Hfix) as Hrun.
  repeat (split; [assumption|]). exact Hrun.
Defined.

Lemma Window_SetTitle_witness :
  data_of w0 a_window = Some 6000 /\ 6000 <> NULL /\
  is_String w0 a_title "SFML window" /\
  Window_SetTitle a_window a_title w0
    = Return Qnil (log (SetTitle 6000 (c_str "SFML window")) w0) /\
  Window_SetTitle a_window Qnil w0
    = Raise rb_eTypeError "can't convert nil into String" w0.
Proof.
  destruct a_window_in_w0 as [Hd Hn]. pose proof a_title_in_w0 as Ht.
  pose proof (Window_SetTitle_forwards_a_String w0 a_window 6000 Hd Hn a_title) as Hstring.
  pose proof (Window_SetTitle_forwards_a_String w0 a_window 6000 Hd Hn Qnil) as Hnil.
  repeat (split; [assumption|]).
  split; [exact (proj1 Hstring _ Ht)|exact (proj1 (proj2 Hnil) eq_refl)].
Defined.

Lemma new_display_finalise_witness :
  well_placed w0 /\ wraps w0 a_mode globalVideoModeClass 5000 /\ 5000 <> NULL /\
  is_String w0 a_title "SFML window" /\
  exists rbData w1 w2 w3,
    Window_New [a_mode; a_title] 1360 w0 = Return rbData w1 /\
    Window_Display rbData w1 = Return Qnil w2 /\
    obj_free rbData w2 = Return tt w3 /\
    trace w3 = trace w0 ++ [new_Window (cxx_brk w0) 5000 (c_str "SFML window") None None;
                            Display (cxx_brk w0);
                            delete_Window (cxx_brk w0)] /\
    heap w3 !! rbData = None.
Proof.
  destruct a_mode_in_w0 as [Hm Hmn]. pose proof a_title_in_w0 as Ht.
  pose proof (new_display_finalise w0 1360 a_mode a_title 5000 "SFML window"
                w0_well_placed Hm Hmn Ht) as Hrun.
  split; [exact w0_well_placed|]. repeat (split; [assumption|]). exact Hrun.
Defined.

Lemma Window_GetInput_twice_witness :
  data_of w0 a_window = Some 6000 /\ 6000 <> NULL /\ well_placed w0 /\
  exists v1 w1 v2 w2,
    Window_GetInput a_window w0 = Return v1 w1 /\
    Window_GetInput a_window w1 = Return v2 w2 /\
    v1 <> v2 /\
    heap w2 !! v1 = Some (RObject globalInputClass (T_DATA None None (myInput 6000))) /\
    heap w2 !! v2 = Some (RObject globalInputClass (T_DATA None None (myInput 6000))) /\
    trace w2 = trace w0 ++ [GetInput 6000; GetInput 6000].
Proof.
  destruct a_window_in_w0 as [Hd Hn].
  pose proof (Window_GetInput_twice w0 a_window 6000 Hd Hn w0_well_placed) as Hrun.
  split; [exact Hd|]. split; [exact Hn|]. split; [exact w0_well_placed|exact Hrun].
Defined.

Lemma Window_GetWidth_GetHeight_witness :
  data_of w0 a_window = Some 6000 /\ 6000 <> NULL /\
  0 <= GetWidth_reading w0 6000 < 2 ^ 32 /\
  0 <= GetHeight_reading w0 6000 < 2 ^ 32 /\
  exists width height,
    Window_GetWidth a_window w0 = Return width w0 /\
    Window_GetHeight a_window w0 = Return height w0 /\
    FIXNUM_P width = true /\ FIXNUM_P height = true /\
    FIX2LONG width = fixnum_of (GetWidth_reading w0 6000) /\
    FIX2LONG height = fixnum_of (GetHeight_reading w0 6000) /\
    (GetWidth_reading w0 6000 <= FIXNUM_MAX ->
     GetHeight_reading w0 6000 <= FIXNUM_MAX ->
     FIX2LONG width = GetWidth_reading w0 6000 /\
     FIX2LONG height = GetHeight_reading w0 6000 /\
     Window_SetSize a_window width height w0
       = Return Qnil
           (log (SetSize 6000 (GetWidth_reading w0 6000) (GetHeight_reading w0 6000)) w0)).
Proof.
  destruct a_window_in_w0 as [Hd Hn].
  assert (Hw : 0 <= GetWidth_reading w0 6000 < 2 ^ 32) by (simpl; lia).
  assert (Hh : 0 <= GetHeight_reading w0 6000 < 2 ^ 32) by (simpl; lia).
  pose proof (Window_GetWidth_GetHeight_return_Fixnums w0 a_window 6000 Hd Hn Hw Hh) as Hrun.
  repeat (split; [assumption|]). exact Hrun.
Defined.

Lemma Window_IsOpened_witness :
  data_of w0 a_window = Some 6000 /\ 6000 <> NULL /\
  exists v,
    Window_IsOpened a_window w0 = Return v w0 /\
    (v = Qtrue <-> IsOpened_reading w0 6000 = true) /\
    (v = Qfalse <-> IsOpened_reading w0 6000 = false) /\
    Window_Show a_window v w0 = Return Qnil (log (Show 6000 (IsOpened_reading w0 6000)) w0).
Proof.
  destruct a_window_in_w0 as [Hd Hn].
  pose proof (Window_IsOpened_returns_a_flag w0 a_window 6000 Hd Hn) as Hrun.
  split; [exact Hd|]. split; [exact Hn|exact Hrun].
Defined.

Lemma Window_SetIcon_nesting_witness :
  data_of w1 a_window = Some 6000 /\ 6000 <> NULL /\ heap w1 !! brk w1 = None /\
  is_Some (elements_of w1 some_pixels) /\ is_Some (elements_of w1 flat_pixels) /\
  flatten (size (heap w1)) (heap w1) some_pixels
    = Some [INT2FIX 300; INT2FIX 7; INT2FIX 255; INT2FIX 0] /\
  flatten (size (heap w1)) (heap w1) flat_pixels
    = Some [INT2FIX 300; INT2FIX 7; INT2FIX 255; INT2FIX 0] /\
  icon_size (INT2FIX 1) (INT2FIX 1)
    <= Z.of_nat (length [INT2FIX 300; INT2FIX 7; INT2FIX 255; INT2FIX 0]) <= Word.LONG_MAX /\
  exists bytes w2 w3,
    Window_SetIcon a_window (INT2FIX 1) (INT2FIX 1) some_pixels w1 = Return Qnil w2 /\
    Window_SetIcon a_window (INT2FIX 1) (INT2FIX 1) flat_pixels w1 = Return Qnil w3 /\
    trace w2 = trace w1 ++ [new_array (cxx_brk w1) (icon_size (INT2FIX 1) (INT2FIX 1));
                            SetIcon 6000 (FIX2UINT (INT2FIX 1)) (FIX2UINT (INT2FIX 1))
                                    (cxx_brk w1) bytes;
                            delete_array (cxx_brk w1)] /\
    trace w3 = trace w2.
Proof.
  assert (Hd : data_of w1 a_window = Some 6000) by reflexivity.
  assert (Hn : 6000 <> NULL) by discriminate.
  assert (Hfree : heap w1 !! brk w1 = None) by reflexivity.
  assert (Ha1 : is_Some (elements_of w1 some_pixels)) by (eexists; reflexivity).
  assert (Ha2 : is_Some (elements_of w1 flat_pixels)) by (eexists; reflexivity).
  assert (Hf1 : flatten (size (heap w1)) (heap w1) some_pixels
                = Some [INT2FIX 300; INT2FIX 7; INT2FIX 255; INT2FIX 0]) by reflexivity.
  assert (Hf2 : flatten (size (heap w1)) (heap w1) flat_pixels
                = Some [INT2FIX 300; INT2FIX 7; INT2FIX 255; INT2FIX 0]) by reflexivity.
  assert (Hlen : icon_size (INT2FIX 1) (INT2FIX 1)
                 <= Z.of_nat (length [INT2FIX 300; INT2FIX 7; INT2FIX 255; INT2FIX 0])
                 <= Word.LONG_MAX) by (split; vm_compute; discriminate).
  assert (Hfix : forall (i : nat) v,
            Z.of_nat i < icon_size (INT2FIX 1) (INT2FIX 1) ->
            [INT2FIX 300; INT2FIX 7; INT2FIX 255; INT2FIX 0] !! i = Some v ->
            FIXNUM_P v = true).
  { intros i v _ Hv. destruct some_pixels_in_w0 as (_ & _ & Hall & _).
    rewrite Forall_lookup in Hall. exact (Hall i v Hv). }
  pose proof (Window_SetIcon_ignores_nesting w1 a_window 6000 (INT2FIX 1) (INT2FIX 1)
                some_pixels flat_pixels _ Hd Hn Hfree Ha1 Ha2 Hf1 Hf2 Hlen Hfix) as Hrun.
  split; [exact Hd|]. split; [exact Hn|]. split; [exact Hfree|].
  split; [exact Ha1|]. split; [exact Ha2|]. split; [exact Hf1|]. split; [exact Hf2|].
  split; [exact Hlen|exact Hrun].
Defined.
